(** * Round and recipient-registry reconciliation: a shallow embedding

    The two client modules that rebuild the state of a funding round and of
    its recipient registry from ledger events are embedded here as Rocq
    functions:

    - [Round]: [getApprovedFunding], [getRoundNumber], [getRoundInfo];
    - [Recipients]: [getTcrColumns], [decodeTcrItemData],
      [decodeRecipientAdded], [getProjects], [getProject].

    The ledger (contract reads and event logs), the clock, the off-ledger
    document store and the metadata decoder are inputs of the functions.
    Contract reads are total functions of the ledger snapshot: transport
    failures are outside this development.  What the code itself can raise
    (a [throw], a [BigNumber.toNumber] overflow, a property read on
    [undefined], an exception coming out of the decoder) is kept, in an
    error monad.

    Numbers: a [BigNumber] and a block number are integers.  A luxon
    [DateTime] is either valid, and then compared through its epoch
    milliseconds, or invalid, and then every comparison with it is false.
    [FixedNumber.fromValue] fails when the amount cannot be written with
    the 18 decimals of the default fixed-point format, and the [PubKey]
    constructor when it rejects the coordinates.  Strings: addresses and
    item ids are hexadecimal ASCII strings, [===] is equality of strings. *)

From Stdlib Require Import ZArith List String Ascii Bool Lia.
Import ListNotations.

(** ** JavaScript and ethers values used by both modules *)

Module Js.

Local Open Scope Z_scope.

(** What a call can throw. *)
Inductive exn : Type :=
| Error (message : string)      (* [throw new Error(message)] *)
| NumericFault                  (* the NUMERIC_FAULT of ethers: [toNumber] out of
                                   the safe range, a fixed-point underflow *)
| InvalidArgument               (* the INVALID_ARGUMENT of ethers *)
| AssertionError                (* a failed [assert] *)
| TypeError                     (* a property read on [undefined] *)
| External (what : string).     (* an exception raised inside a collaborator *)

Inductive result (A : Type) : Type :=
| Ok (a : A)
| Err (e : exn).

Arguments Ok {A} a.
Arguments Err {A} e.

Definition bind {A B : Type} (r : result A) (k : A -> result B) : result B :=
  match r with
  | Ok a => k a
  | Err e => Err e
  end.

(** An event record of the ledger client: the block it was emitted in and
    its decoded arguments. *)
Record Event (A : Type) : Type := mkEvent {
  blockNumber : Z;
  args : A
}.

Arguments mkEvent {A} blockNumber args.
Arguments blockNumber {A} e.
Arguments args {A} e.

(** [BigNumber] is an arbitrary-precision integer: [Z], no wrap-around.
    [toNumber] throws unless the value fits 53 bits. *)
Definition BigNumber : Type := Z.

Definition MAX_SAFE_INTEGER : Z := 9007199254740991.

Definition toNumber (x : BigNumber) : result Z :=
  if Z.abs x <=? MAX_SAFE_INTEGER then Ok x else Err NumericFault.

(** A luxon [DateTime]: valid, with its epoch milliseconds, or invalid.
    [valueOf()] is the milliseconds of a valid one and [NaN] for an invalid
    one. *)
Inductive DateTime : Type :=
| Valid (ts : Z)
| Invalid.

(** The largest time value of a JavaScript [Date], 8.64e15 milliseconds:
    [new Date(ts)] is an invalid date exactly when [ts] is beyond it on
    either side. *)
Definition MAX_DATE : Z := 8640000000000000.

Definition validDate (ts : Z) : bool := Z.abs ts <=? MAX_DATE.

(** [DateTime.fromSeconds(seconds)] in the local zone.  The timestamp is
    [seconds * 1000]; the constructor computes the calendar fields from
    [new Date(ts + offset * 60 * 1000)], where [offset] is the offset of the
    zone at [ts] in minutes, read from [new Date(ts)], and the result is
    invalid when those fields are not numbers.  [offset] is the zone of the
    machine, as a function of the timestamp. *)
Definition fromSeconds (offset : Z -> Z) (seconds : Z) : DateTime :=
  let ts := seconds * 1000 in
  if validDate ts && validDate (ts + offset ts * 60 * 1000) then Valid ts else Invalid.

(** [DateTime.local()]: the reading of the clock, a valid DateTime. *)
Definition local (clock : Z) : DateTime := Valid clock.

(** [x < y] on two DateTimes compares their [valueOf()]: false as soon as
    one of them is [NaN]. *)
Definition lessThan (x y : DateTime) : bool :=
  match x, y with
  | Valid x, Valid y => x <? y
  | _, _ => false
  end.

(** A [FixedNumber] made by [FixedNumber.fromValue(value, decimals)]: the
    raw integer and the number of decimals it is scaled by, which together
    give the number it denotes, [value / 10 ^ decimals]. *)
Record FixedNumber : Type := mkFixedNumber {
  fixedValue : BigNumber;
  fixedDecimals : Z
}.

(** [FixedNumber.fromValue(value, decimals)], with the default format
    [fixed128x18].  [formatFixed] rejects a number of decimals outside
    0..256 (INVALID_ARGUMENT), and writes the value as a decimal string
    without the trailing zeros of its fraction; [parseFixed] reads it back
    with 18 decimals and throws NUMERIC_FAULT (fractional component exceeds
    decimals) when more than 18 fraction digits remain, that is when
    [decimals] is above 18 and the value is not a multiple of
    [10 ^ (decimals - 18)]. *)
Definition fromValue (value : BigNumber) (decimals : Z) : result FixedNumber :=
  if (decimals <? 0) || (256 <? decimals) then Err InvalidArgument
  else if (18 <? decimals) && negb (Z.abs value mod 10 ^ (decimals - 18) =? 0)
       then Err NumericFault
       else Ok (mkFixedNumber value decimals).

(** [String.prototype.toLowerCase], on the ASCII range (addresses are
    hexadecimal strings). *)
Definition lowerChar (c : ascii) : ascii :=
  let n := nat_of_ascii c in
  if ((65 <=? n) && (n <=? 90))%nat then ascii_of_nat (n + 32) else c.

Fixpoint toLowerCase (s : string) : string :=
  match s with
  | EmptyString => EmptyString
  | String c rest => String (lowerChar c) (toLowerCase rest)
  end.

(** [Array.prototype.findIndex]: the first index whose element satisfies
    the predicate, [-1] when there is none. *)
Fixpoint findIndex {A : Type} (p : A -> bool) (l : list A) : Z :=
  match l with
  | [] => -1
  | x :: rest =>
      if p x then 0
      else let i := findIndex p rest in
           if i =? -1 then -1 else i + 1
  end.

(** Truthiness of an optional [number] argument: [undefined] and [0] are
    falsy. *)
Definition truthy (n : option Z) : bool :=
  match n with
  | None => false
  | Some v => negb (v =? 0)
  end.

End Js.

Declare Scope js_scope.
Delimit Scope js_scope with js.
Notation "x <- c1 ;; c2" := (Js.bind c1 (fun x => c2))
  (at level 61, c1 at next level, right associativity) : js_scope.

(** ** Funding rounds *)

Module Round.

Import Js.
Local Open Scope Z_scope.
Local Open Scope js_scope.

Inductive RoundStatus : Type :=
| Contributing
| Reallocating
| Tallying
| Finalized
| Cancelled.

Record PubKey : Type := mkPubKey {
  pubKeyX : Z;
  pubKeyY : Z
}.

Record RoundInfo : Type := mkRoundInfo {
  fundingRoundAddress : string;
  roundNumber : Z;
  userRegistryAddress : string;
  maciAddress : string;
  recipientTreeDepth : Z;
  startBlock : Z;
  endBlock : Z;
  coordinatorPubKey : PubKey;
  nativeTokenAddress : string;
  nativeTokenSymbol : string;
  nativeTokenDecimals : Z;
  voiceCreditFactor : BigNumber;
  status : RoundStatus;
  signUpDeadline : DateTime;
  votingDeadline : DateTime;
  totalFunds : FixedNumber;
  matchingPool : FixedNumber;
  contributions : FixedNumber;
  contributors : Z
}.

(** *** The ledger as the module reads it *)

Record RoundStartedArgs : Type := { _round : string }.
Record FundingSourceArgs : Type := { _source : string }.

Record FactoryContract : Type := {
  address : string;
  RoundStarted : list (Event RoundStartedArgs);
  FundingSourceAdded : list (Event FundingSourceArgs);
  FundingSourceRemoved : list (Event FundingSourceArgs)
}.

Record FundingRoundContract : Type := {
  maci : string;
  nativeToken : string;
  userRegistry : string;
  roundStartBlock : BigNumber;
  roundVoiceCreditFactor : BigNumber;
  isFinalized : bool;
  isCancelled : bool;
  totalSpent : BigNumber;
  matchingPoolSize : BigNumber
}.

Record MaciContract : Type := {
  voteOptionTreeDepth : Z;
  signUpTimestamp : BigNumber;
  signUpDurationSeconds : BigNumber;
  votingDurationSeconds : BigNumber;
  coordinatorPubKeyRaw : Z * Z
}.

Record ERC20Contract : Type := {
  symbol : string;
  decimals : Z;
  balanceOf : string -> BigNumber;
  allowance : string -> string -> BigNumber
}.

(** The result of [getTotalContributed], of the contributions module. *)
Record ContributionsInfo : Type := {
  count : Z;
  amount : BigNumber
}.

(** Everything [getRoundInfo] reads: the factory and the list
    [extraRounds] of the core module, the contracts by address, the
    contributions collaborator, the offset of the local time zone in
    minutes at a timestamp, and whether the [PubKey] constructor of the
    MACI library accepts two coordinates (it asserts that they are elements
    of the SNARK field). *)
Record World : Type := {
  factory : FactoryContract;
  extraRounds : list string;
  fundingRoundAt : string -> FundingRoundContract;
  maciAt : string -> MaciContract;
  erc20At : string -> ERC20Contract;
  getTotalContributed : string -> ContributionsInfo;
  zoneOffset : Z -> Z;
  acceptsPubKey : Z -> Z -> bool
}.

(** [new PubKey([x, y])] *)
Definition newPubKey (w : World) (x y : Z) : result PubKey :=
  if acceptsPubKey w x y then Ok (mkPubKey x y) else Err AssertionError.

(** *** getApprovedFunding *)

Definition getApprovedFunding (w : World) (token : ERC20Contract) : BigNumber :=
  let addSourceEvents := FundingSourceAdded (factory w) in
  let removeSourceEvents := FundingSourceRemoved (factory w) in
  fold_left
    (fun (total : BigNumber) (event : Event FundingSourceArgs) =>
       let sourceAddress := _source (args event) in
       let removed :=
         find (fun event' => String.eqb (_source (args event')) sourceAddress)
              removeSourceEvents in
       match removed with
       | Some _ => total
       | None =>
           let allowance := allowance token sourceAddress (address (factory w)) in
           let balance := balanceOf token sourceAddress in
           let contribution := if allowance <? balance then allowance else balance in
           total + contribution
       end)
    addSourceEvents 0.

(** *** getRoundNumber *)

Definition getRoundNumber (w : World) (roundAddress : string) : result Z :=
  let events := RoundStarted (factory w) in
  let roundIndex :=
    findIndex
      (fun event =>
         String.eqb (toLowerCase (_round (args event))) (toLowerCase roundAddress))
      events in
  if roundIndex =? -1 then Err (Error "round does not exist")
  else Ok (roundIndex + Z.of_nat (List.length (extraRounds w))).

(** *** getRoundInfo

    [now] is the value read from the clock ([DateTime.local()]).  The calls
    that can throw are bound in the order the code makes them: the round
    number, the seconds of the two deadlines, the [PubKey], and, in the
    returned object, the two block numbers and the three amounts. *)

Definition getRoundInfo (w : World) (now : DateTime) (fundingRoundAddress : string)
  : result RoundInfo :=
  roundNumber <- getRoundNumber w fundingRoundAddress ;;
  let fundingRound := fundingRoundAt w fundingRoundAddress in
  let maciAddress := maci fundingRound in
  let nativeTokenAddress := nativeToken fundingRound in
  let userRegistryAddress := userRegistry fundingRound in
  let startBlock := roundStartBlock fundingRound in
  let voiceCreditFactor := roundVoiceCreditFactor fundingRound in
  let isFinalized := isFinalized fundingRound in
  let isCancelled := isCancelled fundingRound in
  let maci := maciAt w maciAddress in
  let signUpTimestamp := signUpTimestamp maci in
  let signUpDurationSeconds := signUpDurationSeconds maci in
  let votingDurationSeconds := votingDurationSeconds maci in
  signUpSeconds <- toNumber (signUpTimestamp + signUpDurationSeconds) ;;
  let signUpDeadline := fromSeconds (zoneOffset w) signUpSeconds in
  votingSeconds <-
    toNumber (signUpTimestamp + signUpDurationSeconds + votingDurationSeconds) ;;
  let votingDeadline := fromSeconds (zoneOffset w) votingSeconds in
  let endBlock :=
    (* Average block time is 15 seconds *)
    startBlock + Z.quot (signUpDurationSeconds + votingDurationSeconds) 15 in
  coordinatorPubKey <-
    newPubKey w (fst (coordinatorPubKeyRaw maci)) (snd (coordinatorPubKeyRaw maci)) ;;
  let nativeToken := erc20At w nativeTokenAddress in
  let nativeTokenSymbol := symbol nativeToken in
  let nativeTokenDecimals := decimals nativeToken in
  let contributionsInfo := getTotalContributed w fundingRoundAddress in
  let '(status, contributions, matchingPool) :=
    if isCancelled then (Cancelled, 0, 0)
    else if isFinalized then
      (Finalized,
       totalSpent fundingRound * voiceCreditFactor,
       matchingPoolSize fundingRound)
    else
      let status :=
        if lessThan now signUpDeadline then Contributing
        else if lessThan now votingDeadline then Reallocating
        else Tallying in
      let contributions := amount contributionsInfo in
      let lockedFunding := balanceOf nativeToken (address (factory w)) in
      let approvedFunding := getApprovedFunding w nativeToken in
      (status, contributions, lockedFunding + approvedFunding) in
  let totalFunds := matchingPool + contributions in
  startBlockNumber <- toNumber startBlock ;;
  endBlockNumber <- toNumber endBlock ;;
  totalFundsFixed <- fromValue totalFunds nativeTokenDecimals ;;
  matchingPoolFixed <- fromValue matchingPool nativeTokenDecimals ;;
  contributionsFixed <- fromValue contributions nativeTokenDecimals ;;
  Ok {| fundingRoundAddress := fundingRoundAddress;
        roundNumber := roundNumber;
        userRegistryAddress := userRegistryAddress;
        maciAddress := maciAddress;
        recipientTreeDepth := voteOptionTreeDepth maci;
        startBlock := startBlockNumber;
        endBlock := endBlockNumber;
        coordinatorPubKey := coordinatorPubKey;
        nativeTokenAddress := nativeTokenAddress;
        nativeTokenSymbol := nativeTokenSymbol;
        nativeTokenDecimals := nativeTokenDecimals;
        voiceCreditFactor := voiceCreditFactor;
        status := status;
        signUpDeadline := signUpDeadline;
        votingDeadline := votingDeadline;
        totalFunds := totalFundsFixed;
        matchingPool := matchingPoolFixed;
        contributions := contributionsFixed;
        contributors := count contributionsInfo |}.

End Round.

(** ** The recipient registry *)

Module Recipients.

Import Js.
Local Open Scope Z_scope.

Definition KLEROS_CURATE_URL : string :=
  "https://curate.kleros.io/tcr/0x2E3B10aBf091cdc53cC892A50daBDb432e220398".

Inductive TcrItemStatus : Type :=
| Absent
| Registered
| RegistrationRequested
| ClearingRequested.

(** The numeric value of an enum member. *)
Definition statusValue (s : TcrItemStatus) : Z :=
  match s with
  | Absent => 0
  | Registered => 1
  | RegistrationRequested => 2
  | ClearingRequested => 3
  end.

Record TcrColumn : Type := {
  label : string;
  type : string
}.

(** The [extra] bag of a project that comes from the curated list. *)
Record Extra : Type := {
  tcrItemStatus : Z;
  tcrItemUrl : string
}.

(** [Project], of the projects module, with the fields this module writes.
    A presentation field read from a missing array slot is [undefined],
    here [None]. *)
Record Project : Type := mkProject {
  id : string;
  address : option string;
  name : option string;
  description : option string;
  imageUrl : string;
  index : Z;
  isHidden : bool;
  isLocked : bool;
  extra : option Extra
}.

(** [project.isHidden = true] and [project.isLocked = true]. *)
Definition hide (project : Project) : Project :=
  mkProject (id project) (address project) (name project) (description project)
            (imageUrl project) (index project) true (isLocked project) (extra project).

Definition lock (project : Project) : Project :=
  mkProject (id project) (address project) (name project) (description project)
            (imageUrl project) (index project) (isHidden project) true (extra project).

Definition setIndex (project : Project) (i : Z) : Project :=
  mkProject (id project) (address project) (name project) (description project)
            (imageUrl project) i (isHidden project) (isLocked project) (extra project).

(** *** The console

    [console.error] is a mutable global: either the original function, which
    prints, or the empty function installed by [decodeTcrItemData]. *)

Inductive ConsoleHandler : Type :=
| Printing
| Silenced.

Record Console : Type := mkConsole {
  consoleError : ConsoleHandler;
  printed : list string
}.

Definition callConsoleError (console : Console) (message : string) : Console :=
  match consoleError console with
  | Printing => mkConsole Printing (printed console ++ [message])
  | Silenced => console
  end.

Definition setConsoleError (console : Console) (h : ConsoleHandler) : Console :=
  mkConsole h (printed console).

(** Computations that read and write the console and may throw. *)
Definition IO (A : Type) : Type := Console -> Console * result A.

Definition ret {A : Type} (a : A) : IO A := fun console => (console, Ok a).

Definition bindIO {A B : Type} (m : IO A) (k : A -> IO B) : IO B :=
  fun console =>
    match m console with
    | (console', Ok a) => k a console'
    | (console', Err e) => (console', Err e)
    end.

Definition lift {A : Type} (r : result A) : IO A := fun console => (console, r).

Declare Scope io_scope.
Delimit Scope io_scope with io.
Notation "x <- c1 ;; c2" := (bindIO c1 (fun x => c2))
  (at level 61, c1 at next level, right associativity) : io_scope.
Local Open Scope io_scope.

(** A [for ... of] loop whose body updates the accumulator and may throw. *)
Fixpoint forOf {A B : Type} (body : A -> B -> IO A) (events : list B) (acc : A) : IO A :=
  match events with
  | [] => ret acc
  | event :: rest => acc' <- body acc event ;; forOf body rest acc'
  end.

(** *** The ledger and the collaborators *)

Record MetaEvidenceArgs : Type := { _evidence : string }.
Record ItemSubmittedArgs : Type := { _itemID : string }.
Record RecipientAddedArgs : Type := {
  _tcrItemId : string;
  _metadata : string;
  _index : BigNumber
}.

Module Removed.
Record Args : Type := { _tcrItemId : string }.
End Removed.

Record TcrContract : Type := {
  MetaEvidence : list (Event MetaEvidenceArgs);
  ItemSubmitted : list (Event ItemSubmittedArgs);
  getItemInfo : string -> string * BigNumber
}.

Record RegistryContract : Type := {
  tcr : string;
  RecipientAdded : list (Event RecipientAddedArgs);
  RecipientRemoved : list (Event Removed.Args)
}.

(** What a call of [gtcrDecode] does: it returns the decoded values, having
    reported some problems through [console.error], or it throws. *)
Inductive DecodeOutcome : Type :=
| Decoded (values : list string) (complaints : list string)
| DecodeThrows (e : exn).

(** [fetchColumns url] stands for fetching [url], parsing the JSON document
    and reading its [metadata.columns]. *)
Record World : Type := {
  ipfsGatewayUrl : string;
  registryAt : string -> RegistryContract;
  tcrAt : string -> TcrContract;
  fetchColumns : string -> result (list TcrColumn);
  gtcrDecode : list TcrColumn -> string -> DecodeOutcome
}.

(** [array[i]]: [undefined] outside the array. *)
Definition at_ {A : Type} (l : list A) (i : Z) : option A :=
  if i <? 0 then None else nth_error l (Z.to_nat i).

(** A value inside a template literal. *)
Definition interpolate (v : option string) : string :=
  match v with
  | Some s => s
  | None => "undefined"
  end.

(** *** getTcrColumns *)

Definition getTcrColumns (w : World) (tcr : TcrContract) : result (list TcrColumn) :=
  let metaEvidenceEvents := MetaEvidence tcr in
  (* Take last event with even index *)
  match at_ metaEvidenceEvents (Z.of_nat (List.length metaEvidenceEvents) - 2) with
  | None => Err TypeError
  | Some regMetaEvidenceEvent =>
      let ipfsPath := _evidence (args regMetaEvidenceEvent) in
      fetchColumns w (ipfsGatewayUrl w ++ ipfsPath)
  end.

(** *** decodeTcrItemData *)

Module Item.
Record Data : Type := {
  address : option string;
  name : option string;
  description : option string;
  imageUrl : string
}.
End Item.

Definition decodeTcrItemData (w : World) (columns : list TcrColumn) (data : string)
  : IO Item.Data :=
  fun console =>
    (* Disable console.error to ignore parser errors *)
    let consoleError := consoleError console in
    let console := setConsoleError console Silenced in
    match gtcrDecode w columns data with
    | DecodeThrows e => (console, Err e)
    | Decoded decodedMetadata complaints =>
        let console := fold_left callConsoleError complaints console in
        let console := setConsoleError console consoleError in
        (console,
         Ok {| Item.address := at_ decodedMetadata 1;
               Item.name := at_ decodedMetadata 0;
               Item.description := at_ decodedMetadata 3;
               Item.imageUrl :=
                 ipfsGatewayUrl w ++ interpolate (at_ decodedMetadata 2) |})
    end.

(** *** decodeRecipientAdded *)

Definition decodeRecipientAdded (w : World) (event : Event RecipientAddedArgs)
  (columns : list TcrColumn) : IO Project :=
  let args := args event in
  item <- decodeTcrItemData w columns (_metadata args) ;;
  index <- lift (toNumber (_index args)) ;;
  ret {| id := _tcrItemId args;
         address := Item.address item;
         name := Item.name item;
         description := Item.description item;
         imageUrl := Item.imageUrl item;
         index := index;
         isHidden := false;
         isLocked := false;
         extra := None |}.

(** *** getProjects *)

(** The body of the loop over the recipient-added events. *)
Definition addRecipient (w : World) (tcrColumns : list TcrColumn)
  (recipientRemovedEvents : list (Event Removed.Args))
  (startBlock endBlock : option Z)
  (projects : list Project) (event : Event RecipientAddedArgs) : IO (list Project) :=
  project <- decodeRecipientAdded w event tcrColumns ;;
  let project :=
    if truthy endBlock
       && match endBlock with
          | Some endBlock => blockNumber event >=? endBlock
          | None => false
          end
    then
      (* Skip recipients added after the end of round. *)
      hide project
    else project in
  let removed :=
    find (fun event' => String.eqb (Removed._tcrItemId (args event')) (id project))
         recipientRemovedEvents in
  let project :=
    match removed with
    | Some removed =>
        if negb (truthy startBlock)
           || (truthy startBlock
               && match startBlock with
                  | Some startBlock => blockNumber removed <=? startBlock
                  | None => false
                  end)
        then
          (* Start block not specified
             or recipient had been removed before start block *)
          hide project
        else lock project
    | None => project
    end in
  ret (projects ++ [project]).

(** The body of the loop over the item-submitted events of the curated list
    (search for unregistered recipients). *)
Definition addSubmitted (w : World) (tcr : TcrContract) (tcrColumns : list TcrColumn)
  (projects : list Project) (event : Event ItemSubmittedArgs) : IO (list Project) :=
  let tcrItemId := _itemID (args event) in
  let registered := find (fun item => String.eqb (id item) tcrItemId) projects in
  match registered with
  | Some _ =>
      (* Already registered (or registered and removed) *)
      ret projects
  | None =>
      let '(tcrItemData, tcrItemStatus) := getItemInfo tcr tcrItemId in
      status <- lift (toNumber tcrItemStatus) ;;
      if negb (status =? statusValue Registered) then ret projects
      else
        item <- decodeTcrItemData w tcrColumns tcrItemData ;;
        let project :=
          {| id := tcrItemId;
             address := Item.address item;
             name := Item.name item;
             description := Item.description item;
             imageUrl := Item.imageUrl item;
             (* Only unregistered project can have invalid index 0 *)
             index := 0;
             isHidden := false;
             isLocked := false;
             extra := Some {| tcrItemStatus := statusValue Registered;
                              tcrItemUrl := KLEROS_CURATE_URL ++ "/" ++ tcrItemId |} |} in
        ret (projects ++ [project])
  end.

Definition getProjects (w : World) (registryAddress : string)
  (startBlock endBlock : option Z) : IO (list Project) :=
  let registry := registryAt w registryAddress in
  let tcrAddress := tcr registry in
  let tcr := tcrAt w tcrAddress in
  tcrColumns <- lift (getTcrColumns w tcr) ;;
  let recipientAddedEvents := RecipientAdded registry in
  let recipientRemovedEvents := RecipientRemoved registry in
  projects <-
    forOf (addRecipient w tcrColumns recipientRemovedEvents startBlock endBlock)
          recipientAddedEvents [] ;;
  let tcrItemSubmittedEvents := ItemSubmitted tcr in
  forOf (addSubmitted w tcr tcrColumns) tcrItemSubmittedEvents projects.

(** *** getProject

    An event filter with an argument keeps the events whose indexed argument
    is that value. *)

Definition getProject (w : World) (registryAddress recipientId : string)
  : IO (option Project) :=
  let registry := registryAt w registryAddress in
  let tcrAddress := tcr registry in
  let tcr := tcrAt w tcrAddress in
  tcrColumns <- lift (getTcrColumns w tcr) ;;
  let '(tcrItemData, tcrItemStatus) := getItemInfo tcr recipientId in
  if String.eqb tcrItemData "0x" then
    (* Item is not in TCR *)
    ret None
  else
    item <- decodeTcrItemData w tcrColumns tcrItemData ;;
    status <- lift (toNumber tcrItemStatus) ;;
    let project :=
      {| id := recipientId;
         address := Item.address item;
         name := Item.name item;
         description := Item.description item;
         imageUrl := Item.imageUrl item;
         (* Only unregistered project can have invalid index 0 *)
         index := 0;
         isHidden := false;
         isLocked := false;
         extra := Some {| tcrItemStatus := status;
                          tcrItemUrl := KLEROS_CURATE_URL ++ "/" ++ recipientId |} |} in
    let recipientAddedEvents :=
      filter (fun event => String.eqb (_tcrItemId (args event)) recipientId)
             (RecipientAdded registry) in
    project <-
      match recipientAddedEvents with
      | recipientAddedEvent :: _ =>
          index <- lift (toNumber (_index (args recipientAddedEvent))) ;;
          ret (setIndex project index)
      | [] => ret project
      end ;;
    let recipientRemovedEvents :=
      filter (fun event => String.eqb (Removed._tcrItemId (args event)) recipientId)
             (RecipientRemoved registry) in
    let project :=
      match recipientRemovedEvents with
      | _ :: _ => lock project
      | [] => project
      end in
    ret (Some project).

End Recipients.

(** ** Reference formulas and concrete ledgers *)

Module Reference.

Import Js.
Local Open Scope Z_scope.

(** The sum of a list of amounts. *)
Definition total (amounts : list Z) : Z := fold_right Z.add 0 amounts.

(** The funding sources that have an added event and no removed event for
    the same address, read off the two event logs in emission order. *)
Definition activeSources (f : Round.FactoryContract) : list string :=
  let added := map (fun ev => Round._source (args ev)) (Round.FundingSourceAdded f) in
  let removed := map (fun ev => Round._source (args ev)) (Round.FundingSourceRemoved f) in
  filter (fun s => negb (existsb (String.eqb s) removed)) added.

(** Sub-expressions of [getRoundInfo], named for the statements below: the
    seconds of the two deadlines and the estimated end block. *)
Definition signUpEnd (w : Round.World) (a : string) : Z :=
  let m := Round.maciAt w (Round.maci (Round.fundingRoundAt w a)) in
  Round.signUpTimestamp m + Round.signUpDurationSeconds m.

Definition votingEnd (w : Round.World) (a : string) : Z :=
  let m := Round.maciAt w (Round.maci (Round.fundingRoundAt w a)) in
  Round.signUpTimestamp m + Round.signUpDurationSeconds m
  + Round.votingDurationSeconds m.

Definition estimatedEndBlock (w : Round.World) (a : string) : Z :=
  let m := Round.maciAt w (Round.maci (Round.fundingRoundAt w a)) in
  Round.roundStartBlock (Round.fundingRoundAt w a)
  + Z.quot (Round.signUpDurationSeconds m + Round.votingDurationSeconds m) 15.

(** The four values [getRoundInfo] converts with [toNumber] fit a
    [number]. *)
Definition conversionsInRange (w : Round.World) (a : string) : bool :=
  (Z.abs (signUpEnd w a) <=? MAX_SAFE_INTEGER)
  && (Z.abs (votingEnd w a) <=? MAX_SAFE_INTEGER)
  && (Z.abs (Round.roundStartBlock (Round.fundingRoundAt w a)) <=? MAX_SAFE_INTEGER)
  && (Z.abs (estimatedEndBlock w a) <=? MAX_SAFE_INTEGER).

(** The contributions and the matching pool [getRoundInfo] computes, by
    the flags of the round. *)
Definition contributionsOf (w : Round.World) (a : string) : Z :=
  let fundingRound := Round.fundingRoundAt w a in
  if Round.isCancelled fundingRound then 0
  else if Round.isFinalized fundingRound
       then Round.totalSpent fundingRound * Round.roundVoiceCreditFactor fundingRound
       else Round.amount (Round.getTotalContributed w a).

Definition matchingPoolOf (w : Round.World) (a : string) : Z :=
  let fundingRound := Round.fundingRoundAt w a in
  let token := Round.erc20At w (Round.nativeToken fundingRound) in
  if Round.isCancelled fundingRound then 0
  else if Round.isFinalized fundingRound then Round.matchingPoolSize fundingRound
       else Round.balanceOf token (Round.address (Round.factory w))
            + Round.getApprovedFunding w token.

(** [FixedNumber.fromValue(value, decimals)] returns. *)
Definition representable (decimals value : Z) : bool :=
  match fromValue value decimals with
  | Ok _ => true
  | Err _ => false
  end.

(** The objects of the returned record can be built: the [PubKey]
    constructor accepts the coordinator key, and the three amounts are
    representable with the decimals of the native token. *)
Definition recordBuilds (w : Round.World) (a : string) : bool :=
  let fundingRound := Round.fundingRoundAt w a in
  let raw := Round.coordinatorPubKeyRaw (Round.maciAt w (Round.maci fundingRound)) in
  let decimals := Round.decimals (Round.erc20At w (Round.nativeToken fundingRound)) in
  Round.acceptsPubKey w (fst raw) (snd raw)
  && representable decimals (matchingPoolOf w a + contributionsOf w a)
  && representable decimals (matchingPoolOf w a)
  && representable decimals (contributionsOf w a).

(** The record [getRoundInfo] returns for a round of number [n], when it
    returns. *)
Definition roundRecord (w : Round.World) (now : DateTime) (a : string) (n : Z)
  : Round.RoundInfo :=
  let fundingRound := Round.fundingRoundAt w a in
  let m := Round.maciAt w (Round.maci fundingRound) in
  let token := Round.erc20At w (Round.nativeToken fundingRound) in
  let signUpDeadline := fromSeconds (Round.zoneOffset w) (signUpEnd w a) in
  let votingDeadline := fromSeconds (Round.zoneOffset w) (votingEnd w a) in
  {| Round.fundingRoundAddress := a;
     Round.roundNumber := n;
     Round.userRegistryAddress := Round.userRegistry fundingRound;
     Round.maciAddress := Round.maci fundingRound;
     Round.recipientTreeDepth := Round.voteOptionTreeDepth m;
     Round.startBlock := Round.roundStartBlock fundingRound;
     Round.endBlock := estimatedEndBlock w a;
     Round.coordinatorPubKey :=
       Round.mkPubKey (fst (Round.coordinatorPubKeyRaw m))
                      (snd (Round.coordinatorPubKeyRaw m));
     Round.nativeTokenAddress := Round.nativeToken fundingRound;
     Round.nativeTokenSymbol := Round.symbol token;
     Round.nativeTokenDecimals := Round.decimals token;
     Round.voiceCreditFactor := Round.roundVoiceCreditFactor fundingRound;
     Round.status :=
       if Round.isCancelled fundingRound then Round.Cancelled
       else if Round.isFinalized fundingRound then Round.Finalized
       else if lessThan now signUpDeadline then Round.Contributing
       else if lessThan now votingDeadline then Round.Reallocating
       else Round.Tallying;
     Round.signUpDeadline := signUpDeadline;
     Round.votingDeadline := votingDeadline;
     Round.totalFunds :=
       mkFixedNumber (matchingPoolOf w a + contributionsOf w a) (Round.decimals token);
     Round.matchingPool := mkFixedNumber (matchingPoolOf w a) (Round.decimals token);
     Round.contributions := mkFixedNumber (contributionsOf w a) (Round.decimals token);
     Round.contributors := Round.count (Round.getTotalContributed w a) |}.

(** Two addresses are the same round when they agree up to letter case. *)
Definition sameAddress (x y : string) : bool :=
  String.eqb (toLowerCase x) (toLowerCase y).


(** Sub-expressions of the loop body of [getProjects] over the
    recipient-added events, named for the statements below. *)

(** [endBlock && event.blockNumber >= endBlock] *)
Definition addedAfterEnd (endBlock : option Z) (event : Event Recipients.RecipientAddedArgs)
  : bool :=
  truthy endBlock
  && match endBlock with
     | Some endBlock => blockNumber event >=? endBlock
     | None => false
     end.

(** [recipientRemovedEvents.find(...)]: the first removed event for the id. *)
Definition removalOf (recipientRemovedEvents : list (Event Recipients.Removed.Args))
  (id : string) : option (Event Recipients.Removed.Args) :=
  find (fun event' => String.eqb (Recipients.Removed._tcrItemId (args event')) id)
       recipientRemovedEvents.

(** [!startBlock || startBlock && removed.blockNumber <= startBlock] *)
Definition removedBeforeStart (startBlock : option Z)
  (removed : Event Recipients.Removed.Args) : bool :=
  negb (truthy startBlock)
  || (truthy startBlock
      && match startBlock with
         | Some startBlock => blockNumber removed <=? startBlock
         | None => false
         end).

(** The project the first loop of [getProjects] pushes for an added event,
    given the values the decoder returned for its metadata and its index as
    a [number]. *)
Definition localProject (w : Recipients.World)
  (recipientRemovedEvents : list (Event Recipients.Removed.Args))
  (startBlock endBlock : option Z)
  (event : Event Recipients.RecipientAddedArgs)
  (decodedMetadata : list string) (index : Z) : Recipients.Project :=
  let removed := removalOf recipientRemovedEvents (Recipients._tcrItemId (args event)) in
  {| Recipients.id := Recipients._tcrItemId (args event);
     Recipients.address := Recipients.at_ decodedMetadata 1;
     Recipients.name := Recipients.at_ decodedMetadata 0;
     Recipients.description := Recipients.at_ decodedMetadata 3;
     Recipients.imageUrl :=
       Recipients.ipfsGatewayUrl w
       ++ Recipients.interpolate (Recipients.at_ decodedMetadata 2);
     Recipients.index := index;
     Recipients.isHidden :=
       match removed with
       | Some removed =>
           if removedBeforeStart startBlock removed then true
           else addedAfterEnd endBlock event
       | None => addedAfterEnd endBlock event
       end;
     Recipients.isLocked :=
       match removed with
       | Some removed => negb (removedBeforeStart startBlock removed)
       | None => false
       end;
     Recipients.extra := None |}.

(** The project the second loop of [getProjects] pushes for an item of the
    curated list, given the values the decoder returned for its data. *)
Definition curatedProject (w : Recipients.World) (tcrItemId : string)
  (decodedMetadata : list string) : Recipients.Project :=
  {| Recipients.id := tcrItemId;
     Recipients.address := Recipients.at_ decodedMetadata 1;
     Recipients.name := Recipients.at_ decodedMetadata 0;
     Recipients.description := Recipients.at_ decodedMetadata 3;
     Recipients.imageUrl :=
       Recipients.ipfsGatewayUrl w
       ++ Recipients.interpolate (Recipients.at_ decodedMetadata 2);
     Recipients.index := 0;
     Recipients.isHidden := false;
     Recipients.isLocked := false;
     Recipients.extra :=
       Some {| Recipients.tcrItemStatus := Recipients.statusValue Recipients.Registered;
               Recipients.tcrItemUrl :=
                 Recipients.KLEROS_CURATE_URL ++ "/" ++ tcrItemId |} |}.


(** An added event and the project the first loop pushes for it: the decoder
    returned, the index fits a [number]. *)
Definition pushedFor (w : Recipients.World) (columns : list Recipients.TcrColumn)
  (recipientRemovedEvents : list (Event Recipients.Removed.Args))
  (startBlock endBlock : option Z)
  (event : Event Recipients.RecipientAddedArgs) (project : Recipients.Project) : Prop :=
  exists values complaints index,
    Recipients.gtcrDecode w columns (Recipients._metadata (args event))
    = Recipients.Decoded values complaints /\
    toNumber (Recipients._index (args event)) = Ok index /\
    project
    = localProject w recipientRemovedEvents startBlock endBlock event values index.

(** A project the second loop pushes for one of the submitted events: the
    item is registered on the curated list and the decoder returned. *)
Definition pushedForItem (w : Recipients.World) (tcr : Recipients.TcrContract)
  (columns : list Recipients.TcrColumn)
  (events : list (Event Recipients.ItemSubmittedArgs))
  (project : Recipients.Project) : Prop :=
  exists event values complaints,
    In event events /\
    snd (Recipients.getItemInfo tcr (Recipients._itemID (args event)))
    = Recipients.statusValue Recipients.Registered /\
    Recipients.gtcrDecode w columns
      (fst (Recipients.getItemInfo tcr (Recipients._itemID (args event))))
    = Recipients.Decoded values complaints /\
    project = curatedProject w (Recipients._itemID (args event)) values.


(** The record [getProject] returns for an item the curated list has data
    for, given the values the decoder returned, the item's status and the
    index recovered from the registry (0 when it was never added). *)
Definition lookedUpProject (w : Recipients.World) (registry : Recipients.RegistryContract)
  (recipientId : string) (decodedMetadata : list string) (status index : Z)
  : Recipients.Project :=
  {| Recipients.id := recipientId;
     Recipients.address := Recipients.at_ decodedMetadata 1;
     Recipients.name := Recipients.at_ decodedMetadata 0;
     Recipients.description := Recipients.at_ decodedMetadata 3;
     Recipients.imageUrl :=
       Recipients.ipfsGatewayUrl w
       ++ Recipients.interpolate (Recipients.at_ decodedMetadata 2);
     Recipients.index := index;
     Recipients.isHidden := false;
     Recipients.isLocked :=
       match
         filter (fun event =>
                   String.eqb (Recipients.Removed._tcrItemId (args event)) recipientId)
                (Recipients.RecipientRemoved registry)
       with
       | _ :: _ => true
       | [] => false
       end;
     Recipients.extra :=
       Some {| Recipients.tcrItemStatus := status;
               Recipients.tcrItemUrl :=
                 Recipients.KLEROS_CURATE_URL ++ "/" ++ recipientId |} |}.


(** The lifecycle order of the statuses. *)
Definition statusRank (s : Round.RoundStatus) : Z :=
  match s with
  | Round.Contributing => 0
  | Round.Reallocating => 1
  | Round.Tallying => 2
  | Round.Finalized => 3
  | Round.Cancelled => 4
  end.

(** The ledger with the added events of one funding source left out. *)
Definition withoutAdded (source : string) (w : Round.World) : Round.World :=
  {| Round.factory :=
       {| Round.address := Round.address (Round.factory w);
          Round.RoundStarted := Round.RoundStarted (Round.factory w);
          Round.FundingSourceAdded :=
            filter (fun ev => negb (String.eqb (Round._source (args ev)) source))
                   (Round.FundingSourceAdded (Round.factory w));
          Round.FundingSourceRemoved := Round.FundingSourceRemoved (Round.factory w) |};
     Round.extraRounds := Round.extraRounds w;
     Round.fundingRoundAt := Round.fundingRoundAt w;
     Round.maciAt := Round.maciAt w;
     Round.erc20At := Round.erc20At w;
     Round.getTotalContributed := Round.getTotalContributed w;
     Round.zoneOffset := Round.zoneOffset w;
     Round.acceptsPubKey := Round.acceptsPubKey w |}.


End Reference.

Module Scenario.

Import Js.
Local Open Scope Z_scope.
Local Open Scope string_scope.

(** A factory that started two rounds, with source [0xA] added then removed
    and source [0xB] added only. *)
Definition factory : Round.FactoryContract :=
  {| Round.address := "0xFAC7";
     Round.RoundStarted :=
       [ mkEvent 10 {| Round._round := "0xAbC1" |};
         mkEvent 90 {| Round._round := "0xDeF2" |} ];
     Round.FundingSourceAdded :=
       [ mkEvent 3 {| Round._source := "0xA" |};
         mkEvent 4 {| Round._source := "0xB" |} ];
     Round.FundingSourceRemoved :=
       [ mkEvent 7 {| Round._source := "0xA" |} ] |}.

Definition token : Round.ERC20Contract :=
  {| Round.symbol := "DAI";
     Round.decimals := 18;
     Round.balanceOf := fun owner =>
       if owner =? "0xA" then 500 else if owner =? "0xB" then 70
       else if owner =? "0xFAC7" then 1000 else 0;
     Round.allowance := fun owner _ =>
       if owner =? "0xA" then 300 else if owner =? "0xB" then 40 else 0 |}.

(** The sign-up timestamp [T] of the rounds of the scenario. *)
Definition T : Z := 1600000000.

(** The order of the scalar field the coordinates of a public key live
    in. *)
Definition SNARK_FIELD_SIZE : Z :=
  21888242871839275222246405745257275088548364400416034343698204186575808495617.

Definition inField (x y : Z) : bool :=
  ((x <? SNARK_FIELD_SIZE) && (y <? SNARK_FIELD_SIZE))%Z.

Definition fundingRound : Round.FundingRoundContract :=
  {| Round.maci := "0x3AC1";
     Round.nativeToken := "0xDA1";
     Round.userRegistry := "0x0E6";
     Round.roundStartBlock := 12;
     Round.roundVoiceCreditFactor := 10;
     Round.isFinalized := false;
     Round.isCancelled := false;
     Round.totalSpent := 0;
     Round.matchingPoolSize := 0 |}.

Definition maci : Round.MaciContract :=
  {| Round.voteOptionTreeDepth := 3;
     Round.signUpTimestamp := T;
     Round.signUpDurationSeconds := 100;
     Round.votingDurationSeconds := 50;
     Round.coordinatorPubKeyRaw := (1, 2) |}.

Definition world : Round.World :=
  {| Round.factory := factory;
     Round.extraRounds := [ "0x01d" ];
     Round.fundingRoundAt := fun _ => fundingRound;
     Round.maciAt := fun _ => maci;
     Round.erc20At := fun _ => token;
     Round.getTotalContributed := fun _ => {| Round.count := 2; Round.amount := 30 |};
     Round.zoneOffset := fun _ => 120;
     Round.acceptsPubKey := inField |}.

(** Source [0xA] added, removed and added again; source [0xB] added only. *)
Definition readded : Round.World :=
  {| Round.factory :=
       {| Round.address := "0xFAC7";
          Round.RoundStarted := Round.RoundStarted factory;
          Round.FundingSourceAdded :=
            [ mkEvent 3 {| Round._source := "0xA" |};
              mkEvent 4 {| Round._source := "0xB" |};
              mkEvent 9 {| Round._source := "0xA" |} ];
          Round.FundingSourceRemoved :=
            [ mkEvent 7 {| Round._source := "0xA" |} ] |};
     Round.extraRounds := [ "0x01d" ];
     Round.fundingRoundAt := fun _ => fundingRound;
     Round.maciAt := fun _ => maci;
     Round.erc20At := fun _ => token;
     Round.getTotalContributed := fun _ => {| Round.count := 2; Round.amount := 30 |};
     Round.zoneOffset := fun _ => 120;
     Round.acceptsPubKey := inField |}.

(** The ledger of the scenario with a round whose start block does not fit
    a JavaScript number. *)
Definition overflowing : Round.World :=
  {| Round.factory := factory;
     Round.extraRounds := [ "0x01d" ];
     Round.fundingRoundAt := fun _ =>
       {| Round.maci := "0x3AC1";
          Round.nativeToken := "0xDA1";
          Round.userRegistry := "0x0E6";
          Round.roundStartBlock := 9007199254740992;
          Round.roundVoiceCreditFactor := 10;
          Round.isFinalized := false;
          Round.isCancelled := false;
          Round.totalSpent := 0;
          Round.matchingPoolSize := 0 |};
     Round.maciAt := fun _ => maci;
     Round.erc20At := fun _ => token;
     Round.getTotalContributed := fun _ => {| Round.count := 2; Round.amount := 30 |};
     Round.zoneOffset := fun _ => 120;
     Round.acceptsPubKey := inField |}.


(** The ledger of the scenario with source [0xB] added twice and never
    removed, and no other source. *)
Definition addedTwice : Round.World :=
  {| Round.factory :=
       {| Round.address := "0xFAC7";
          Round.RoundStarted := Round.RoundStarted factory;
          Round.FundingSourceAdded :=
            [ mkEvent 4 {| Round._source := "0xB" |};
              mkEvent 6 {| Round._source := "0xB" |} ];
          Round.FundingSourceRemoved := [] |};
     Round.extraRounds := [ "0x01d" ];
     Round.fundingRoundAt := fun _ => fundingRound;
     Round.maciAt := fun _ => maci;
     Round.erc20At := fun _ => token;
     Round.getTotalContributed := fun _ => {| Round.count := 2; Round.amount := 30 |};
     Round.zoneOffset := fun _ => 120;
     Round.acceptsPubKey := inField |}.

(** The ledger of the scenario with a native token of 24 decimals. *)
Definition manyDecimals : Round.World :=
  {| Round.factory := factory;
     Round.extraRounds := [ "0x01d" ];
     Round.fundingRoundAt := fun _ => fundingRound;
     Round.maciAt := fun _ => maci;
     Round.erc20At := fun _ =>
       {| Round.symbol := "XYZ";
          Round.decimals := 24;
          Round.balanceOf := Round.balanceOf token;
          Round.allowance := Round.allowance token |};
     Round.getTotalContributed := fun _ => {| Round.count := 2; Round.amount := 30 |};
     Round.zoneOffset := fun _ => 120;
     Round.acceptsPubKey := inField |}.

(** The ledger of the scenario with a round whose sign-up started at a
    second that is beyond the dates a [Date] can hold. *)
Definition farFuture : Round.World :=
  {| Round.factory := factory;
     Round.extraRounds := [ "0x01d" ];
     Round.fundingRoundAt := fun _ => fundingRound;
     Round.maciAt := fun _ =>
       {| Round.voteOptionTreeDepth := 3;
          Round.signUpTimestamp := 9000000000000;
          Round.signUpDurationSeconds := 100;
          Round.votingDurationSeconds := 50;
          Round.coordinatorPubKeyRaw := (1, 2) |};
     Round.erc20At := fun _ => token;
     Round.getTotalContributed := fun _ => {| Round.count := 2; Round.amount := 30 |};
     Round.zoneOffset := fun _ => 120;
     Round.acceptsPubKey := inField |}.

(** The same ledger with the two flags of the round set as given. *)
Definition flagged (finalized cancelled : bool) : Round.World :=
  {| Round.factory := factory;
     Round.extraRounds := [ "0x01d" ];
     Round.fundingRoundAt := fun _ =>
       {| Round.maci := "0x3AC1";
          Round.nativeToken := "0xDA1";
          Round.userRegistry := "0x0E6";
          Round.roundStartBlock := 12;
          Round.roundVoiceCreditFactor := 10;
          Round.isFinalized := finalized;
          Round.isCancelled := cancelled;
          Round.totalSpent := 4;
          Round.matchingPoolSize := 900 |};
     Round.maciAt := fun _ => maci;
     Round.erc20At := fun _ => token;
     Round.getTotalContributed := fun _ => {| Round.count := 2; Round.amount := 30 |};
     Round.zoneOffset := fun _ => 120;
     Round.acceptsPubKey := inField |}.

End Scenario.

Module RegistryScenario.

Import Js.
Local Open Scope Z_scope.
Local Open Scope string_scope.

Definition columns : list Recipients.TcrColumn :=
  [ {| Recipients.label := "Name"; Recipients.type := "text" |};
    {| Recipients.label := "Address"; Recipients.type := "address" |};
    {| Recipients.label := "Logo"; Recipients.type := "image" |};
    {| Recipients.label := "Description"; Recipients.type := "long text" |} ].

(** A decoder that throws on the payload [0xbad], reports a problem with the
    text column of the payload [0x0dd] and returns a placeholder for it, and
    decodes every other payload. *)
Definition decoder (_ : list Recipients.TcrColumn) (data : string)
  : Recipients.DecodeOutcome :=
  if data =? "0xbad" then Recipients.DecodeThrows (External "invalid rlp data")
  else if data =? "0x0dd" then
    Recipients.Decoded
      [ "Error decoding text"; "0x00a1"; "/ipfs/logo.png"; "A project" ]
      [ "Error decoding text" ]
  else
    Recipients.Decoded [ "Project"; "0x00a1"; "/ipfs/logo.png"; "A project" ] [].

(** The curated list: item 9 is registered, item 10 has a registration
    request pending, item 5 is registered, anything else is absent. *)
Definition itemInfo (itemId : string) : string * BigNumber :=
  if itemId =? "0x09" then ("0xc0de", 1)
  else if itemId =? "0x0a" then ("0xc0de", 2)
  else if itemId =? "0x05" then ("0xc0de", 1)
  else ("0x", 0).

Definition ledger
  (added : list (Event Recipients.RecipientAddedArgs))
  (removed : list (Event Recipients.Removed.Args))
  (submitted : list (Event Recipients.ItemSubmittedArgs)) : Recipients.World :=
  {| Recipients.ipfsGatewayUrl := "https://ipfs.io";
     Recipients.registryAt := fun _ =>
       {| Recipients.tcr := "0x7C4";
          Recipients.RecipientAdded := added;
          Recipients.RecipientRemoved := removed |};
     Recipients.tcrAt := fun _ =>
       {| Recipients.MetaEvidence :=
            [ mkEvent 1 {| Recipients._evidence := "/ipfs/registration.json" |};
              mkEvent 1 {| Recipients._evidence := "/ipfs/clearing.json" |} ];
          Recipients.ItemSubmitted := submitted;
          Recipients.getItemInfo := itemInfo |};
     Recipients.fetchColumns := fun url =>
       if url =? "https://ipfs.io/ipfs/registration.json" then Ok columns
       else Err (External "fetch failed");
     Recipients.gtcrDecode := decoder |}.

Definition added (itemId metadata : string) (index block : Z)
  : Event Recipients.RecipientAddedArgs :=
  mkEvent block {| Recipients._tcrItemId := itemId;
                   Recipients._metadata := metadata;
                   Recipients._index := index |}.

Definition removed (itemId : string) (block : Z) : Event Recipients.Removed.Args :=
  mkEvent block {| Recipients.Removed._tcrItemId := itemId |}.

Definition submitted (itemId : string) (block : Z)
  : Event Recipients.ItemSubmittedArgs :=
  mkEvent block {| Recipients._itemID := itemId |}.

(** The console before a call: [console.error] prints, nothing printed. *)
Definition console : Recipients.Console := Recipients.mkConsole Recipients.Printing [].

(** [Added(id=5, index=2)] at block 20, then [Removed(id=5)] at block 40. *)
Definition removedEarly : Recipients.World :=
  ledger [ added "0x05" "0xc0de" 2 20 ] [ removed "0x05" 40 ] [].

(** [Added(id=5, index=2)] at block 250, then [Removed(id=5)] at block 300. *)
Definition addedLate : Recipients.World :=
  ledger [ added "0x05" "0xc0de" 2 250 ] [ removed "0x05" 300 ] [].

(** Two added events for the same id. *)
Definition addedTwice : Recipients.World :=
  ledger [ added "0x05" "0xc0de" 2 20; added "0x05" "0xc0de" 3 30 ] [] [].

(** Item 9 submitted twice to the curated list and registered there, item 10
    submitted and still pending, item 5 submitted and added locally. *)
Definition curated : Recipients.World :=
  ledger [ added "0x05" "0xc0de" 2 20 ] []
         [ submitted "0x05" 15; submitted "0x09" 30; submitted "0x0a" 31;
           submitted "0x09" 32 ].

(** Three added events; the decoder throws on the metadata of the second. *)
Definition undecodable : Recipients.World :=
  ledger [ added "0x05" "0xc0de" 2 20; added "0x06" "0xbad" 3 21;
           added "0x07" "0xc0de" 4 22 ] [] [].

(** Two added events; the decoder reports a problem with the second. *)
Definition partlyDecoded : Recipients.World :=
  ledger [ added "0x05" "0xc0de" 2 20; added "0x06" "0x0dd" 3 21 ] [] [].

(** A curated list that emitted a single meta-evidence event: item 0x77 has
    no data, item 5 is registered and was added locally. *)
Definition singleEvidence : Recipients.World :=
  {| Recipients.ipfsGatewayUrl := "https://ipfs.io";
     Recipients.registryAt := fun _ =>
       {| Recipients.tcr := "0x7C4";
          Recipients.RecipientAdded := [ added "0x05" "0xc0de" 2 20 ];
          Recipients.RecipientRemoved := [] |};
     Recipients.tcrAt := fun _ =>
       {| Recipients.MetaEvidence :=
            [ mkEvent 1 {| Recipients._evidence := "/ipfs/registration.json" |} ];
          Recipients.ItemSubmitted := [];
          Recipients.getItemInfo := itemInfo |};
     Recipients.fetchColumns := fun _ => Ok columns;
     Recipients.gtcrDecode := decoder |}.


End RegistryScenario.


(** ** Users *)

Module User.

Import Js.
Local Open Scope string_scope.
Local Open Scope js_scope.

(** The JSON values a profile is made of, with [undefined] for what is
    missing.  Numbers are left out: under the reads made here they behave
    as booleans do. *)
#[warnings="-register-all"]
Inductive Value : Type :=
| Undefined
| Null
| Bool (b : bool)
| Str (s : string)
| Arr (items : list Value)
| Obj (fields : list (string * Value)).

(** [object[key]] on the fields of an object: [undefined] for a missing
    key. *)
Fixpoint field (fields : list (string * Value)) (key : string) : Value :=
  match fields with
  | [] => Undefined
  | (k, v) :: rest => if String.eqb k key then v else field rest key
  end.


(** [value[0]]: the first item of an array, the first character of a
    string, the field ["0"] of an object. *)
Definition first (value : Value) : result Value :=
  match value with
  | Undefined | Null => Err TypeError
  | Arr (item :: _) => Ok item
  | Arr [] => Ok Undefined
  | Str (String c _) => Ok (Str (String c EmptyString))
  | Str EmptyString => Ok Undefined
  | Obj fields => Ok (field fields "0")
  | Bool _ => Ok Undefined
  end.


(** What the module reads: the gateway of the core module, the profile
    service and the identicon generator.  The generator returns the image
    as a data URL, or throws (it does on an address it cannot take a seed
    from, such as the empty string). *)
Record World : Type := {
  ipfsGatewayUrl : string;
  factoryAddress : string;
  getProfile : string -> result Value;
  makeBlockie : string -> result string
}.

Definition LOGIN_MESSAGE (w : World) : string :=
  "Sign this message to access clr.fund at " ++ toLowerCase (factoryAddress w) ++ ".".


End User.

(** ** The tally script *)

Module Tally.

Import Js.
Local Open Scope string_scope.

(** Account #1 *)
Definition DEFAULT_COORDINATOR_ETH_PK : string :=
  "0x59c6995e998f97a5a0044966f0945389dc9e86dae88c7a8412f4603b6b78690d".

(** The two fields read from the parsed state. *)
Record State : Type := {
  fundingRound : string;
  coordinatorPrivKey : string
}.

Module ProcessArgs.
Record t : Type := {
  contract : string;
  eth_privkey : string;
  eth_provider : string;
  privkey : string;
  repeat : bool
}.
End ProcessArgs.

Module TallyArgs.
Record t : Type := {
  contract : string;
  eth_privkey : string;
  eth_provider : string;
  privkey : string;
  repeat : bool;
  current_results_salt : string;
  current_total_vc_salt : string;
  current_per_vo_vc_salt : string;
  leaf_zero : string;
  tally_file : string
}.
End TallyArgs.

(** What the script reads and calls.  A call returns its value or what it
    threw.  [processCmd] returns the random state leaf, or nothing.  The
    tally is the JSON text of the tally object. *)
Record Env : Type := {
  COORDINATOR_ETH_PK : option string;
  CLRFUND_STATE : option string;
  newWallet : string -> result unit;
  readStateFile : result string;
  parseState : string -> result State;
  maciOf : string -> result string;
  providerUrl : string;
  processCmd : ProcessArgs.t -> result (option string);
  tallyCmd : TallyArgs.t -> result string;
  getIpfsHash : string -> result string;
  publishTallyHash : string -> string -> result unit
}.

(** What the script does to the outside, in order. *)
Inductive Effect : Type :=
| NewWallet (key : string)
| ReadStateFile
| GetMaci (round : string)
| ProcessMessages (args : ProcessArgs.t)
| TallyVotes (args : TallyArgs.t)
| GetIpfsHash (tally : string)
| PublishTallyHash (round hash : string)
| ConsoleLog (line : string)
| ConsoleError (e : exn)
| Exit (code : Z).

Definition Script (A : Type) : Type := list Effect -> list Effect * result A.

Definition ret {A : Type} (a : A) : Script A := fun trace => (trace, Ok a).

Definition throw {A : Type} (e : exn) : Script A := fun trace => (trace, Err e).

Definition bindScript {A B : Type} (m : Script A) (k : A -> Script B) : Script B :=
  fun trace =>
    match m trace with
    | (trace', Ok a) => k a trace'
    | (trace', Err e) => (trace', Err e)
    end.

(** An outside call: it is recorded, then returns or throws. *)
Definition call {A : Type} (effect : Effect) (outcome : result A) : Script A :=
  fun trace => ((trace ++ [ effect ])%list, outcome).

Declare Scope script_scope.
Delimit Scope script_scope with script.
Notation "x <- c1 ;; c2" := (bindScript c1 (fun x => c2))
  (at level 61, c1 at next level, right associativity) : script_scope.
Local Open Scope script_scope.

(** [value || fallback] on an environment variable: unset and empty are
    falsy. *)
Definition truthyString (value : option string) : bool :=
  match value with
  | None => false
  | Some s => negb (String.eqb s "")
  end.

Definition main (env : Env) : Script unit :=
  let coordinatorEthPrivKey :=
    match COORDINATOR_ETH_PK env with
    | Some key => if truthyString (Some key) then key else DEFAULT_COORDINATOR_ETH_PK
    | None => DEFAULT_COORDINATOR_ETH_PK
    end in
  coordinator <- call (NewWallet coordinatorEthPrivKey) (newWallet env coordinatorEthPrivKey) ;;
  stateStr <-
    match CLRFUND_STATE env with
    | Some s => if truthyString (Some s) then ret s else call ReadStateFile (readStateFile env)
    | None => call ReadStateFile (readStateFile env)
    end ;;
  state <- (fun trace => (trace, parseState env stateStr)) ;;
  maciAddress <- call (GetMaci (fundingRound state)) (maciOf env (fundingRound state)) ;;
  let providerUrl := providerUrl env in
  (* Process messages *)
  let processArgs :=
    {| ProcessArgs.contract := maciAddress;
       ProcessArgs.eth_privkey := coordinatorEthPrivKey;
       ProcessArgs.eth_provider := providerUrl;
       ProcessArgs.privkey := coordinatorPrivKey state;
       ProcessArgs.repeat := true |} in
  randomStateLeaf <- call (ProcessMessages processArgs) (processCmd env processArgs) ;;
  match randomStateLeaf with
  | None => throw (Error "message processing failed")
  | Some leaf =>
      if negb (truthyString (Some leaf)) then throw (Error "message processing failed")
      else
        (* Tally votes *)
        let tallyArgs :=
          {| TallyArgs.contract := maciAddress;
             TallyArgs.eth_privkey := coordinatorEthPrivKey;
             TallyArgs.eth_provider := providerUrl;
             TallyArgs.privkey := coordinatorPrivKey state;
             TallyArgs.repeat := true;
             TallyArgs.current_results_salt := "0x0";
             TallyArgs.current_total_vc_salt := "0x0";
             TallyArgs.current_per_vo_vc_salt := "0x0";
             TallyArgs.leaf_zero := leaf;
             TallyArgs.tally_file := "tally.json" |} in
        tally <- call (TallyVotes tallyArgs) (tallyCmd env tallyArgs) ;;
        (* Publish tally hash *)
        tallyHash <- call (GetIpfsHash tally) (getIpfsHash env tally) ;;
        published <-
          call (PublishTallyHash (fundingRound state) tallyHash)
               (publishTallyHash env (fundingRound state) tallyHash) ;;
        call (ConsoleLog ("Tally hash is " ++ tallyHash)) (Ok tt)
  end.

(** [main().then(() => process.exit(0)).catch(error => { console.error(error);
    process.exit(1) })]: everything the script does, from an empty trace. *)
Definition script (env : Env) : list Effect :=
  match main env [] with
  | (trace, Ok _) => (trace ++ [ Exit 0 ])%list
  | (trace, Err error) => (trace ++ [ ConsoleError error; Exit 1 ])%list
  end.

End Tally.

Module ScriptScenario.

Import Js.
Local Open Scope string_scope.



(** A run of the tally script where message processing yields the leaf
    given, and everything else works. *)
Definition tallying (leaf : option string) : Tally.Env :=
  {| Tally.COORDINATOR_ETH_PK := None;
     Tally.CLRFUND_STATE := Some "{state}";
     Tally.newWallet := fun _ => Ok tt;
     Tally.readStateFile := Err (External "ENOENT");
     Tally.parseState := fun _ =>
       Ok {| Tally.fundingRound := "0xabc1"; Tally.coordinatorPrivKey := "macisk.1" |};
     Tally.maciOf := fun _ => Ok "0x3AC1";
     Tally.providerUrl := "http://localhost:8545";
     Tally.processCmd := fun _ => Ok leaf;
     Tally.tallyCmd := fun _ => Ok "{tally}";
     Tally.getIpfsHash := fun _ => Ok "QmTally";
     Tally.publishTallyHash := fun _ _ => Ok tt |}.

End ScriptScenario.


(** ** Properties of the JavaScript values *)

Module JsFacts.

Import Js.
Local Open Scope Z_scope.

(** *** findIndex *)

Lemma findIndex_lower {A : Type} (p : A -> bool) (l : list A) :
  -1 <= findIndex p l.
Proof.
  induction l as [|x l IH]; simpl; [lia|].
  destruct (p x); [lia|].
  destruct (findIndex p l =? -1) eqn:E; lia.
Qed.

Lemma findIndex_none {A : Type} (p : A -> bool) (l : list A) :
  findIndex p l = -1 <-> (forall x, In x l -> p x = false).
Proof.
  induction l as [|x l IH]; simpl.
  - split; [intros _ y []|reflexivity].
  - destruct (p x) eqn:Hp.
    + split; [discriminate|].
      intros H. specialize (H x (or_introl eq_refl)). congruence.
    + destruct (findIndex p l =? -1) eqn:E.
      * apply Z.eqb_eq in E. split; [|reflexivity].
        intros _ y [<-|Hy]; [assumption|]. now apply IH.
      * apply Z.eqb_neq in E. pose proof (findIndex_lower p l) as Hlow.
        split; [lia|].
        intros H. exfalso. apply E, IH. intros y Hy. apply H. now right.
Qed.

(** When [findIndex] finds something, the result is the position of the
    first element that satisfies the predicate. *)
Lemma findIndex_some {A : Type} (p : A -> bool) (l : list A) :
  findIndex p l <> -1 ->
  exists (i : nat) (x : A),
    findIndex p l = Z.of_nat i /\ nth_error l i = Some x /\ p x = true /\
    (forall (j : nat) (y : A), (j < i)%nat -> nth_error l j = Some y -> p y = false).
Proof.
  induction l as [|x l IH]; simpl; [congruence|].
  destruct (p x) eqn:Hp.
  - intros _. exists 0%nat, x. repeat split; auto. intros j y Hj. lia.
  - destruct (findIndex p l =? -1) eqn:E; [congruence|].
    apply Z.eqb_neq in E. intros _.
    destruct (IH E) as (i & y & Hi & Hn & Hy & Hfirst).
    exists (S i), y. repeat split; auto; [lia|].
    intros [|j] z Hj Hz; simpl in Hz.
    + congruence.
    + apply (Hfirst j); [lia|assumption].
Qed.

(** *** toNumber *)

Lemma toNumber_Ok (x y : Z) : toNumber x = Ok y -> y = x /\ Z.abs x <= MAX_SAFE_INTEGER.
Proof.
  unfold toNumber. destruct (Z.abs x <=? MAX_SAFE_INTEGER) eqn:E; [|discriminate].
  intros [= <-]. split; [reflexivity|]. now apply Z.leb_le.
Qed.

Lemma toNumber_safe (x : Z) : Z.abs x <= MAX_SAFE_INTEGER -> toNumber x = Ok x.
Proof.
  intros H. unfold toNumber. apply Z.leb_le in H. now rewrite H.
Qed.

Lemma toNumber_Err (x : Z) (e : exn) : toNumber x = Err e -> e = NumericFault.
Proof.
  unfold toNumber. destruct (Z.abs x <=? MAX_SAFE_INTEGER); congruence.
Qed.

(** *** toLowerCase *)

Lemma lowerChar_idempotent (c : ascii) : lowerChar (lowerChar c) = lowerChar c.
Proof.
  destruct c as [[] [] [] [] [] [] [] []]; reflexivity.
Qed.

Lemma toLowerCase_idempotent (s : string) : toLowerCase (toLowerCase s) = toLowerCase s.
Proof.
  induction s as [|c s IH]; simpl; [reflexivity|].
  now rewrite lowerChar_idempotent, IH.
Qed.

Lemma toLowerCase_append (s t : string) :
  toLowerCase (s ++ t) = (toLowerCase s ++ toLowerCase t)%string.
Proof.
  induction s as [|c s IH]; simpl; [reflexivity|]. now rewrite IH.
Qed.

(** *** More on findIndex *)

Lemma findIndex_upper {A : Type} (p : A -> bool) (l : list A) :
  findIndex p l < Z.of_nat (List.length l).
Proof.
  destruct (Z.eq_dec (findIndex p l) (-1)) as [E|E]; [lia|].
  destruct (findIndex_some p l E) as (i & x & Hi & Hn & _).
  assert (i < List.length l)%nat by (apply nth_error_Some; congruence).
  lia.
Qed.


End JsFacts.

(** ** Properties of the funding-round module *)

Module RoundFacts.

Import Js JsFacts Round.
Local Open Scope Z_scope.
Local Open Scope js_scope.

(** *** The fallible constructors and the comparison of dates *)

Lemma fromValue_Ok (value decimals : Z) (x : FixedNumber) :
  fromValue value decimals = Ok x -> x = mkFixedNumber value decimals.
Proof.
  unfold fromValue. destruct (_ || _); [discriminate|].
  destruct (_ && _); [discriminate|]. now intros [= <-].
Qed.

Lemma fromValue_Err (value decimals : Z) (e : exn) :
  fromValue value decimals = Err e -> e = InvalidArgument \/ e = NumericFault.
Proof.
  unfold fromValue. destruct (_ || _); [intros [= <-]; now left|].
  destruct (_ && _); [intros [= <-]; now right|discriminate].
Qed.

(** Up to 18 decimals every amount is representable. *)
Lemma fromValue_small (value decimals : Z) :
  0 <= decimals <= 18 -> fromValue value decimals = Ok (mkFixedNumber value decimals).
Proof.
  intros H. unfold fromValue.
  destruct (decimals <? 0) eqn:E1; [apply Z.ltb_lt in E1; lia|].
  destruct (256 <? decimals) eqn:E2; [apply Z.ltb_lt in E2; lia|].
  destruct (18 <? decimals) eqn:E3; [apply Z.ltb_lt in E3; lia|].
  reflexivity.
Qed.

(** Above 18 decimals an amount that is not a multiple of
    [10 ^ (decimals - 18)] is not. *)
Lemma fromValue_underflow (value decimals : Z) :
  18 < decimals <= 256 ->
  Z.abs value mod 10 ^ (decimals - 18) <> 0 ->
  fromValue value decimals = Err NumericFault.
Proof.
  intros H Hmod. unfold fromValue.
  destruct (decimals <? 0) eqn:E1; [apply Z.ltb_lt in E1; lia|].
  destruct (256 <? decimals) eqn:E2; [apply Z.ltb_lt in E2; lia|].
  destruct (18 <? decimals) eqn:E3; [|apply Z.ltb_ge in E3; lia].
  apply Z.eqb_neq in Hmod. now rewrite Hmod.
Qed.

Lemma representable_true (decimals value : Z) :
  Reference.representable decimals value = true <->
  fromValue value decimals = Ok (mkFixedNumber value decimals).
Proof.
  unfold Reference.representable. split.
  - destruct (fromValue value decimals) as [x|e] eqn:E; [|discriminate].
    apply fromValue_Ok in E. now subst.
  - now intros ->.
Qed.

Lemma representable_small (decimals value : Z) :
  0 <= decimals <= 18 -> Reference.representable decimals value = true.
Proof.
  intros H. apply representable_true. now apply fromValue_small.
Qed.

Lemma fromSeconds_Valid (offset : Z -> Z) (seconds ts : Z) :
  fromSeconds offset seconds = Valid ts -> ts = seconds * 1000.
Proof.
  unfold fromSeconds. cbv zeta. destruct (_ && _); [|discriminate]. now intros [= <-].
Qed.

Lemma fromSeconds_cases (offset : Z -> Z) (seconds : Z) :
  fromSeconds offset seconds = Valid (seconds * 1000)
  \/ fromSeconds offset seconds = Invalid.
Proof.
  unfold fromSeconds. cbv zeta. destruct (_ && _); auto.
Qed.

(** Beyond the largest time value the date is invalid, whatever the zone. *)
Lemma fromSeconds_out_of_range (offset : Z -> Z) (seconds : Z) :
  MAX_DATE < Z.abs (seconds * 1000) -> fromSeconds offset seconds = Invalid.
Proof.
  intros H. unfold fromSeconds, validDate. cbv zeta.
  destruct (Z.abs (seconds * 1000) <=? MAX_DATE) eqn:E; [|reflexivity].
  apply Z.leb_le in E. lia.
Qed.

Lemma lessThan_Invalid_r (x : DateTime) : lessThan x Invalid = false.
Proof.
  destruct x; reflexivity.
Qed.

(** *** getRoundNumber *)

Lemma getRoundNumber_Err (w : World) (a : string) (e : exn) :
  getRoundNumber w a = Err e -> e = Error "round does not exist".
Proof.
  unfold getRoundNumber. destruct (_ =? -1); congruence.
Qed.

Lemma getRoundNumber_not_found (w : World) (a : string) :
  getRoundNumber w a = Err (Error "round does not exist") <->
  (forall ev, In ev (RoundStarted (factory w)) ->
              Reference.sameAddress (_round (args ev)) a = false).
Proof.
  unfold getRoundNumber.
  destruct (findIndex _ (RoundStarted (factory w)) =? -1) eqn:E.
  - apply Z.eqb_eq in E. split; [intros _|reflexivity].
    exact (proj1 (findIndex_none _ _) E).
  - apply Z.eqb_neq in E. split; [discriminate|].
    intros H. exfalso. apply E. apply findIndex_none. exact H.
Qed.

Lemma getRoundNumber_found (w : World) (a : string) (i : nat)
  (ev : Event RoundStartedArgs) :
  nth_error (RoundStarted (factory w)) i = Some ev ->
  Reference.sameAddress (_round (args ev)) a = true ->
  (forall (j : nat) ev', (j < i)%nat ->
     nth_error (RoundStarted (factory w)) j = Some ev' ->
     Reference.sameAddress (_round (args ev')) a = false) ->
  getRoundNumber w a = Ok (Z.of_nat i + Z.of_nat (List.length (extraRounds w))).
Proof.
  intros Hnth Hsame Hfirst. unfold getRoundNumber.
  set (p := fun event : Event RoundStartedArgs =>
              String.eqb (toLowerCase (_round (args event))) (toLowerCase a)).
  assert (Hne : findIndex p (RoundStarted (factory w)) <> -1).
  { intros Hnone. apply findIndex_none with (x := ev) in Hnone.
    - unfold p in Hnone. unfold Reference.sameAddress in Hsame. congruence.
    - eapply nth_error_In; eassumption. }
  destruct (findIndex_some p _ Hne) as (k & x & Hk & Hx & Hpx & Hmin).
  assert (k = i) as ->.
  { destruct (Nat.lt_trichotomy k i) as [Hlt|[Heq|Hgt]]; [|assumption|].
    - specialize (Hfirst k x Hlt Hx). unfold Reference.sameAddress in Hfirst.
      unfold p in Hpx. congruence.
    - specialize (Hmin i ev Hgt Hnth). unfold p in Hmin.
      unfold Reference.sameAddress in Hsame. congruence. }
  rewrite Hk. destruct (Z.of_nat i =? -1) eqn:E; [|reflexivity].
  apply Z.eqb_eq in E. lia.
Qed.

(** *** getRoundInfo: when it returns, and what *)

(** The calls of [getRoundInfo] that can throw, in the order they are made,
    and the record it returns when none does. *)
Lemma getRoundInfo_steps (w : World) (now : DateTime) (a : string) :
  getRoundInfo w now a =
  (n <- getRoundNumber w a ;;
   s1 <- toNumber (Reference.signUpEnd w a) ;;
   s2 <- toNumber (Reference.votingEnd w a) ;;
   key <- newPubKey w (fst (coordinatorPubKeyRaw (maciAt w (maci (fundingRoundAt w a)))))
                      (snd (coordinatorPubKeyRaw (maciAt w (maci (fundingRoundAt w a))))) ;;
   sb <- toNumber (roundStartBlock (fundingRoundAt w a)) ;;
   eb <- toNumber (Reference.estimatedEndBlock w a) ;;
   tf <- fromValue (Reference.matchingPoolOf w a + Reference.contributionsOf w a)
                   (decimals (erc20At w (nativeToken (fundingRoundAt w a)))) ;;
   mp <- fromValue (Reference.matchingPoolOf w a)
                   (decimals (erc20At w (nativeToken (fundingRoundAt w a)))) ;;
   cs <- fromValue (Reference.contributionsOf w a)
                   (decimals (erc20At w (nativeToken (fundingRoundAt w a)))) ;;
   Ok (Reference.roundRecord w now a n)).
Proof.
  unfold getRoundInfo.
  destruct (getRoundNumber w a) as [n|e]; [|reflexivity]. cbn [bind].
  unfold Reference.roundRecord, Reference.matchingPoolOf, Reference.contributionsOf,
    Reference.signUpEnd, Reference.votingEnd, Reference.estimatedEndBlock.
  cbv zeta.
  unfold newPubKey.
  destruct (isCancelled (fundingRoundAt w a)); [|destruct (isFinalized (fundingRoundAt w a))];
    repeat match goal with
           | |- context [bind (toNumber ?x) _] =>
               let H := fresh "H" in
               destruct (toNumber x) as [?|?] eqn:H;
               [apply toNumber_Ok in H; destruct H as [-> _]|reflexivity];
               cbn [bind]
           | |- context [if acceptsPubKey ?w ?x ?y then _ else _] =>
               destruct (acceptsPubKey w x y); [|reflexivity]; cbn [bind]
           | |- context [bind (fromValue ?x ?d) _] =>
               let H := fresh "H" in
               destruct (fromValue x d) as [?|?] eqn:H;
               [apply fromValue_Ok in H; subst|reflexivity];
               cbn [bind]
           end; reflexivity.
Qed.

Lemma conversionsInRange_true (w : World) (a : string) :
  Reference.conversionsInRange w a = true <->
  Z.abs (Reference.signUpEnd w a) <= MAX_SAFE_INTEGER /\
  Z.abs (Reference.votingEnd w a) <= MAX_SAFE_INTEGER /\
  Z.abs (roundStartBlock (fundingRoundAt w a)) <= MAX_SAFE_INTEGER /\
  Z.abs (Reference.estimatedEndBlock w a) <= MAX_SAFE_INTEGER.
Proof.
  unfold Reference.conversionsInRange.
  rewrite !andb_true_iff, !Z.leb_le. tauto.
Qed.

Lemma recordBuilds_true (w : World) (a : string) :
  Reference.recordBuilds w a = true <->
  acceptsPubKey w (fst (coordinatorPubKeyRaw (maciAt w (maci (fundingRoundAt w a)))))
                  (snd (coordinatorPubKeyRaw (maciAt w (maci (fundingRoundAt w a)))))
  = true /\
  Reference.representable (decimals (erc20At w (nativeToken (fundingRoundAt w a))))
    (Reference.matchingPoolOf w a + Reference.contributionsOf w a) = true /\
  Reference.representable (decimals (erc20At w (nativeToken (fundingRoundAt w a))))
    (Reference.matchingPoolOf w a) = true /\
  Reference.representable (decimals (erc20At w (nativeToken (fundingRoundAt w a))))
    (Reference.contributionsOf w a) = true.
Proof.
  unfold Reference.recordBuilds. cbv zeta.
  rewrite !andb_true_iff. tauto.
Qed.

(** With a key the constructor accepts and a token of at most 18 decimals
    the record can be built. *)
Lemma recordBuilds_small (w : World) (a : string) :
  acceptsPubKey w (fst (coordinatorPubKeyRaw (maciAt w (maci (fundingRoundAt w a)))))
                  (snd (coordinatorPubKeyRaw (maciAt w (maci (fundingRoundAt w a)))))
  = true ->
  0 <= decimals (erc20At w (nativeToken (fundingRoundAt w a))) <= 18 ->
  Reference.recordBuilds w a = true.
Proof.
  intros Hkey Hd. apply recordBuilds_true.
  repeat split; [exact Hkey| | |]; now apply representable_small.
Qed.

(** The round is found, the conversions are in range and the objects of the
    record can be built: the call returns. *)
Lemma getRoundInfo_returns (w : World) (now : DateTime) (a : string) (n : Z) :
  getRoundNumber w a = Ok n ->
  Reference.conversionsInRange w a = true ->
  Reference.recordBuilds w a = true ->
  getRoundInfo w now a = Ok (Reference.roundRecord w now a n).
Proof.
  intros Hn Hr Hb.
  apply conversionsInRange_true in Hr. destruct Hr as (H1 & H2 & H3 & H4).
  apply recordBuilds_true in Hb. destruct Hb as (Hkey & B1 & B2 & B3).
  apply representable_true in B1, B2, B3.
  rewrite getRoundInfo_steps, Hn. cbn [bind].
  rewrite (toNumber_safe _ H1). cbn [bind].
  rewrite (toNumber_safe _ H2). cbn [bind].
  unfold newPubKey. rewrite Hkey. cbn [bind].
  rewrite (toNumber_safe _ H3). cbn [bind].
  rewrite (toNumber_safe _ H4). cbn [bind].
  rewrite B1. cbn [bind]. rewrite B2. cbn [bind]. rewrite B3. reflexivity.
Qed.

(** And it returns in no other case. *)
Lemma getRoundInfo_Ok (w : World) (now : DateTime) (a : string) (info : RoundInfo) :
  getRoundInfo w now a = Ok info ->
  exists n,
    getRoundNumber w a = Ok n /\
    Reference.conversionsInRange w a = true /\
    Reference.recordBuilds w a = true /\
    info = Reference.roundRecord w now a n.
Proof.
  rewrite getRoundInfo_steps. intros H.
  destruct (getRoundNumber w a) as [n|] eqn:Hn; [|discriminate]. cbn [bind] in H.
  destruct (toNumber (Reference.signUpEnd w a)) as [s1|] eqn:E1; [|discriminate].
  cbn [bind] in H.
  destruct (toNumber (Reference.votingEnd w a)) as [s2|] eqn:E2; [|discriminate].
  cbn [bind] in H.
  unfold newPubKey in H.
  destruct (acceptsPubKey w _ _) eqn:Hkey; [|discriminate]. cbn [bind] in H.
  destruct (toNumber (roundStartBlock _)) as [sb|] eqn:E3; [|discriminate].
  cbn [bind] in H.
  destruct (toNumber (Reference.estimatedEndBlock w a)) as [eb|] eqn:E4; [|discriminate].
  cbn [bind] in H.
  destruct (fromValue (_ + _) _) as [tf|] eqn:B1; [|discriminate]. cbn [bind] in H.
  destruct (fromValue (Reference.matchingPoolOf w a) _) as [mp|] eqn:B2; [|discriminate].
  cbn [bind] in H.
  destruct (fromValue (Reference.contributionsOf w a) _) as [cs|] eqn:B3; [|discriminate].
  cbn [bind] in H. injection H as <-.
  apply toNumber_Ok in E1, E2, E3, E4.
  pose proof (fromValue_Ok _ _ _ B1) as ->.
  pose proof (fromValue_Ok _ _ _ B2) as ->.
  pose proof (fromValue_Ok _ _ _ B3) as ->.
  exists n. split; [reflexivity|]. split; [|split; [|reflexivity]].
  - apply conversionsInRange_true. tauto.
  - apply recordBuilds_true. rewrite !representable_true. auto.
Qed.

(** What [getRoundInfo] throws: the missing round, the numeric fault of a
    conversion or of an amount, the failed assertion of the [PubKey]
    constructor, the invalid number of decimals. *)
Lemma getRoundInfo_Err (w : World) (now : DateTime) (a : string) (e : exn) :
  getRoundInfo w now a = Err e ->
  getRoundNumber w a = Err e \/ e = NumericFault \/ e = AssertionError
  \/ e = InvalidArgument.
Proof.
  rewrite getRoundInfo_steps. intros H.
  destruct (getRoundNumber w a) as [n|e'] eqn:Hn; [right|left; cbn [bind] in H; congruence].
  cbn [bind] in H.
  destruct (toNumber (Reference.signUpEnd w a)) as [s1|e1] eqn:E1;
    [|apply toNumber_Err in E1; cbn in H; left; congruence].
  cbn [bind] in H.
  destruct (toNumber (Reference.votingEnd w a)) as [s2|e2] eqn:E2;
    [|apply toNumber_Err in E2; cbn in H; left; congruence].
  cbn [bind] in H. unfold newPubKey in H.
  destruct (acceptsPubKey w _ _); [|cbn in H; right; left; congruence].
  cbn [bind] in H.
  destruct (toNumber (roundStartBlock _)) as [sb|e3] eqn:E3;
    [|apply toNumber_Err in E3; cbn in H; left; congruence].
  cbn [bind] in H.
  destruct (toNumber (Reference.estimatedEndBlock w a)) as [eb|e4] eqn:E4;
    [|apply toNumber_Err in E4; cbn in H; left; congruence].
  cbn [bind] in H.
  destruct (fromValue (_ + _) _) as [tf|e5] eqn:B1;
    [|apply fromValue_Err in B1; cbn in H; injection H as <-; tauto].
  cbn [bind] in H.
  destruct (fromValue (Reference.matchingPoolOf w a) _) as [mp|e6] eqn:B2;
    [|apply fromValue_Err in B2; cbn in H; injection H as <-; tauto].
  cbn [bind] in H.
  destruct (fromValue (Reference.contributionsOf w a) _) as [cs|e7] eqn:B3;
    [|apply fromValue_Err in B3; cbn in H; injection H as <-; tauto].
  discriminate.
Qed.

(** C1. Every record [getRoundInfo] returns has one status, chosen in a
    fixed precedence: [Cancelled] if the round's [isCancelled] flag is set,
    else [Finalized] if its [isFinalized] flag is set, else the value given
    by comparing the clock with the two deadlines of the record, which are
    the dates of the sign-up end and of the voting end (a comparison with a
    date that is not valid being false).  In particular a set flag decides
    the status whatever the clock and the deadlines are.  And the call
    returns a record as soon as the round is found, the four numeric
    conversions are in range and the objects of the record can be built. *)
Theorem getRoundInfo_status_precedence (w : World) (now : DateTime) (a : string) :
  (forall info,
     getRoundInfo w now a = Ok info ->
     signUpDeadline info = fromSeconds (zoneOffset w) (Reference.signUpEnd w a) /\
     votingDeadline info = fromSeconds (zoneOffset w) (Reference.votingEnd w a) /\
     status info =
       (if isCancelled (fundingRoundAt w a) then Cancelled
        else if isFinalized (fundingRoundAt w a) then Finalized
        else if lessThan now (signUpDeadline info) then Contributing
        else if lessThan now (votingDeadline info) then Reallocating
        else Tallying) /\
     (isCancelled (fundingRoundAt w a) = true -> status info = Cancelled) /\
     (isCancelled (fundingRoundAt w a) = false ->
      isFinalized (fundingRoundAt w a) = true -> status info = Finalized) /\
     (isCancelled (fundingRoundAt w a) = false ->
      isFinalized (fundingRoundAt w a) = false ->
      status info = Contributing \/ status info = Reallocating
      \/ status info = Tallying))
  /\
  (forall n,
     getRoundNumber w a = Ok n ->
     Reference.conversionsInRange w a = true ->
     Reference.recordBuilds w a = true ->
     exists info, getRoundInfo w now a = Ok info).
Proof.
  split.
  - intros info H. apply getRoundInfo_Ok in H.
    destruct H as (n & _ & _ & _ & ->). cbn.
    split; [reflexivity|]. split; [reflexivity|]. split; [reflexivity|].
    repeat split.
    + intros ->. reflexivity.
    + intros -> ->. reflexivity.
    + intros -> ->.
      destruct (lessThan now _); [auto|].
      destruct (lessThan now _); auto.
  - intros n Hn Hr Hb. eexists. apply getRoundInfo_returns; eassumption.
Qed.

(** The scenario's round with both flags set, read long after both
    deadlines: the status is [Cancelled].  A round with no flag set whose
    deadlines are beyond the dates a [Date] can hold: the status is
    [Tallying], whatever the clock reads. *)
Lemma getRoundInfo_status_precedence_witness :
  (exists info,
     getRoundInfo (Scenario.flagged true true) (local ((Scenario.T + 5000) * 1000))
                  "0xabc1"
     = Ok info /\
     status info = Cancelled) /\
  (exists info,
     getRoundInfo Scenario.farFuture (local 0) "0xabc1" = Ok info /\
     signUpDeadline info = Invalid /\
     status info = Tallying).
Proof.
  split.
  - destruct (getRoundInfo_status_precedence (Scenario.flagged true true)
                (local ((Scenario.T + 5000) * 1000)) "0xabc1") as [Hstatus Hreturns].
    destruct (Hreturns 1 eq_refl eq_refl eq_refl) as [info Hi].
    exists info. split; [exact Hi|].
    destruct (Hstatus info Hi) as (_ & _ & _ & Hc & _).
    apply Hc. reflexivity.
  - destruct (getRoundInfo_status_precedence Scenario.farFuture (local 0) "0xabc1")
      as [Hstatus Hreturns].
    destruct (Hreturns 1 eq_refl eq_refl eq_refl) as [info Hi].
    exists info. split; [exact Hi|].
    destruct (Hstatus info Hi) as (Hd1 & Hd2 & Hst & _).
    split; [exact Hd1|]. rewrite Hst, Hd1, Hd2. reflexivity.
Defined.

(** C8. [getRoundInfo] throws the round-not-found error exactly when no
    RoundStarted event of the factory carries the given address, addresses
    being compared after lower-casing.  When some event carries it, with
    [i] the position of the first such event in emission order,
    [getRoundNumber] returns [i] plus the number of extra rounds, and that is
    the round number of every record [getRoundInfo] returns (which it does as
    soon as the numeric conversions are in range and the objects of the
    record can be built). *)
Theorem getRoundInfo_round_number (w : World) (now : DateTime) (a : string) :
  (getRoundInfo w now a = Err (Error "round does not exist") <->
   (forall ev, In ev (RoundStarted (factory w)) ->
               Reference.sameAddress (_round (args ev)) a = false))
  /\
  (forall (i : nat) (ev : Event RoundStartedArgs),
     nth_error (RoundStarted (factory w)) i = Some ev ->
     Reference.sameAddress (_round (args ev)) a = true ->
     (forall (j : nat) ev', (j < i)%nat ->
        nth_error (RoundStarted (factory w)) j = Some ev' ->
        Reference.sameAddress (_round (args ev')) a = false) ->
     let number := Z.of_nat i + Z.of_nat (List.length (extraRounds w)) in
     getRoundNumber w a = Ok number /\
     (forall info, getRoundInfo w now a = Ok info -> roundNumber info = number) /\
     (Reference.conversionsInRange w a = true ->
      Reference.recordBuilds w a = true ->
      exists info, getRoundInfo w now a = Ok info /\ roundNumber info = number)).
Proof.
  split.
  - rewrite <- getRoundNumber_not_found. split.
    + intros H. apply getRoundInfo_Err in H.
      destruct H as [H|[H|[H|H]]]; congruence.
    + intros H. unfold getRoundInfo. rewrite H. reflexivity.
  - intros i ev Hnth Hsame Hfirst number.
    pose proof (getRoundNumber_found w a i ev Hnth Hsame Hfirst) as Hn.
    fold number in Hn. split; [exact Hn|]. split.
    + intros info Hi. apply getRoundInfo_Ok in Hi.
      destruct Hi as (n & Hi & _ & _ & ->). cbn. congruence.
    + intros Hr Hb. eexists. split.
      * apply getRoundInfo_returns; eassumption.
      * reflexivity.
Qed.

(** The second round of the scenario, asked for in another letter case. *)
Lemma getRoundInfo_round_number_witness :
  getRoundNumber Scenario.world "0xDEF2" = Ok 2 /\
  (exists info,
     getRoundInfo Scenario.world (local 0) "0xDEF2" = Ok info /\ roundNumber info = 2) /\
  getRoundInfo Scenario.world (local 0) "0xBEEF" = Err (Error "round does not exist").
Proof.
  assert (Hfirst : forall (j : nat) ev', (j < 1)%nat ->
            nth_error (RoundStarted (factory Scenario.world)) j = Some ev' ->
            Reference.sameAddress (_round (args ev')) "0xDEF2" = false).
  { intros [|j] ev' Hj H; [injection H as <-; reflexivity|lia]. }
  destruct (proj2 (getRoundInfo_round_number Scenario.world (local 0) "0xDEF2")
              1%nat _ eq_refl eq_refl Hfirst) as (Hnumber & _ & Hreturns).
  split; [exact Hnumber|]. split.
  - exact (Hreturns eq_refl eq_refl).
  - apply (proj1 (getRoundInfo_round_number Scenario.world (local 0) "0xBEEF")).
    intros ev [<-|[<-|[]]]; reflexivity.
Defined.

(** *** The scenario of the sign-up and voting windows *)

(** Between the two deadlines the status is [Reallocating]. *)
Lemma getRoundInfo_reallocating (w : World) (now : Z) (a : string) (n : Z) :
  getRoundNumber w a = Ok n ->
  Reference.conversionsInRange w a = true ->
  Reference.recordBuilds w a = true ->
  isCancelled (fundingRoundAt w a) = false ->
  isFinalized (fundingRoundAt w a) = false ->
  fromSeconds (zoneOffset w) (Reference.signUpEnd w a) <> Invalid ->
  fromSeconds (zoneOffset w) (Reference.votingEnd w a) <> Invalid ->
  Reference.signUpEnd w a * 1000 <= now < Reference.votingEnd w a * 1000 ->
  exists info, getRoundInfo w (local now) a = Ok info /\ status info = Reallocating.
Proof.
  intros Hn Hr Hb Hc Hf Hv1 Hv2 [Hlo Hhi].
  eexists. split; [apply getRoundInfo_returns; eassumption|].
  cbn. rewrite Hc, Hf.
  destruct (fromSeconds_cases (zoneOffset w) (Reference.signUpEnd w a)) as [E1|E1];
    [|contradiction].
  destruct (fromSeconds_cases (zoneOffset w) (Reference.votingEnd w a)) as [E2|E2];
    [|contradiction].
  rewrite E1, E2. cbn.
  apply Z.ltb_ge in Hlo. apply Z.ltb_lt in Hhi. now rewrite Hlo, Hhi.
Qed.

(** C5 (as amended). For a round that is neither finalized nor cancelled,
    with signUpDuration = 100, votingDuration = 50 and signUpTimestamp = T,
    for which [getRoundInfo] returns (the round is found, the numeric
    conversions are in range, the objects of the record can be built): the
    status at now = T+60 is [Contributing] when the sign-up deadline T+100
    is a valid date (it has not passed); the status is [Reallocating] for
    T+100 <= now < T+150 when both deadlines are valid dates; and the status
    at now = T+200 is [Tallying]. *)
Theorem getRoundInfo_scenario_status (w : World) (a : string) (n T : Z) :
  getRoundNumber w a = Ok n ->
  Reference.conversionsInRange w a = true ->
  Reference.recordBuilds w a = true ->
  isCancelled (fundingRoundAt w a) = false ->
  isFinalized (fundingRoundAt w a) = false ->
  signUpTimestamp (maciAt w (maci (fundingRoundAt w a))) = T ->
  signUpDurationSeconds (maciAt w (maci (fundingRoundAt w a))) = 100 ->
  votingDurationSeconds (maciAt w (maci (fundingRoundAt w a))) = 50 ->
  (fromSeconds (zoneOffset w) (T + 100) <> Invalid ->
   exists info,
     getRoundInfo w (local ((T + 60) * 1000)) a = Ok info /\ status info = Contributing)
  /\
  (fromSeconds (zoneOffset w) (T + 100) <> Invalid ->
   fromSeconds (zoneOffset w) (T + 150) <> Invalid ->
   forall now, (T + 100) * 1000 <= now < (T + 150) * 1000 ->
   exists info,
     getRoundInfo w (local now) a = Ok info /\ status info = Reallocating)
  /\
  (exists info,
     getRoundInfo w (local ((T + 200) * 1000)) a = Ok info /\ status info = Tallying).
Proof.
  intros Hn Hr Hb Hc Hf HT Hs Hv.
  assert (Hsu : Reference.signUpEnd w a = T + 100).
  { unfold Reference.signUpEnd. cbv zeta. rewrite HT, Hs. reflexivity. }
  assert (Hvo : Reference.votingEnd w a = T + 150).
  { unfold Reference.votingEnd. cbv zeta. rewrite HT, Hs, Hv. lia. }
  split; [|split].
  - intros Hvalid. eexists. split; [apply getRoundInfo_returns; eassumption|].
    cbn. rewrite Hc, Hf, Hsu.
    destruct (fromSeconds_cases (zoneOffset w) (T + 100)) as [E|E]; [|contradiction].
    rewrite E. cbn.
    destruct ((T + 60) * 1000 <? (T + 100) * 1000) eqn:E1; [reflexivity|].
    apply Z.ltb_ge in E1. lia.
  - intros Hv1 Hv2 now Hnow.
    apply (getRoundInfo_reallocating w now a n Hn Hr Hb Hc Hf).
    + now rewrite Hsu.
    + now rewrite Hvo.
    + now rewrite Hsu, Hvo.
  - eexists. split; [apply getRoundInfo_returns; eassumption|].
    cbn. rewrite Hc, Hf, Hsu, Hvo.
    destruct (fromSeconds_cases (zoneOffset w) (T + 100)) as [E1|E1];
      destruct (fromSeconds_cases (zoneOffset w) (T + 150)) as [E2|E2];
      rewrite E1, E2; cbn;
      repeat match goal with
             | |- context [?x <? ?y] =>
                 let E := fresh "E" in
                 destruct (x <? y) eqn:E; [apply Z.ltb_lt in E; lia|]
             end; reflexivity.
Qed.

Lemma getRoundInfo_scenario_status_witness :
  (exists info,
     getRoundInfo Scenario.world (local ((Scenario.T + 60) * 1000)) "0xabc1" = Ok info
     /\ status info = Contributing)
  /\
  (exists info,
     getRoundInfo Scenario.world (local ((Scenario.T + 120) * 1000)) "0xabc1" = Ok info
     /\ status info = Reallocating)
  /\
  (exists info,
     getRoundInfo Scenario.world (local ((Scenario.T + 200) * 1000)) "0xabc1" = Ok info
     /\ status info = Tallying).
Proof.
  destruct (getRoundInfo_scenario_status Scenario.world "0xabc1" 1 Scenario.T
              eq_refl eq_refl eq_refl eq_refl eq_refl eq_refl eq_refl eq_refl)
    as (Hearly & Hbetween & Hlate).
  split; [apply Hearly; discriminate|]. split; [|exact Hlate].
  apply Hbetween; [discriminate|discriminate|].
  unfold Scenario.T. lia.
Defined.

(** C5 as stated fails: the scenario's round has signUpDuration = 100,
    votingDuration = 50, signUpTimestamp = T and no flag set, and at
    now = T+60 its status is [Contributing], not [Reallocating]. *)
Lemma getRoundInfo_scenario_not_reallocating :
  signUpDurationSeconds (maciAt Scenario.world "0x3AC1") = 100 /\
  votingDurationSeconds (maciAt Scenario.world "0x3AC1") = 50 /\
  signUpTimestamp (maciAt Scenario.world "0x3AC1") = Scenario.T /\
  maci (fundingRoundAt Scenario.world "0xabc1") = "0x3AC1"%string /\
  isFinalized (fundingRoundAt Scenario.world "0xabc1") = false /\
  isCancelled (fundingRoundAt Scenario.world "0xabc1") = false /\
  exists info,
    getRoundInfo Scenario.world (local ((Scenario.T + 60) * 1000)) "0xabc1" = Ok info /\
    status info = Contributing /\
    status info <> Reallocating.
Proof.
  repeat (split; [reflexivity|]).
  eexists. split; [vm_compute; reflexivity|].
  split; [reflexivity|discriminate].
Qed.

(** *** getApprovedFunding *)

Section ApprovedFunding.

Variables (w : World) (token : ERC20Contract).

Let removedSources : list string :=
  map (fun ev => _source (args ev)) (FundingSourceRemoved (factory w)).

(** What one active source adds to the total. *)
Let contribution (s : string) : Z :=
  Z.min (allowance token s (address (factory w))) (balanceOf token s).

Lemma min_by_lt (x y : Z) : (if x <? y then x else y) = Z.min x y.
Proof.
  destruct (x <? y) eqn:E; [apply Z.ltb_lt in E|apply Z.ltb_ge in E]; lia.
Qed.

Lemma find_removed (s : string) :
  find (fun ev : Event FundingSourceArgs => String.eqb (_source (args ev)) s)
       (FundingSourceRemoved (factory w))
  = None <-> existsb (String.eqb s) removedSources = false.
Proof.
  subst removedSources.
  induction (FundingSourceRemoved (factory w)) as [|ev l IH]; simpl.
  - tauto.
  - rewrite (String.eqb_sym s). destruct (String.eqb (_source (args ev)) s); simpl.
    + split; discriminate.
    + exact IH.
Qed.

Lemma approved_loop (events : list (Event FundingSourceArgs)) (acc : Z) :
  fold_left
    (fun (total : BigNumber) (event : Event FundingSourceArgs) =>
       match
         find (fun event' : Event FundingSourceArgs =>
                 String.eqb (_source (args event')) (_source (args event)))
              (FundingSourceRemoved (factory w))
       with
       | Some _ => total
       | None =>
           total
           + (if allowance token (_source (args event)) (address (factory w))
                 <? balanceOf token (_source (args event))
              then allowance token (_source (args event)) (address (factory w))
              else balanceOf token (_source (args event)))
       end)
    events acc
  = acc
    + Reference.total
        (map contribution
           (filter (fun s => negb (existsb (String.eqb s) removedSources))
                   (map (fun ev => _source (args ev)) events))).
Proof.
  revert acc. induction events as [|ev l IH]; intros acc; simpl.
  - lia.
  - rewrite IH. clear IH.
    destruct (find _ (FundingSourceRemoved (factory w))) as [r|] eqn:Hf.
    + destruct (existsb (String.eqb (_source (args ev))) removedSources) eqn:Hx.
      * reflexivity.
      * apply find_removed in Hx. congruence.
    + apply find_removed in Hf. rewrite Hf. simpl.
      rewrite min_by_lt. subst contribution. cbv beta. lia.
Qed.

Lemma getApprovedFunding_sum :
  getApprovedFunding w token
  = Reference.total (map contribution (Reference.activeSources (factory w))).
Proof.
  unfold getApprovedFunding. cbv zeta. rewrite approved_loop. reflexivity.
Qed.

Lemma total_le (f g : string -> Z) (l : list string) :
  (forall s, f s <= g s) ->
  Reference.total (map f l) <= Reference.total (map g l).
Proof.
  intros H. induction l as [|s l IH]; simpl; [lia|].
  specialize (H s). lia.
Qed.

Lemma activeSources_In (s : string) :
  In s (Reference.activeSources (factory w)) <->
  (exists ev, In ev (FundingSourceAdded (factory w)) /\ _source (args ev) = s) /\
  ~ (exists ev, In ev (FundingSourceRemoved (factory w)) /\ _source (args ev) = s).
Proof.
  unfold Reference.activeSources. cbv zeta.
  rewrite filter_In, in_map_iff, negb_true_iff.
  assert (Hx : existsb (String.eqb s)
                 (map (fun ev => _source (args ev)) (FundingSourceRemoved (factory w)))
               = false
               <-> ~ (exists ev, In ev (FundingSourceRemoved (factory w))
                                 /\ _source (args ev) = s)).
  { rewrite <- not_true_iff_false, existsb_exists. split.
    - intros H (ev & Hin & Hs). apply H. exists s. split.
      + apply in_map_iff. eauto.
      + apply String.eqb_refl.
    - intros H (x & Hin & Hs). apply H. apply String.eqb_eq in Hs. subst x.
      apply in_map_iff in Hin. destruct Hin as (ev & He & Hin). eauto. }
  rewrite Hx. split.
  - intros [(ev & He & Hin) Hn]. split; eauto.
  - intros [(ev & Hin & He) Hn]. split; eauto.
Qed.

End ApprovedFunding.

(** When no address is added twice, no source is summed twice. *)
Lemma activeSources_NoDup (f : FactoryContract) :
  NoDup (map (fun ev => _source (args ev)) (FundingSourceAdded f)) ->
  NoDup (Reference.activeSources f).
Proof.
  unfold Reference.activeSources. cbv zeta. apply NoDup_filter.
Qed.

(** The active sources, read off the added events one by one. *)
Lemma activeSources_events (f : FactoryContract) (g : string -> Z) :
  Reference.total
    (map (fun ev => g (_source (args ev)))
         (filter (fun ev =>
                    negb (existsb
                            (fun removed =>
                               String.eqb (_source (args removed)) (_source (args ev)))
                            (FundingSourceRemoved f)))
                 (FundingSourceAdded f)))
  = Reference.total (map g (Reference.activeSources f)).
Proof.
  unfold Reference.activeSources. cbv zeta.
  induction (FundingSourceAdded f) as [|ev l IH]; [reflexivity|]. simpl.
  assert (E : existsb (fun removed => String.eqb (_source (args removed))
                                                 (_source (args ev)))
                      (FundingSourceRemoved f)
              = existsb (String.eqb (_source (args ev)))
                        (map (fun ev => _source (args ev)) (FundingSourceRemoved f))).
  { clear IH. induction (FundingSourceRemoved f) as [|r rs IHr]; [reflexivity|].
    simpl. rewrite IHr, (String.eqb_sym (_source (args r))). reflexivity. }
  rewrite E. clear E.
  destruct (existsb (String.eqb (_source (args ev)))
                    (map (fun ev => _source (args ev)) (FundingSourceRemoved f)));
    simpl; [exact IH|].
  unfold Reference.total in IH |- *. simpl. rewrite <- IH. reflexivity.
Qed.

(** C4 (as amended). The total of [getApprovedFunding] is the sum of
    min(allowance(source, pool), balance(source)) with one term for each
    added event whose source has no removed event for the same address; the
    sources summed over are exactly the addresses that have an added event
    and no removed event (so a source that was added and then removed
    contributes nothing), each of them once when no address is added twice
    and as many times as it was added otherwise; and the total exceeds
    neither the sum of the balances nor the sum of the allowances taken over
    those same events. *)
Theorem getApprovedFunding_total (w : World) (token : ERC20Contract) :
  getApprovedFunding w token
  = Reference.total
      (map (fun s => Z.min (allowance token s (address (factory w))) (balanceOf token s))
           (Reference.activeSources (factory w)))
  /\
  (forall s,
     In s (Reference.activeSources (factory w)) <->
     (exists ev, In ev (FundingSourceAdded (factory w)) /\ _source (args ev) = s) /\
     ~ (exists ev, In ev (FundingSourceRemoved (factory w)) /\ _source (args ev) = s))
  /\
  (NoDup (map (fun ev => _source (args ev)) (FundingSourceAdded (factory w))) ->
   NoDup (Reference.activeSources (factory w)))
  /\
  getApprovedFunding w token
  <= Reference.total (map (balanceOf token) (Reference.activeSources (factory w)))
  /\
  getApprovedFunding w token
  <= Reference.total
       (map (fun s => allowance token s (address (factory w)))
            (Reference.activeSources (factory w))).
Proof.
  split; [apply getApprovedFunding_sum|].
  split; [apply activeSources_In|].
  split; [apply activeSources_NoDup|].
  rewrite getApprovedFunding_sum.
  split; apply total_le; intros s; lia.
Qed.

(** Source [0xA] added then removed, source [0xB] added only: the total is
    min(allowance(B), balance(B)) = min(40, 70), and no source is counted
    twice. *)
Lemma getApprovedFunding_total_witness :
  getApprovedFunding Scenario.world Scenario.token = 40 /\
  NoDup (Reference.activeSources (factory Scenario.world)).
Proof.
  destruct (getApprovedFunding_total Scenario.world Scenario.token)
    as (Hsum & _ & Hnodup & _).
  split; [exact Hsum|]. apply Hnodup. cbn.
  constructor; [intros [H|[]]; discriminate H|].
  constructor; [intros []|constructor].
Defined.

Lemma getApprovedFunding_scenario :
  Reference.activeSources Scenario.factory = [ "0xB"%string ] /\
  getApprovedFunding Scenario.world Scenario.token = 40.
Proof.
  split; reflexivity.
Qed.

(** C4 as stated fails: with source [0xB] added twice and never removed
    (allowance 40, balance 70), [0xB] is the only source that has an added
    event and no removed event, the sum of min(allowance, balance) over the
    active sources is 40, and the total is 80: above that sum, above the
    balance of the active sources and above their allowance. *)
Lemma getApprovedFunding_source_added_twice :
  (forall s,
     (exists ev, In ev (FundingSourceAdded (factory Scenario.addedTwice))
                 /\ _source (args ev) = s)
     /\ ~ (exists ev, In ev (FundingSourceRemoved (factory Scenario.addedTwice))
                      /\ _source (args ev) = s)
     <-> s = "0xB"%string) /\
  allowance Scenario.token "0xB" (address (factory Scenario.addedTwice)) = 40 /\
  balanceOf Scenario.token "0xB" = 70 /\
  getApprovedFunding Scenario.addedTwice Scenario.token = 80 /\
  getApprovedFunding Scenario.addedTwice Scenario.token
  <> Z.min (allowance Scenario.token "0xB" (address (factory Scenario.addedTwice)))
           (balanceOf Scenario.token "0xB") /\
  getApprovedFunding Scenario.addedTwice Scenario.token
  > balanceOf Scenario.token "0xB" /\
  getApprovedFunding Scenario.addedTwice Scenario.token
  > allowance Scenario.token "0xB" (address (factory Scenario.addedTwice)).
Proof.
  split.
  - intros s. split.
    + intros [(ev & [<-|[<-|[]]] & <-) _]; reflexivity.
    + intros ->. split.
      * eexists. split; [left; reflexivity|reflexivity].
      * intros (ev & [] & _).
  - repeat split; try reflexivity. discriminate.
Qed.


(** ** Further properties of the funding-round module *)

(** *** Round numbers *)

(** X1. A round number belongs to one address up to letter case: once
    [getRoundNumber] returns [n] for an address, it returns [n] for another
    address exactly when the two lower-case to the same string. *)
Theorem getRoundNumber_same_round (w : World) (a b : string) (n : Z) :
  getRoundNumber w a = Ok n ->
  (getRoundNumber w b = Ok n <-> Reference.sameAddress a b = true).
Proof.
  intros Ha. split.
  - intros Hb. unfold getRoundNumber in Ha, Hb.
    set (pa := fun event : Event RoundStartedArgs =>
                 String.eqb (toLowerCase (_round (args event))) (toLowerCase a)) in Ha.
    set (pb := fun event : Event RoundStartedArgs =>
                 String.eqb (toLowerCase (_round (args event))) (toLowerCase b)) in Hb.
    destruct (findIndex pa _ =? -1) eqn:Ea; [discriminate|].
    destruct (findIndex pb _ =? -1) eqn:Eb; [discriminate|].
    apply Z.eqb_neq in Ea, Eb.
    destruct (findIndex_some pa _ Ea) as (i & x & Hi & Hx & Hpx & _).
    destruct (findIndex_some pb _ Eb) as (j & y & Hj & Hy & Hpy & _).
    injection Ha as Ha. injection Hb as Hb.
    assert (i = j) as -> by lia.
    rewrite Hx in Hy. injection Hy as <-.
    unfold pa in Hpx. unfold pb in Hpy.
    apply String.eqb_eq in Hpx, Hpy.
    unfold Reference.sameAddress. apply String.eqb_eq. congruence.
  - intros Hab. unfold Reference.sameAddress in Hab. apply String.eqb_eq in Hab.
    unfold getRoundNumber in *. rewrite <- Hab. exact Ha.
Qed.

Lemma getRoundNumber_same_round_witness :
  getRoundNumber Scenario.world "0XDEF2" = Ok 2 /\
  ~ getRoundNumber Scenario.world "0xabc1" = Ok 2.
Proof.
  pose proof (getRoundNumber_same_round Scenario.world "0xdef2" "0XDEF2" 2 eq_refl) as H1.
  pose proof (getRoundNumber_same_round Scenario.world "0xdef2" "0xabc1" 2 eq_refl) as H2.
  split.
  - apply H1. reflexivity.
  - intros H. apply H2 in H. discriminate H.
Defined.

(** X2. A round number returned by [getRoundNumber] is at least the number
    of extra rounds and less than that number plus the number of
    RoundStarted events; and the address may be given in any letter case:
    lower-casing it first changes nothing. *)
Theorem getRoundNumber_bounds (w : World) (a : string) :
  getRoundNumber w (toLowerCase a) = getRoundNumber w a /\
  forall n, getRoundNumber w a = Ok n ->
    Z.of_nat (List.length (extraRounds w)) <= n
    < Z.of_nat (List.length (RoundStarted (factory w)))
      + Z.of_nat (List.length (extraRounds w)).
Proof.
  split.
  - unfold getRoundNumber. now rewrite toLowerCase_idempotent.
  - intros n. unfold getRoundNumber.
    set (p := fun event : Event RoundStartedArgs =>
                String.eqb (toLowerCase (_round (args event))) (toLowerCase a)).
    pose proof (findIndex_lower p (RoundStarted (factory w))) as Hlo.
    pose proof (findIndex_upper p (RoundStarted (factory w))) as Hhi.
    destruct (findIndex p _ =? -1) eqn:E; [discriminate|].
    apply Z.eqb_neq in E. intros [= <-]. lia.
Qed.

(** *** What getRoundInfo returns besides the status *)

Section RoundRecord.

Variables (w : World) (now : DateTime) (a : string) (info : RoundInfo).
Hypothesis Hrun : getRoundInfo w now a = Ok info.

Let fundingRound := fundingRoundAt w a.
Let maciContract := maciAt w (maci fundingRound).
Let token := erc20At w (nativeToken fundingRound).

(** The fields of a returned record that do not depend on the flags. *)
Lemma getRoundInfo_fields :
  fundingRoundAddress info = a /\
  startBlock info = roundStartBlock fundingRound /\
  endBlock info = Reference.estimatedEndBlock w a /\
  signUpDeadline info = fromSeconds (zoneOffset w) (Reference.signUpEnd w a) /\
  votingDeadline info = fromSeconds (zoneOffset w) (Reference.votingEnd w a) /\
  nativeTokenDecimals info = decimals token /\
  contributors info = count (getTotalContributed w a).
Proof.
  destruct (getRoundInfo_Ok w now a info Hrun) as (n & _ & _ & _ & ->).
  cbn. repeat split; reflexivity.
Qed.

(** The three amounts of a returned record, by the flags of the round. *)
Lemma getRoundInfo_amounts :
  fixedDecimals (totalFunds info) = decimals token /\
  fixedDecimals (matchingPool info) = decimals token /\
  fixedDecimals (contributions info) = decimals token /\
  fixedValue (totalFunds info)
  = fixedValue (matchingPool info) + fixedValue (contributions info) /\
  fixedValue (contributions info)
  = (if isCancelled fundingRound then 0
     else if isFinalized fundingRound
          then totalSpent fundingRound * roundVoiceCreditFactor fundingRound
          else amount (getTotalContributed w a)) /\
  fixedValue (matchingPool info)
  = (if isCancelled fundingRound then 0
     else if isFinalized fundingRound then matchingPoolSize fundingRound
          else balanceOf token (address (factory w)) + getApprovedFunding w token).
Proof.
  destruct (getRoundInfo_Ok w now a info Hrun) as (n & _ & _ & _ & ->).
  cbn. repeat split; reflexivity.
Qed.

(** The status of a returned record. *)
Lemma getRoundInfo_status :
  status info =
    (if isCancelled fundingRound then Cancelled
     else if isFinalized fundingRound then Finalized
     else if lessThan now (fromSeconds (zoneOffset w) (Reference.signUpEnd w a))
          then Contributing
     else if lessThan now (fromSeconds (zoneOffset w) (Reference.votingEnd w a))
          then Reallocating
     else Tallying).
Proof.
  destruct (getRoundInfo_Ok w now a info Hrun) as (n & _ & _ & _ & ->).
  reflexivity.
Qed.

End RoundRecord.

Lemma FixedNumber_eq (x y : FixedNumber) :
  fixedValue x = fixedValue y -> fixedDecimals x = fixedDecimals y -> x = y.
Proof.
  destruct x, y. cbn. now intros -> ->.
Qed.

Lemma total_nonneg (f : string -> Z) (l : list string) :
  (forall s, 0 <= f s) -> 0 <= Reference.total (map f l).
Proof.
  intros H. unfold Reference.total.
  induction l as [|s l IH]; simpl; [lia|]. specialize (H s). lia.
Qed.

(** *** The clock *)

(** X3. Time only moves the status forward.  For one ledger and one round,
    a later reading of the clock gives a status that is the same or later in
    the order Contributing, Reallocating, Tallying (a finalized or cancelled
    round keeps its status), and nothing else in the record changes: the
    round number, the two deadlines and the three amounts are the same. *)
Theorem getRoundInfo_status_monotone (w : World) (now now' : Z) (a : string)
  (info info' : RoundInfo) :
  getRoundInfo w (local now) a = Ok info ->
  getRoundInfo w (local now') a = Ok info' ->
  now <= now' ->
  Reference.statusRank (status info) <= Reference.statusRank (status info') /\
  roundNumber info' = roundNumber info /\
  signUpDeadline info' = signUpDeadline info /\
  votingDeadline info' = votingDeadline info /\
  totalFunds info' = totalFunds info /\
  matchingPool info' = matchingPool info /\
  contributions info' = contributions info.
Proof.
  intros H H' Hle.
  pose proof (getRoundInfo_status w (local now) a info H) as Hst.
  pose proof (getRoundInfo_status w (local now') a info' H') as Hst'.
  destruct (getRoundInfo_Ok _ _ _ _ H) as (n & Hn & _ & _ & Hi).
  destruct (getRoundInfo_Ok _ _ _ _ H') as (n' & Hn' & _ & _ & Hi').
  assert (n' = n) as -> by congruence.
  split.
  - rewrite Hst, Hst'.
    destruct (isCancelled (fundingRoundAt w a)); [lia|].
    destruct (isFinalized (fundingRoundAt w a)); [lia|].
    destruct (fromSeconds (zoneOffset w) (Reference.signUpEnd w a)) as [s1|];
      destruct (fromSeconds (zoneOffset w) (Reference.votingEnd w a)) as [s2|];
      cbn;
      repeat match goal with
             | |- context [?x <? ?y] =>
                 let E := fresh "E" in
                 destruct (x <? y) eqn:E;
                 [apply Z.ltb_lt in E|apply Z.ltb_ge in E]
             end; cbn; lia.
  - subst info info'. cbn. repeat split; reflexivity.
Qed.

Lemma getRoundInfo_status_monotone_witness :
  exists info info',
    getRoundInfo Scenario.world (local ((Scenario.T + 120) * 1000)) "0xabc1" = Ok info /\
    getRoundInfo Scenario.world (local ((Scenario.T + 200) * 1000)) "0xabc1" = Ok info' /\
    Reference.statusRank (status info) <= Reference.statusRank (status info') /\
    totalFunds info' = totalFunds info.
Proof.
  do 2 eexists. split; [vm_compute; reflexivity|]. split; [vm_compute; reflexivity|].
  destruct (getRoundInfo_status_monotone Scenario.world
              ((Scenario.T + 120) * 1000) ((Scenario.T + 200) * 1000) "0xabc1"
              _ _ eq_refl eq_refl)
    as (Hrank & _ & _ & _ & Htotal & _).
  - vm_compute. discriminate.
  - split; [exact Hrank|exact Htotal].
Defined.

(** *** The amounts *)

(** X4. In every record [getRoundInfo] returns, totalFunds is the sum of
    matchingPool and contributions, and the three amounts carry the decimals
    of the native token.  For a cancelled round the three amounts are zero
    whatever the ledger holds; for a finalized round contributions is
    totalSpent times the voice credit factor and matchingPool is the recorded
    pool size, whatever the live balances, allowances and contributions
    are. *)
Theorem getRoundInfo_totals (w : World) (now : DateTime) (a : string) (info : RoundInfo) :
  getRoundInfo w now a = Ok info ->
  fixedValue (totalFunds info)
  = fixedValue (matchingPool info) + fixedValue (contributions info) /\
  fixedDecimals (totalFunds info) = nativeTokenDecimals info /\
  fixedDecimals (matchingPool info) = nativeTokenDecimals info /\
  fixedDecimals (contributions info) = nativeTokenDecimals info /\
  (isCancelled (fundingRoundAt w a) = true ->
   fixedValue (totalFunds info) = 0 /\
   fixedValue (matchingPool info) = 0 /\
   fixedValue (contributions info) = 0) /\
  (isCancelled (fundingRoundAt w a) = false ->
   isFinalized (fundingRoundAt w a) = true ->
   fixedValue (contributions info)
   = totalSpent (fundingRoundAt w a) * roundVoiceCreditFactor (fundingRoundAt w a) /\
   fixedValue (matchingPool info) = matchingPoolSize (fundingRoundAt w a)).
Proof.
  intros H.
  pose proof (getRoundInfo_amounts w now a info H) as (A1 & A2 & A3 & A4 & A5 & A6).
  pose proof (getRoundInfo_fields w now a info H) as (_ & _ & _ & _ & _ & Hdec & _).
  split; [exact A4|]. repeat split; try congruence.
  - rewrite A4, A5, A6, H0. reflexivity.
  - rewrite A6, H0. reflexivity.
  - rewrite A5, H0. reflexivity.
  - rewrite A5, H0, H1. reflexivity.
  - rewrite A6, H0, H1. reflexivity.
Qed.

Lemma getRoundInfo_totals_witness :
  exists info,
    getRoundInfo (Scenario.flagged true true) (local 0) "0xabc1" = Ok info /\
    fixedValue (totalFunds info) = 0.
Proof.
  eexists. split; [vm_compute; reflexivity|].
  destruct (getRoundInfo_totals (Scenario.flagged true true) (local 0) "0xabc1" _ eq_refl)
    as (_ & _ & _ & _ & Hcancelled & _).
  apply Hcancelled. reflexivity.
Defined.

(** X5. For a round that is neither cancelled nor finalized, matchingPool is
    the token balance of the factory plus the approved funding.  When the
    token's balances and allowances are not negative, it is at least the
    balance of the factory and at most that balance plus the sum of the
    balances of the sources of the added events that have no removed event,
    one term for each such added event: a source is counted once when no
    address is added twice, and as many times as it was added otherwise. *)
Theorem getRoundInfo_live_matching_pool (w : World) (now : DateTime) (a : string)
  (info : RoundInfo) :
  getRoundInfo w now a = Ok info ->
  isCancelled (fundingRoundAt w a) = false ->
  isFinalized (fundingRoundAt w a) = false ->
  (forall owner, 0 <= balanceOf (erc20At w (nativeToken (fundingRoundAt w a))) owner) ->
  (forall owner spender,
     0 <= allowance (erc20At w (nativeToken (fundingRoundAt w a))) owner spender) ->
  fixedValue (matchingPool info)
  = balanceOf (erc20At w (nativeToken (fundingRoundAt w a))) (address (factory w))
    + getApprovedFunding w (erc20At w (nativeToken (fundingRoundAt w a))) /\
  balanceOf (erc20At w (nativeToken (fundingRoundAt w a))) (address (factory w))
  <= fixedValue (matchingPool info)
  <= balanceOf (erc20At w (nativeToken (fundingRoundAt w a))) (address (factory w))
     + Reference.total
         (map (fun ev =>
                 balanceOf (erc20At w (nativeToken (fundingRoundAt w a)))
                           (_source (args ev)))
              (filter (fun ev =>
                         negb (existsb
                                 (fun removed =>
                                    String.eqb (_source (args removed))
                                               (_source (args ev)))
                                 (FundingSourceRemoved (factory w))))
                      (FundingSourceAdded (factory w)))) /\
  (NoDup (map (fun ev => _source (args ev)) (FundingSourceAdded (factory w))) ->
   NoDup (Reference.activeSources (factory w)) /\
   fixedValue (matchingPool info)
   <= balanceOf (erc20At w (nativeToken (fundingRoundAt w a))) (address (factory w))
      + Reference.total
          (map (balanceOf (erc20At w (nativeToken (fundingRoundAt w a))))
               (Reference.activeSources (factory w)))).
Proof.
  intros H Hc Hf Hbal Hall.
  pose proof (getRoundInfo_amounts w now a info H) as (_ & _ & _ & _ & _ & A6).
  rewrite Hc, Hf in A6. split; [exact A6|]. rewrite A6.
  set (token := erc20At w (nativeToken (fundingRoundAt w a))) in *.
  rewrite (getApprovedFunding_sum w token).
  assert (Hlow : 0 <= Reference.total
                        (map (fun s => Z.min (allowance token s (address (factory w)))
                                             (balanceOf token s))
                             (Reference.activeSources (factory w)))).
  { apply total_nonneg. intros s.
    specialize (Hbal s). specialize (Hall s (address (factory w))). lia. }
  assert (Hhigh : Reference.total
                    (map (fun s => Z.min (allowance token s (address (factory w)))
                                         (balanceOf token s))
                         (Reference.activeSources (factory w)))
                  <= Reference.total
                       (map (balanceOf token) (Reference.activeSources (factory w)))).
  { apply total_le. intros s. lia. }
  pose proof (activeSources_events (factory w) (balanceOf token)) as Hev.
  unfold BigNumber in *. rewrite Hev.
  split; [lia|]. intros Hnodup. split; [now apply activeSources_NoDup|lia].
Qed.

Lemma getRoundInfo_live_matching_pool_witness :
  exists info,
    getRoundInfo Scenario.world (local 0) "0xabc1" = Ok info /\
    fixedValue (matchingPool info) = 1040.
Proof.
  eexists. split; [vm_compute; reflexivity|].
  destruct (getRoundInfo_live_matching_pool Scenario.world (local 0) "0xabc1" _
              eq_refl eq_refl eq_refl) as (Hpool & _).
  - intros owner. cbn.
    repeat match goal with |- context [String.eqb ?x ?y] => destruct (String.eqb x y) end;
      lia.
  - intros owner spender. cbn.
    repeat match goal with |- context [String.eqb ?x ?y] => destruct (String.eqb x y) end;
      lia.
  - exact (eq_trans Hpool eq_refl).
Defined.

(** *** Removed funding sources *)

Lemma activeSources_withoutAdded (s : string) (w : World) :
  (exists ev, In ev (FundingSourceRemoved (factory w)) /\ _source (args ev) = s) ->
  Reference.activeSources (factory (Reference.withoutAdded s w))
  = Reference.activeSources (factory w).
Proof.
  intros (removed & Hin & Hs).
  unfold Reference.activeSources, Reference.withoutAdded. cbn.
  set (gone := map (fun ev => _source (args ev)) (FundingSourceRemoved (factory w))).
  assert (Hgone : existsb (String.eqb s) gone = true).
  { apply existsb_exists. exists s. split; [|apply String.eqb_refl].
    subst gone. apply in_map_iff. eauto. }
  induction (FundingSourceAdded (factory w)) as [|ev l IH]; simpl; [reflexivity|].
  destruct (String.eqb (_source (args ev)) s) eqn:E; simpl.
  - apply String.eqb_eq in E. rewrite E, Hgone. simpl. exact IH.
  - rewrite IH. reflexivity.
Qed.

(** X6. A funding source that has a removed event contributes nothing,
    wherever that event stands among the added events: leaving out all the
    added events of such a source -- those before the removal and those
    after it, a source added again included -- does not change the approved
    funding. *)
Theorem getApprovedFunding_removed_source (w : World) (token : ERC20Contract)
  (s : string) :
  (exists ev, In ev (FundingSourceRemoved (factory w)) /\ _source (args ev) = s) ->
  getApprovedFunding (Reference.withoutAdded s w) token = getApprovedFunding w token.
Proof.
  intros H. rewrite !getApprovedFunding_sum.
  rewrite (activeSources_withoutAdded s w H). reflexivity.
Qed.

(** Source [0xA] added at block 3, removed at block 7 and added again at
    block 9: only [0xB] counts. *)
Lemma getApprovedFunding_removed_source_witness :
  getApprovedFunding Scenario.readded Scenario.token = 40.
Proof.
  rewrite <- (getApprovedFunding_removed_source Scenario.readded Scenario.token "0xA").
  - reflexivity.
  - eexists. split; [left; reflexivity|reflexivity].
Defined.

(** *** The deadlines and the estimated end block *)

(** X7. In a returned record whose two deadlines are valid dates, the
    voting deadline is the sign-up deadline plus 1000 milliseconds per second
    of voting; a deadline whose milliseconds are beyond the largest time
    value of a [Date] is not a valid date; and when the two durations are
    not negative, the end block is not before the start block and counts one
    block for every full 15 seconds of the two durations together. *)
Theorem getRoundInfo_end_block (w : World) (now : DateTime) (a : string)
  (info : RoundInfo) :
  getRoundInfo w now a = Ok info ->
  (forall s v,
     signUpDeadline info = Valid s ->
     votingDeadline info = Valid v ->
     v - s = 1000 * votingDurationSeconds (maciAt w (maci (fundingRoundAt w a)))) /\
  (MAX_DATE < Z.abs (Reference.signUpEnd w a * 1000) -> signUpDeadline info = Invalid) /\
  (MAX_DATE < Z.abs (Reference.votingEnd w a * 1000) -> votingDeadline info = Invalid) /\
  (0 <= signUpDurationSeconds (maciAt w (maci (fundingRoundAt w a))) ->
   0 <= votingDurationSeconds (maciAt w (maci (fundingRoundAt w a))) ->
   startBlock info <= endBlock info /\
   15 * (endBlock info - startBlock info)
   <= signUpDurationSeconds (maciAt w (maci (fundingRoundAt w a)))
      + votingDurationSeconds (maciAt w (maci (fundingRoundAt w a)))
   < 15 * (endBlock info - startBlock info) + 15).
Proof.
  intros H.
  pose proof (getRoundInfo_fields w now a info H) as (_ & Hs & He & Hd1 & Hd2 & _).
  split; [|split; [|split]].
  - intros s v Hsv Hvv. rewrite Hd1 in Hsv. rewrite Hd2 in Hvv.
    apply fromSeconds_Valid in Hsv, Hvv. subst s v.
    unfold Reference.votingEnd, Reference.signUpEnd. cbv zeta. lia.
  - intros Hout. rewrite Hd1. now apply fromSeconds_out_of_range.
  - intros Hout. rewrite Hd2. now apply fromSeconds_out_of_range.
  - intros H1 H2. rewrite Hs, He. unfold Reference.estimatedEndBlock. cbv zeta.
    set (d := signUpDurationSeconds _ + votingDurationSeconds _).
    assert (Hd : 0 <= d) by (subst d; lia).
    rewrite (Z.quot_div_nonneg d 15 Hd) by lia.
    pose proof (Z.div_mod d 15) as Hdm. pose proof (Z.mod_pos_bound d 15) as Hm.
    lia.
Qed.

(** The round of the scenario: 150 seconds are 10 blocks, and the two
    deadlines are 50 seconds apart; a round that signs up in the year
    287000 has no valid deadline. *)
Lemma getRoundInfo_end_block_witness :
  (exists info,
     getRoundInfo Scenario.world (local 0) "0xabc1" = Ok info /\
     startBlock info = 12 /\ endBlock info = 22 /\
     signUpDeadline info = Valid ((Scenario.T + 100) * 1000) /\
     votingDeadline info = Valid ((Scenario.T + 100) * 1000 + 50000)) /\
  (exists info,
     getRoundInfo Scenario.farFuture (local 0) "0xabc1" = Ok info /\
     signUpDeadline info = Invalid).
Proof.
  split.
  - eexists. split; [vm_compute; reflexivity|].
    destruct (getRoundInfo_end_block Scenario.world (local 0) "0xabc1" _ eq_refl)
      as (Hdeadlines & _ & _ & Hblocks).
    destruct Hblocks as (Hle & Hlo & Hhi); [cbn; lia|cbn; lia|].
    pose proof (Hdeadlines _ _ eq_refl eq_refl) as Hgap.
    repeat split; reflexivity.
  - eexists. split; [vm_compute; reflexivity|].
    destruct (getRoundInfo_end_block Scenario.farFuture (local 0) "0xabc1" _ eq_refl)
      as (_ & Hinvalid & _).
    apply Hinvalid. vm_compute. reflexivity.
Defined.

(** *** The failures of getRoundInfo *)

(** X8. [getRoundInfo] returns a record only when the four values it
    converts -- the seconds of the two deadlines, the start block, the
    estimated end block -- fit a JavaScript number and the objects of the
    record can be built: no record carries a truncated number or amount.
    When the round is found and one of the four values does not fit, the
    call fails with the numeric fault, unless the failed assertion of the
    [PubKey] constructor comes first.  When the round is found, the
    conversions fit, the key is accepted and the token has between 0 and 256
    decimals, but one of the three amounts cannot be written with 18
    decimals, the call fails with the numeric fault.  It has no other way to
    fail than the missing round, the numeric fault, the failed assertion and
    the invalid number of decimals. *)
Theorem getRoundInfo_overflow (w : World) (now : DateTime) (a : string) :
  (forall info,
     getRoundInfo w now a = Ok info ->
     Reference.conversionsInRange w a = true /\ Reference.recordBuilds w a = true)
  /\
  (forall n,
     getRoundNumber w a = Ok n ->
     Reference.conversionsInRange w a = false ->
     getRoundInfo w now a = Err NumericFault
     \/ getRoundInfo w now a = Err AssertionError)
  /\
  (forall n,
     getRoundNumber w a = Ok n ->
     Reference.conversionsInRange w a = true ->
     acceptsPubKey w (fst (coordinatorPubKeyRaw (maciAt w (maci (fundingRoundAt w a)))))
                     (snd (coordinatorPubKeyRaw (maciAt w (maci (fundingRoundAt w a)))))
     = true ->
     0 <= decimals (erc20At w (nativeToken (fundingRoundAt w a))) <= 256 ->
     Reference.recordBuilds w a = false ->
     getRoundInfo w now a = Err NumericFault)
  /\
  (forall e,
     getRoundInfo w now a = Err e ->
     e = Error "round does not exist" \/ e = NumericFault \/ e = AssertionError
     \/ e = InvalidArgument).
Proof.
  split; [|split; [|split]].
  - intros info H. apply getRoundInfo_Ok in H. destruct H as (n & _ & Hr & Hb & _). auto.
  - intros n Hn Hr.
    destruct (getRoundInfo w now a) as [info|e] eqn:H.
    + apply getRoundInfo_Ok in H. destruct H as (n' & _ & Hr' & _). congruence.
    + pose proof H as H'. rewrite getRoundInfo_steps, Hn in H'. cbn [bind] in H'.
      destruct (toNumber (Reference.signUpEnd w a)) as [s1|e1] eqn:E1;
        [|apply toNumber_Err in E1; cbn in H'; left; congruence].
      cbn [bind] in H'.
      destruct (toNumber (Reference.votingEnd w a)) as [s2|e2] eqn:E2;
        [|apply toNumber_Err in E2; cbn in H'; left; congruence].
      cbn [bind] in H'. unfold newPubKey in H'.
      destruct (acceptsPubKey w _ _); [|cbn in H'; right; congruence].
      cbn [bind] in H'.
      destruct (toNumber (roundStartBlock _)) as [sb|e3] eqn:E3;
        [|apply toNumber_Err in E3; cbn in H'; left; congruence].
      cbn [bind] in H'.
      destruct (toNumber (Reference.estimatedEndBlock w a)) as [eb|e4] eqn:E4;
        [|apply toNumber_Err in E4; cbn in H'; left; congruence].
      apply toNumber_Ok in E1, E2, E3, E4.
      assert (Reference.conversionsInRange w a = true)
        by (apply conversionsInRange_true; tauto).
      congruence.
  - intros n Hn Hr Hkey Hd Hb.
    apply conversionsInRange_true in Hr. destruct Hr as (H1 & H2 & H3 & H4).
    rewrite getRoundInfo_steps, Hn. cbn [bind].
    rewrite (toNumber_safe _ H1). cbn [bind].
    rewrite (toNumber_safe _ H2). cbn [bind].
    unfold newPubKey. rewrite Hkey. cbn [bind].
    rewrite (toNumber_safe _ H3). cbn [bind].
    rewrite (toNumber_safe _ H4). cbn [bind].
    assert (Hfault : forall value e,
              fromValue value (decimals (erc20At w (nativeToken (fundingRoundAt w a))))
              = Err e -> e = NumericFault).
    { intros value e. unfold fromValue.
      destruct (decimals _ <? 0) eqn:D1; [apply Z.ltb_lt in D1; lia|].
      destruct (256 <? decimals _) eqn:D2; [apply Z.ltb_lt in D2; lia|].
      cbn [orb]. destruct (_ && _); congruence. }
    unfold Reference.recordBuilds in Hb. cbv zeta in Hb. rewrite Hkey in Hb.
    unfold Reference.representable in Hb.
    destruct (fromValue (_ + _) _) as [tf|e5] eqn:B1;
      [|apply Hfault in B1; subst; reflexivity].
    cbn [bind].
    destruct (fromValue (Reference.matchingPoolOf w a) _) as [mp|e6] eqn:B2;
      [|apply Hfault in B2; subst; reflexivity].
    cbn [bind].
    destruct (fromValue (Reference.contributionsOf w a) _) as [cs|e7] eqn:B3;
      [|apply Hfault in B3; subst; reflexivity].
    discriminate.
  - intros e H. apply getRoundInfo_Err in H. destruct H as [H|H]; [|tauto].
    left. now apply (getRoundNumber_Err w a).
Qed.

(** A start block of 2^53, and a token of 24 decimals. *)
Lemma getRoundInfo_overflow_witness :
  (getRoundInfo Scenario.overflowing (local 0) "0xabc1" = Err NumericFault
   \/ getRoundInfo Scenario.overflowing (local 0) "0xabc1" = Err AssertionError) /\
  getRoundInfo Scenario.manyDecimals (local 0) "0xabc1" = Err NumericFault.
Proof.
  split.
  - exact (proj1 (proj2 (getRoundInfo_overflow Scenario.overflowing (local 0) "0xabc1"))
             1 eq_refl eq_refl).
  - refine (proj1 (proj2 (proj2
              (getRoundInfo_overflow Scenario.manyDecimals (local 0) "0xabc1")))
              1 eq_refl eq_refl eq_refl _ eq_refl).
    cbn. lia.
Defined.

End RoundFacts.

(** ** Properties of the recipient-registry module *)

Module RecipientsFacts.

Import Js JsFacts Recipients.
Local Open Scope Z_scope.

(** *** The console and the decoder *)

Lemma silenced_ignores (complaints : list string) (console : Console) :
  fold_left callConsoleError complaints (setConsoleError console Silenced)
  = setConsoleError console Silenced.
Proof.
  induction complaints as [|m l IH]; simpl; [reflexivity|exact IH].
Qed.

Lemma restore_console (console : Console) :
  setConsoleError (setConsoleError console Silenced) (consoleError console) = console.
Proof.
  destruct console. reflexivity.
Qed.

(** The decoder returns: the console is as before the call, whatever the
    decoder reported, and the fields are read off the returned values. *)
Lemma decodeTcrItemData_returns (w : World) (columns : list TcrColumn) (data : string)
  (console : Console) (values complaints : list string) :
  gtcrDecode w columns data = Decoded values complaints ->
  decodeTcrItemData w columns data console
  = (console,
     Ok {| Item.address := at_ values 1;
           Item.name := at_ values 0;
           Item.description := at_ values 3;
           Item.imageUrl := ipfsGatewayUrl w ++ interpolate (at_ values 2) |}).
Proof.
  intros H. unfold decodeTcrItemData. rewrite H.
  rewrite silenced_ignores, restore_console. reflexivity.
Qed.

(** The decoder throws: so does [decodeTcrItemData], and [console.error]
    stays disabled. *)
Lemma decodeTcrItemData_throws (w : World) (columns : list TcrColumn) (data : string)
  (console : Console) (e : exn) :
  gtcrDecode w columns data = DecodeThrows e ->
  decodeTcrItemData w columns data console = (setConsoleError console Silenced, Err e).
Proof.
  intros H. unfold decodeTcrItemData. rewrite H. reflexivity.
Qed.

(** *** One turn of each loop of getProjects *)

Lemma addRecipient_step (w : World) (columns : list TcrColumn)
  (removedEvents : list (Event Removed.Args)) (startBlock endBlock : option Z)
  (projects : list Project) (event : Event RecipientAddedArgs) (console : Console) :
  addRecipient w columns removedEvents startBlock endBlock projects event console
  = match gtcrDecode w columns (_metadata (args event)) with
    | DecodeThrows e => (setConsoleError console Silenced, Err e)
    | Decoded values _ =>
        match toNumber (_index (args event)) with
        | Err e => (console, Err e)
        | Ok index =>
            (console,
             Ok (projects
                 ++ [Reference.localProject w removedEvents startBlock endBlock
                       event values index]))
        end
    end.
Proof.
  unfold addRecipient, decodeRecipientAdded, bindIO.
  destruct (gtcrDecode w columns (_metadata (args event))) as [values complaints|e] eqn:Hd.
  - rewrite (decodeTcrItemData_returns _ _ _ _ _ _ Hd).
    unfold lift. destruct (toNumber (_index (args event))) as [index|e]; [|reflexivity].
    unfold ret. do 3 f_equal.
    unfold Reference.localProject, Reference.removalOf.
    fold (Reference.addedAfterEnd endBlock event).
    destruct (Reference.addedAfterEnd endBlock event); cbn [id hide];
      (destruct (find _ removedEvents) as [removed|]; [|reflexivity]);
      fold (Reference.removedBeforeStart startBlock removed);
      destruct (Reference.removedBeforeStart startBlock removed); reflexivity.
  - rewrite (decodeTcrItemData_throws _ _ _ _ _ Hd). reflexivity.
Qed.

Lemma addSubmitted_step (w : World) (tcr : TcrContract) (columns : list TcrColumn)
  (projects : list Project) (event : Event ItemSubmittedArgs) (console : Console) :
  addSubmitted w tcr columns projects event console
  = match find (fun item => String.eqb (id item) (_itemID (args event))) projects with
    | Some _ => (console, Ok projects)
    | None =>
        match toNumber (snd (getItemInfo tcr (_itemID (args event)))) with
        | Err e => (console, Err e)
        | Ok status =>
            if status =? statusValue Registered then
              match gtcrDecode w columns (fst (getItemInfo tcr (_itemID (args event)))) with
              | DecodeThrows e => (setConsoleError console Silenced, Err e)
              | Decoded values _ =>
                  (console,
                   Ok (projects
                       ++ [Reference.curatedProject w (_itemID (args event)) values]))
              end
            else (console, Ok projects)
        end
    end.
Proof.
  unfold addSubmitted.
  destruct (find _ projects); [reflexivity|].
  destruct (getItemInfo tcr (_itemID (args event))) as [data status]. cbn [fst snd].
  unfold bindIO, lift.
  destruct (toNumber status) as [s|e]; [|reflexivity].
  destruct (s =? statusValue Registered); cbn [negb]; [|reflexivity].
  destruct (gtcrDecode w columns data) as [values complaints|e] eqn:Hd.
  - rewrite (decodeTcrItemData_returns _ _ _ _ _ _ Hd). reflexivity.
  - rewrite (decodeTcrItemData_throws _ _ _ _ _ Hd). reflexivity.
Qed.

(** *** The two loops *)

Lemma forOf_cons {A B : Type} (body : A -> B -> IO A) (event : B) (rest : list B)
  (acc : A) (console : Console) :
  forOf body (event :: rest) acc console
  = match body acc event console with
    | (console', Ok acc') => forOf body rest acc' console'
    | (console', Err e) => (console', Err e)
    end.
Proof. reflexivity. Qed.

Section Loops.

Variables (w : World) (tcr : TcrContract) (columns : list TcrColumn).
Variable removedEvents : list (Event Removed.Args).
Variables startBlock endBlock : option Z.

Let pushedFor := Reference.pushedFor w columns removedEvents startBlock endBlock.

Lemma forOf_addRecipient_Ok (events : list (Event RecipientAddedArgs))
  (acc projects : list Project) (console console' : Console) :
  forOf (addRecipient w columns removedEvents startBlock endBlock) events acc console
  = (console', Ok projects) ->
  console' = console /\
  exists pushed, projects = acc ++ pushed /\ Forall2 pushedFor events pushed.
Proof.
  revert acc. induction events as [|event rest IH]; intros acc H.
  - cbn in H. injection H as <- <-. split; [reflexivity|].
    exists []. split; [now rewrite app_nil_r|constructor].
  - rewrite forOf_cons, addRecipient_step in H.
    destruct (gtcrDecode w columns (_metadata (args event)))
      as [values complaints|e] eqn:Hd; [|discriminate].
    destruct (toNumber (_index (args event))) as [index|e] eqn:Hi; [|discriminate].
    apply IH in H. destruct H as (-> & pushed & -> & Hall).
    split; [reflexivity|].
    eexists (_ :: pushed). split; [now rewrite <- app_assoc|].
    constructor; [|exact Hall].
    exists values, complaints, index. auto.
Qed.

Lemma forOf_addRecipient_returns (events : list (Event RecipientAddedArgs))
  (acc : list Project) (console : Console) :
  (forall event, In event events ->
     (exists values complaints,
        gtcrDecode w columns (_metadata (args event)) = Decoded values complaints)
     /\ Z.abs (_index (args event)) <= MAX_SAFE_INTEGER) ->
  exists projects,
    forOf (addRecipient w columns removedEvents startBlock endBlock) events acc console
    = (console, Ok projects).
Proof.
  revert acc. induction events as [|event rest IH]; intros acc H.
  - exists acc. reflexivity.
  - rewrite forOf_cons, addRecipient_step.
    destruct (H event (or_introl eq_refl)) as ((values & complaints & Hd) & Hi).
    rewrite Hd, (toNumber_safe _ Hi).
    apply IH. intros ev Hin. apply H. now right.
Qed.

Let pushedForItem := Reference.pushedForItem w tcr columns.

Lemma forOf_addSubmitted_Ok (events : list (Event ItemSubmittedArgs))
  (acc projects : list Project) (console console' : Console) :
  forOf (addSubmitted w tcr columns) events acc console = (console', Ok projects) ->
  console' = console /\
  exists pushed, projects = acc ++ pushed /\ Forall (pushedForItem events) pushed.
Proof.
  revert acc. induction events as [|event rest IH]; intros acc H.
  - cbn in H. injection H as <- <-. split; [reflexivity|].
    exists []. split; [now rewrite app_nil_r|constructor].
  - rewrite forOf_cons, addSubmitted_step in H.
    assert (Hweak : forall pushed, Forall (pushedForItem rest) pushed ->
                                   Forall (pushedForItem (event :: rest)) pushed).
    { intros pushed. apply Forall_impl. intros p (ev & v & l & Hin & Hrest).
      exists ev, v, l. split; [now right|exact Hrest]. }
    destruct (find _ acc) eqn:Hf.
    { apply IH in H. destruct H as (-> & pushed & -> & Hall). eauto. }
    destruct (toNumber (snd (getItemInfo tcr (_itemID (args event)))))
      as [status|e] eqn:Hs; [|discriminate].
    destruct (status =? statusValue Registered) eqn:Hreg.
    2:{ apply IH in H. destruct H as (-> & pushed & -> & Hall). eauto. }
    destruct (gtcrDecode w columns (fst (getItemInfo tcr (_itemID (args event)))))
      as [values complaints|e] eqn:Hd; [|discriminate].
    apply IH in H. destruct H as (-> & pushed & -> & Hall).
    split; [reflexivity|].
    eexists (_ :: pushed). split; [now rewrite <- app_assoc|].
    constructor; [|now apply Hweak].
    exists event, values, complaints. split; [now left|].
    apply Z.eqb_eq in Hreg. apply toNumber_Ok in Hs.
    destruct Hs as [-> _]. auto.
Qed.

Lemma find_id_None (projects : list Project) (itemId : string) :
  find (fun item => String.eqb (id item) itemId) projects = None ->
  ~ In itemId (map id projects).
Proof.
  intros Hf Hin. apply in_map_iff in Hin. destruct Hin as (p & Hp & Hin).
  apply (find_none _ _ Hf) in Hin. cbv beta in Hin.
  rewrite Hp, String.eqb_refl in Hin. discriminate.
Qed.

Lemma NoDup_snoc {A : Type} (l : list A) (x : A) :
  NoDup l -> ~ In x l -> NoDup (l ++ [x]).
Proof.
  induction 1 as [|y l Hy Hl IH]; simpl; intros Hx.
  - constructor; [intros []|constructor].
  - constructor.
    + rewrite in_app_iff. simpl. intuition congruence.
    + apply IH. tauto.
Qed.

(** The second loop never pushes an id that is already in the list. *)
Lemma forOf_addSubmitted_NoDup (events : list (Event ItemSubmittedArgs))
  (acc projects : list Project) (console console' : Console) :
  forOf (addSubmitted w tcr columns) events acc console = (console', Ok projects) ->
  NoDup (map id acc) -> NoDup (map id projects).
Proof.
  revert acc console. induction events as [|event rest IH]; intros acc console H Hnd.
  - cbn in H. injection H as <- <-. exact Hnd.
  - rewrite forOf_cons, addSubmitted_step in H.
    destruct (find _ acc) eqn:Hf; [now apply IH in H|].
    destruct (toNumber (snd (getItemInfo tcr (_itemID (args event)))))
      as [status|e]; [|discriminate].
    destruct (status =? statusValue Registered); [|now apply IH in H].
    destruct (gtcrDecode w columns (fst (getItemInfo tcr (_itemID (args event)))))
      as [values complaints|e]; [|discriminate].
    apply IH in H; [exact H|].
    rewrite map_app. cbn [map Reference.curatedProject id].
    apply NoDup_snoc; [exact Hnd|]. now apply find_id_None.
Qed.

Lemma forOf_addSubmitted_returns (events : list (Event ItemSubmittedArgs))
  (acc : list Project) (console : Console) :
  (forall event, In event events ->
     (exists values complaints,
        gtcrDecode w columns (fst (getItemInfo tcr (_itemID (args event))))
        = Decoded values complaints)
     /\ Z.abs (snd (getItemInfo tcr (_itemID (args event)))) <= MAX_SAFE_INTEGER) ->
  exists projects,
    forOf (addSubmitted w tcr columns) events acc console = (console, Ok projects).
Proof.
  revert acc. induction events as [|event rest IH]; intros acc H.
  - exists acc. reflexivity.
  - rewrite forOf_cons, addSubmitted_step.
    assert (Hrest : forall acc', exists projects,
               forOf (addSubmitted w tcr columns) rest acc' console
               = (console, Ok projects)).
    { intros acc'. apply IH. intros ev Hin. apply H. now right. }
    destruct (H event (or_introl eq_refl)) as ((values & complaints & Hd) & Hs).
    destruct (find _ acc); [apply Hrest|].
    rewrite (toNumber_safe _ Hs).
    destruct (_ =? statusValue Registered); [|apply Hrest].
    rewrite Hd. apply Hrest.
Qed.

End Loops.

(** *** getProjects as a whole *)

Lemma Forall2_nth_error {A B : Type} (R : A -> B -> Prop) (l : list A) (l' : list B)
  (i : nat) (x : A) :
  Forall2 R l l' -> nth_error l i = Some x ->
  exists y, nth_error l' i = Some y /\ R x y.
Proof.
  intros H. revert i. induction H as [|a b l l' Hab Hl IH]; intros [|i] Hi;
    simpl in *; try discriminate.
  - injection Hi as <-. eauto.
  - apply IH. exact Hi.
Qed.

Lemma pushedFor_ids (w : World) (columns : list TcrColumn)
  (removedEvents : list (Event Removed.Args)) (startBlock endBlock : option Z)
  (events : list (Event RecipientAddedArgs)) (pushed : list Project) :
  Forall2 (Reference.pushedFor w columns removedEvents startBlock endBlock) events pushed ->
  map id pushed = map (fun ev => _tcrItemId (args ev)) events.
Proof.
  induction 1 as [|ev p events pushed (v & l & i & _ & _ & ->) _ IH]; simpl.
  - reflexivity.
  - now rewrite IH.
Qed.

(** What a successful call of [getProjects] returns: the projects of the
    added events, in order, then those pushed for submitted items; the
    console is as before the call. *)
Lemma getProjects_Ok (w : World) (registryAddress : string)
  (startBlock endBlock : option Z) (console console' : Console)
  (projects : list Project) :
  getProjects w registryAddress startBlock endBlock console = (console', Ok projects) ->
  console' = console /\
  exists columns locals curated,
    getTcrColumns w (tcrAt w (tcr (registryAt w registryAddress))) = Ok columns /\
    projects = locals ++ curated /\
    Forall2 (Reference.pushedFor w columns
               (RecipientRemoved (registryAt w registryAddress)) startBlock endBlock)
            (RecipientAdded (registryAt w registryAddress)) locals /\
    Forall (Reference.pushedForItem w (tcrAt w (tcr (registryAt w registryAddress)))
              columns
              (ItemSubmitted (tcrAt w (tcr (registryAt w registryAddress)))))
           curated /\
    (NoDup (map id locals) -> NoDup (map id projects)).
Proof.
  unfold getProjects. cbv zeta. unfold bindIO at 1. unfold lift.
  destruct (getTcrColumns w (tcrAt w (tcr (registryAt w registryAddress))))
    as [columns|e]; [|discriminate].
  unfold bindIO.
  destruct (forOf (addRecipient w columns _ startBlock endBlock) _ [] console)
    as [console1 [locals|e]] eqn:H1; [|discriminate].
  intros H2.
  apply forOf_addRecipient_Ok in H1. destruct H1 as (-> & pushed & -> & Hlocals).
  pose proof (forOf_addSubmitted_NoDup _ _ _ _ _ _ _ _ H2) as Hnd.
  apply forOf_addSubmitted_Ok in H2. destruct H2 as (-> & curated & -> & Hcurated).
  split; [reflexivity|].
  exists columns, pushed, curated. cbn [app] in *. auto.
Qed.

(** The project at the position of an added event. *)
Lemma getProjects_local (w : World) (registryAddress : string)
  (startBlock endBlock : option Z) (console console' : Console)
  (projects : list Project) (i : nat) (event : Event RecipientAddedArgs) :
  getProjects w registryAddress startBlock endBlock console = (console', Ok projects) ->
  nth_error (RecipientAdded (registryAt w registryAddress)) i = Some event ->
  exists columns values complaints index,
    getTcrColumns w (tcrAt w (tcr (registryAt w registryAddress))) = Ok columns /\
    gtcrDecode w columns (_metadata (args event)) = Decoded values complaints /\
    toNumber (_index (args event)) = Ok index /\
    nth_error projects i
    = Some (Reference.localProject w (RecipientRemoved (registryAt w registryAddress))
              startBlock endBlock event values index).
Proof.
  intros H Hi. apply getProjects_Ok in H.
  destruct H as (_ & columns & locals & curated & Hc & -> & Hl & _).
  destruct (Forall2_nth_error _ _ _ _ _ Hl Hi) as (p & Hp & v & l & idx & Hd & Hn & ->).
  exists columns, v, l, idx. repeat split; auto.
  rewrite nth_error_app1; [exact Hp|].
  apply nth_error_Some. congruence.
Qed.

(** The call returns when the schema can be read, the decoder returns for
    every payload it is given and the numbers converted fit. *)
Lemma getProjects_returns (w : World) (registryAddress : string)
  (startBlock endBlock : option Z) (console : Console) (columns : list TcrColumn) :
  getTcrColumns w (tcrAt w (tcr (registryAt w registryAddress))) = Ok columns ->
  (forall event, In event (RecipientAdded (registryAt w registryAddress)) ->
     (exists values complaints,
        gtcrDecode w columns (_metadata (args event)) = Decoded values complaints)
     /\ Z.abs (_index (args event)) <= MAX_SAFE_INTEGER) ->
  (forall event,
     In event (ItemSubmitted (tcrAt w (tcr (registryAt w registryAddress)))) ->
     (exists values complaints,
        gtcrDecode w columns
          (fst (getItemInfo (tcrAt w (tcr (registryAt w registryAddress)))
                  (_itemID (args event))))
        = Decoded values complaints)
     /\ Z.abs (snd (getItemInfo (tcrAt w (tcr (registryAt w registryAddress)))
                      (_itemID (args event)))) <= MAX_SAFE_INTEGER) ->
  exists projects,
    getProjects w registryAddress startBlock endBlock console = (console, Ok projects).
Proof.
  intros Hc Hadded Hsubmitted.
  unfold getProjects. cbv zeta. unfold bindIO at 1. unfold lift. rewrite Hc.
  unfold bindIO.
  destruct (forOf_addRecipient_returns w columns
              (RecipientRemoved (registryAt w registryAddress)) startBlock endBlock
              _ [] console Hadded) as (locals & ->).
  apply forOf_addSubmitted_returns. exact Hsubmitted.
Qed.

(** *** Uniqueness of ids *)

(** C2 (as amended). Each project id appears at most once in the list
    returned by [getProjects], for every window, provided the recipient-added
    events carry pairwise distinct ids; submitted events for the same id, or
    for an id that was added locally, never add a second entry. *)
Theorem getProjects_ids_unique (w : World) (registryAddress : string)
  (startBlock endBlock : option Z) (console console' : Console)
  (projects : list Project) :
  getProjects w registryAddress startBlock endBlock console = (console', Ok projects) ->
  NoDup (map (fun ev => _tcrItemId (args ev))
             (RecipientAdded (registryAt w registryAddress))) ->
  NoDup (map id projects).
Proof.
  intros H Hnd. apply getProjects_Ok in H.
  destruct H as (_ & columns & locals & curated & _ & _ & Hl & _ & Hunique).
  apply Hunique. rewrite (pushedFor_ids _ _ _ _ _ _ _ Hl). exact Hnd.
Qed.

Lemma getProjects_ids_unique_witness :
  exists projects,
    getProjects RegistryScenario.curated "registry" (Some 10) (Some 200)
      RegistryScenario.console
    = (RegistryScenario.console, Ok projects) /\
    map id projects = [ "0x05"; "0x09" ]%string /\
    NoDup (map id projects).
Proof.
  eexists. split; [vm_compute; reflexivity|]. split; [reflexivity|].
  apply (getProjects_ids_unique RegistryScenario.curated "registry" (Some 10) (Some 200)
           RegistryScenario.console RegistryScenario.console).
  - vm_compute. reflexivity.
  - cbn. constructor; [intros []|constructor].
Defined.

(** C2 as stated fails: with two recipient-added events for the id [0x05]
    the returned list holds that id twice. *)
Lemma getProjects_duplicate_added :
  map (fun ev => _tcrItemId (args ev))
      (RecipientAdded (registryAt RegistryScenario.addedTwice "registry"))
  = [ "0x05"; "0x05" ]%string /\
  exists projects,
    getProjects RegistryScenario.addedTwice "registry" None None RegistryScenario.console
    = (RegistryScenario.console, Ok projects) /\
    map id projects = [ "0x05"; "0x05" ]%string /\
    ~ NoDup (map id projects).
Proof.
  split; [reflexivity|].
  eexists. split; [vm_compute; reflexivity|]. split; [reflexivity|].
  cbn. intros H. inversion H as [|x l Hin _]; subst. apply Hin. now left.
Qed.

(** *** Flags of the locally added recipients *)

Lemma truthy_Some (v : Z) : truthy (Some v) = true <-> v <> 0.
Proof.
  unfold truthy. rewrite negb_true_iff. apply Z.eqb_neq.
Qed.

Lemma addedAfterEnd_true (endBlock : option Z) (event : Event RecipientAddedArgs) :
  Reference.addedAfterEnd endBlock event = true <->
  exists e, endBlock = Some e /\ e <> 0 /\ e <= blockNumber event.
Proof.
  unfold Reference.addedAfterEnd. destruct endBlock as [e|].
  - rewrite andb_true_iff, truthy_Some, Z.geb_le. split.
    + intros [H1 H2]. eauto.
    + intros (e' & [= <-] & H1 & H2). auto.
  - cbn. split; [discriminate|]. intros (e & H & _). discriminate.
Qed.

Lemma removedBeforeStart_true (startBlock : option Z) (removed : Event Removed.Args) :
  Reference.removedBeforeStart startBlock removed = true <->
  truthy startBlock = false
  \/ exists s, startBlock = Some s /\ blockNumber removed <= s.
Proof.
  unfold Reference.removedBeforeStart. destruct startBlock as [s|].
  - destruct (truthy (Some s)) eqn:Ht; cbn [negb orb andb].
    + rewrite Z.leb_le. split; [eauto|].
      intros [H|(s' & [= <-] & H)]; [discriminate|exact H].
    + tauto.
  - cbn. tauto.
Qed.

(** C3 (as amended). For a locally added recipient whose id has a removed
    event ([removed] being the first one): if no startBlock is supplied, or
    the removal occurred at or before startBlock, then isHidden = true (and
    isLocked = false); if the removal occurred strictly after a supplied,
    non-zero startBlock, then isLocked = true, and isHidden = true exactly
    when a non-zero endBlock is supplied and the recipient was added at or
    after it -- so isHidden = false when it was added before endBlock, or
    when no endBlock is supplied. *)
Theorem getProjects_removed_flags (w : World) (registryAddress : string)
  (startBlock endBlock : option Z) (console console' : Console)
  (projects : list Project) (i : nat) (event : Event RecipientAddedArgs)
  (removed : Event Removed.Args) :
  getProjects w registryAddress startBlock endBlock console = (console', Ok projects) ->
  nth_error (RecipientAdded (registryAt w registryAddress)) i = Some event ->
  Reference.removalOf (RecipientRemoved (registryAt w registryAddress))
    (_tcrItemId (args event)) = Some removed ->
  exists project,
    nth_error projects i = Some project /\
    id project = _tcrItemId (args event) /\
    (startBlock = None \/ (exists s, startBlock = Some s /\ blockNumber removed <= s) ->
     isHidden project = true /\ isLocked project = false) /\
    (forall s, startBlock = Some s -> s <> 0 -> s < blockNumber removed ->
     isLocked project = true /\
     (isHidden project = true <->
      exists e, endBlock = Some e /\ e <> 0 /\ e <= blockNumber event)).
Proof.
  intros H Hi Hrem.
  destruct (getProjects_local _ _ _ _ _ _ _ _ _ H Hi)
    as (columns & values & complaints & index & _ & _ & _ & Hp).
  eexists. split; [exact Hp|]. split; [reflexivity|].
  unfold Reference.localProject. cbv zeta. rewrite Hrem. cbn [isHidden isLocked].
  split.
  - intros Hearly.
    assert (Hb : Reference.removedBeforeStart startBlock removed = true).
    { apply removedBeforeStart_true. destruct Hearly as [->|Hs]; [now left|now right]. }
    now rewrite Hb.
  - intros s -> Hs Hlate.
    assert (Hb : Reference.removedBeforeStart (Some s) removed = false).
    { apply not_true_iff_false. rewrite removedBeforeStart_true.
      intros [Ht|(s' & [= <-] & Hle)]; [|lia].
      apply truthy_Some in Hs. congruence. }
    rewrite Hb. split; [reflexivity|]. apply addedAfterEnd_true.
Qed.

(** [Added(id=5, index=2)] then [Removed(id=5)] at block 40: hidden for the
    window [50, 200], locked and visible for the window [10, 200]. *)
Lemma getProjects_removed_flags_witness :
  (exists project,
     nth_error
       match snd (getProjects RegistryScenario.removedEarly "registry" (Some 50) (Some 200)
                    RegistryScenario.console)
       with Ok projects => projects | Err _ => [] end 0
     = Some project /\
     isHidden project = true /\ isLocked project = false)
  /\
  (exists project,
     nth_error
       match snd (getProjects RegistryScenario.removedEarly "registry" (Some 10) (Some 200)
                    RegistryScenario.console)
       with Ok projects => projects | Err _ => [] end 0
     = Some project /\
     isLocked project = true /\ ~ isHidden project = true).
Proof.
  split.
  - destruct (getProjects_removed_flags RegistryScenario.removedEarly "registry"
                (Some 50) (Some 200) RegistryScenario.console RegistryScenario.console
                _ 0%nat _ _ eq_refl eq_refl eq_refl)
      as (project & Hp & _ & Hearly & _).
    exists project. split; [exact Hp|]. apply Hearly.
    right. exists 50. split; [reflexivity|]. cbn. lia.
  - destruct (getProjects_removed_flags RegistryScenario.removedEarly "registry"
                (Some 10) (Some 200) RegistryScenario.console RegistryScenario.console
                _ 0%nat _ _ eq_refl eq_refl eq_refl)
      as (project & Hp & _ & _ & Hlate).
    exists project. split; [exact Hp|].
    destruct (Hlate 10 eq_refl) as [Hl Hh]; [lia|cbn; lia|].
    split; [exact Hl|].
    rewrite Hh. intros (e & [= <-] & _ & Hle). cbn in Hle. lia.
Defined.

(** C3 as stated fails: a recipient added at block 250, after the end block
    200, and removed at block 300, strictly after the start block 10, is
    locked and hidden. *)
Lemma getProjects_locked_and_hidden :
  RecipientAdded (registryAt RegistryScenario.addedLate "registry")
  = [ RegistryScenario.added "0x05" "0xc0de" 2 250 ] /\
  Reference.removalOf (RecipientRemoved (registryAt RegistryScenario.addedLate "registry"))
    "0x05"
  = Some (RegistryScenario.removed "0x05" 300) /\
  10 < blockNumber (RegistryScenario.removed "0x05" 300) /\
  exists project,
    getProjects RegistryScenario.addedLate "registry" (Some 10) (Some 200)
      RegistryScenario.console
    = (RegistryScenario.console, Ok [ project ]) /\
    id project = "0x05"%string /\
    isLocked project = true /\
    isHidden project = true /\
    isHidden project <> false.
Proof.
  split; [reflexivity|]. split; [reflexivity|]. split; [reflexivity|].
  eexists. split; [vm_compute; reflexivity|].
  repeat split. discriminate.
Qed.

(** C6 (as amended). For a locally added recipient: if a non-zero endBlock
    is supplied (the guard is [endBlock && ...], which treats the number 0
    like an omitted argument) and the add event occurred at or after it,
    isHidden = true; and if the recipient was added before endBlock and its
    id has no removed event, isHidden and isLocked are both false. *)
Theorem getProjects_end_block_flags (w : World) (registryAddress : string)
  (startBlock endBlock : option Z) (console console' : Console)
  (projects : list Project) (i : nat) (event : Event RecipientAddedArgs) :
  getProjects w registryAddress startBlock endBlock console = (console', Ok projects) ->
  nth_error (RecipientAdded (registryAt w registryAddress)) i = Some event ->
  exists project,
    nth_error projects i = Some project /\
    id project = _tcrItemId (args event) /\
    (forall e, endBlock = Some e -> e <> 0 ->
               e <= blockNumber event -> isHidden project = true) /\
    (forall e, endBlock = Some e -> blockNumber event < e ->
               Reference.removalOf (RecipientRemoved (registryAt w registryAddress))
                 (_tcrItemId (args event)) = None ->
               isHidden project = false /\ isLocked project = false).
Proof.
  intros H Hi.
  destruct (getProjects_local _ _ _ _ _ _ _ _ _ H Hi)
    as (columns & values & complaints & index & _ & _ & _ & Hp).
  eexists. split; [exact Hp|]. split; [reflexivity|].
  unfold Reference.localProject. cbv zeta. cbn [isHidden isLocked]. split.
  - intros e -> Hnz Hle.
    assert (Ha : Reference.addedAfterEnd (Some e) event = true).
    { apply addedAfterEnd_true. exists e. auto. }
    rewrite Ha.
    destruct (Reference.removalOf _ _) as [removed|]; [|reflexivity].
    destruct (Reference.removedBeforeStart startBlock removed); reflexivity.
  - intros e -> Hlt ->.
    split; [|reflexivity].
    apply not_true_iff_false. rewrite addedAfterEnd_true.
    intros (e' & [= <-] & _ & Hle). lia.
Qed.

(** Item 5, added at block 20 and never removed: hidden for a round that
    ended at block 15, visible and unlocked for one that ends at block 200. *)
Lemma getProjects_end_block_flags_witness :
  (exists project,
     nth_error
       match snd (getProjects RegistryScenario.curated "registry" (Some 10) (Some 15)
                    RegistryScenario.console)
       with Ok projects => projects | Err _ => [] end 0
     = Some project /\
     isHidden project = true)
  /\
  (exists project,
     nth_error
       match snd (getProjects RegistryScenario.curated "registry" (Some 10) (Some 200)
                    RegistryScenario.console)
       with Ok projects => projects | Err _ => [] end 0
     = Some project /\
     isHidden project = false /\ isLocked project = false).
Proof.
  split.
  - destruct (getProjects_end_block_flags RegistryScenario.curated "registry"
                (Some 10) (Some 15) RegistryScenario.console RegistryScenario.console
                _ 0%nat _ eq_refl eq_refl)
      as (project & Hp & _ & Hafter & _).
    exists project. split; [exact Hp|].
    apply (Hafter 15 eq_refl); [lia|cbn; lia].
  - destruct (getProjects_end_block_flags RegistryScenario.curated "registry"
                (Some 10) (Some 200) RegistryScenario.console RegistryScenario.console
                _ 0%nat _ eq_refl eq_refl)
      as (project & Hp & _ & _ & Hbefore).
    exists project. split; [exact Hp|].
    apply (Hbefore 200 eq_refl); [cbn; lia|reflexivity].
Defined.

(** C6 as stated fails at endBlock = 0: item 5 was added at block 20, at or
    after block 0, has no removed event, and is not hidden. *)
Lemma getProjects_end_block_zero :
  RecipientAdded (registryAt RegistryScenario.curated "registry")
  = [ RegistryScenario.added "0x05" "0xc0de" 2 20 ] /\
  0 <= blockNumber (RegistryScenario.added "0x05" "0xc0de" 2 20) /\
  exists project,
    nth_error
      match snd (getProjects RegistryScenario.curated "registry" None (Some 0)
                   RegistryScenario.console)
      with Ok projects => projects | Err _ => [] end 0
    = Some project /\
    id project = "0x05"%string /\
    isHidden project = false /\
    isHidden project <> true.
Proof.
  split; [reflexivity|]. split; [cbn; lia|].
  eexists. split; [vm_compute; reflexivity|].
  repeat split. discriminate.
Qed.

(** *** The window does not reach the second loop *)

Lemma find_id_Some (projects : list Project) (itemId : string) (found : Project) :
  find (fun item => String.eqb (id item) itemId) projects = Some found ->
  In itemId (map id projects).
Proof.
  intros Hf. apply find_some in Hf. destruct Hf as [Hin Heq].
  apply String.eqb_eq in Heq. subst itemId. now apply in_map.
Qed.

Lemma find_id_same (projects projects' : list Project) (itemId : string) :
  map id projects' = map id projects ->
  find (fun item => String.eqb (id item) itemId) projects = None ->
  find (fun item => String.eqb (id item) itemId) projects' = None.
Proof.
  intros Hids Hf.
  destruct (find _ projects') as [found|] eqn:Hf'; [|reflexivity].
  apply find_id_Some in Hf'. rewrite Hids in Hf'.
  now apply find_id_None in Hf.
Qed.

Section Windows.

Variables (w : World) (tcr : TcrContract) (columns : list TcrColumn).
Variable removedEvents : list (Event Removed.Args).

(** The first loop pushes the same ids, and fails or not in the same way,
    under any two windows. *)
Lemma forOf_addRecipient_window (startBlock endBlock startBlock' endBlock' : option Z)
  (events : list (Event RecipientAddedArgs)) (acc acc' projects : list Project)
  (console console1 : Console) :
  forOf (addRecipient w columns removedEvents startBlock endBlock) events acc console
  = (console1, Ok projects) ->
  map id acc' = map id acc ->
  exists projects',
    forOf (addRecipient w columns removedEvents startBlock' endBlock') events acc' console
    = (console1, Ok projects') /\
    map id projects' = map id projects.
Proof.
  revert acc acc'. induction events as [|event rest IH]; intros acc acc' H Hids.
  - cbn in H. injection H as <- <-. exists acc'. split; [reflexivity|exact Hids].
  - rewrite forOf_cons, addRecipient_step in H.
    rewrite forOf_cons, addRecipient_step.
    destruct (gtcrDecode w columns (_metadata (args event)))
      as [values complaints|e]; [|discriminate].
    destruct (toNumber (_index (args event))) as [index|e]; [|discriminate].
    apply (IH _ _ H). rewrite !map_app, Hids. reflexivity.
Qed.

(** The second loop pushes the same projects onto two lists that hold the
    same ids. *)
Lemma forOf_addSubmitted_same_ids (events : list (Event ItemSubmittedArgs))
  (acc acc' projects : list Project) (console console1 : Console) :
  forOf (addSubmitted w tcr columns) events acc console = (console1, Ok projects) ->
  map id acc' = map id acc ->
  exists pushed,
    projects = acc ++ pushed /\
    forOf (addSubmitted w tcr columns) events acc' console = (console1, Ok (acc' ++ pushed)).
Proof.
  revert acc acc'. induction events as [|event rest IH]; intros acc acc' H Hids.
  - cbn in H. injection H as <- <-. exists []. now rewrite !app_nil_r.
  - rewrite forOf_cons, addSubmitted_step in H.
    rewrite forOf_cons, addSubmitted_step.
    destruct (find _ acc) as [found|] eqn:Hf.
    + destruct (find _ acc') as [found'|] eqn:Hf'.
      * apply (IH _ _ H Hids).
      * apply find_id_Some in Hf. rewrite <- Hids in Hf.
        now apply find_id_None in Hf'.
    + rewrite (find_id_same acc acc' _ Hids Hf).
      destruct (toNumber (snd (getItemInfo tcr (_itemID (args event)))))
        as [status|e]; [|discriminate].
      destruct (status =? statusValue Registered); [|apply (IH _ _ H Hids)].
      destruct (gtcrDecode w columns (fst (getItemInfo tcr (_itemID (args event)))))
        as [values complaints|e]; [|discriminate].
      destruct (IH _ (acc' ++ [Reference.curatedProject w (_itemID (args event)) values]) H)
        as (pushed & -> & Hrun).
      { rewrite !map_app, Hids. reflexivity. }
      eexists (_ :: pushed). rewrite <- !app_assoc in *. split; [reflexivity|exact Hrun].
Qed.

End Windows.

(** Under another window the call returns as well, with the same projects
    pushed by the second loop after as many local projects. *)
Lemma getProjects_window (w : World) (registryAddress : string)
  (startBlock endBlock startBlock' endBlock' : option Z) (console console' : Console)
  (projects : list Project) :
  getProjects w registryAddress startBlock endBlock console = (console', Ok projects) ->
  exists locals locals' curated,
    projects = locals ++ curated /\
    getProjects w registryAddress startBlock' endBlock' console
    = (console', Ok (locals' ++ curated)) /\
    map id locals = map (fun ev => _tcrItemId (args ev))
                        (RecipientAdded (registryAt w registryAddress)) /\
    map id locals' = map id locals.
Proof.
  intros H. pose proof (getProjects_Ok _ _ _ _ _ _ _ H) as Hshape.
  destruct Hshape as (-> & columns & locals & curated & Hc & -> & Hl & _ & _).
  revert H. unfold getProjects. cbv zeta. unfold bindIO at 1 3. unfold lift.
  rewrite Hc. unfold bindIO.
  destruct (forOf (addRecipient w columns _ startBlock endBlock) _ [] console)
    as [console1 [pushed|e]] eqn:H1; [|discriminate].
  intros H2.
  destruct (forOf_addRecipient_window w columns _ startBlock endBlock
              startBlock' endBlock' _ [] [] _ _ _ H1 eq_refl)
    as (pushed' & -> & Hids).
  pose proof (forOf_addRecipient_Ok _ _ _ _ _ _ _ _ _ _ H1) as (-> & pushed0 & Hp & Hl0).
  cbn [app] in Hp. subst pushed0.
  destruct (forOf_addSubmitted_same_ids w _ columns _ pushed pushed' _ _ _ H2 Hids)
    as (curated' & Heq & ->).
  exists pushed, pushed', curated'. split; [exact Heq|]. split; [reflexivity|].
  split; [|exact Hids].
  exact (pushedFor_ids _ _ _ _ _ _ _ Hl0).
Qed.

(** *** Projects that come from the curated list only *)

(** C10. A project of the result whose id has no recipient-added event --
    one that entered through the pass over the item-submitted events -- has
    isHidden = false, isLocked = false and index = 0, whatever startBlock
    and endBlock are: under any other window the call returns as well and
    the same project, with the same flags, is in its result. *)
Theorem getProjects_curated_only (w : World) (registryAddress : string)
  (startBlock endBlock : option Z) (console console' : Console)
  (projects : list Project) (project : Project) :
  getProjects w registryAddress startBlock endBlock console = (console', Ok projects) ->
  In project projects ->
  (forall event, In event (RecipientAdded (registryAt w registryAddress)) ->
                 _tcrItemId (args event) <> id project) ->
  isHidden project = false /\ isLocked project = false /\ index project = 0 /\
  (forall startBlock' endBlock' : option Z,
     exists projects',
       getProjects w registryAddress startBlock' endBlock' console
       = (console', Ok projects') /\
       In project projects').
Proof.
  intros H Hin Hnew.
  assert (Hlocal : forall locals,
            map id locals = map (fun ev => _tcrItemId (args ev))
                                (RecipientAdded (registryAt w registryAddress)) ->
            ~ In project locals).
  { intros locals Hids Hp. apply (in_map id) in Hp. rewrite Hids in Hp.
    apply in_map_iff in Hp. destruct Hp as (event & Hid & Hev).
    exact (Hnew event Hev Hid). }
  split; [|split; [|split]].
  1-3: apply getProjects_Ok in H;
    destruct H as (_ & columns & locals & curated & _ & -> & Hl & Hc & _);
    apply in_app_or in Hin; destruct Hin as [Hin|Hin];
    [exfalso; exact (Hlocal locals (pushedFor_ids _ _ _ _ _ _ _ Hl) Hin)|];
    rewrite Forall_forall in Hc;
    destruct (Hc project Hin) as (event & values & complaints & _ & _ & _ & ->);
    reflexivity.
  intros startBlock' endBlock'.
  destruct (getProjects_window w registryAddress startBlock endBlock
              startBlock' endBlock' console console' projects H)
    as (locals & locals' & curated & -> & Hrun & Hids & _).
  exists (locals' ++ curated). split; [exact Hrun|].
  apply in_or_app. right.
  apply in_app_or in Hin. destruct Hin as [Hin|Hin]; [|exact Hin].
  exfalso. exact (Hlocal locals Hids Hin).
Qed.

(** Item 9, registered on the curated list and never added locally. *)
Lemma getProjects_curated_only_witness :
  exists project,
    nth_error
      match snd (getProjects RegistryScenario.curated "registry" (Some 10) (Some 15)
                   RegistryScenario.console)
      with Ok projects => projects | Err _ => [] end 1
    = Some project /\
    id project = "0x09"%string /\
    isHidden project = false /\ isLocked project = false /\ index project = 0.
Proof.
  eexists. split; [vm_compute; reflexivity|]. split; [reflexivity|].
  destruct (getProjects_curated_only RegistryScenario.curated "registry"
              (Some 10) (Some 15) RegistryScenario.console RegistryScenario.console
              _ (Reference.curatedProject RegistryScenario.curated "0x09"
                   [ "Project"; "0x00a1"; "/ipfs/logo.png"; "A project" ]%string)
              eq_refl)
    as (Hhidden & Hlocked & Hindex & _).
  - right. left. reflexivity.
  - intros event [<-|[]]. discriminate.
  - auto.
Defined.

(** *** Decoder failures *)

Lemma forOf_addRecipient_throws (w : World) (columns : list TcrColumn)
  (removedEvents : list (Event Removed.Args)) (startBlock endBlock : option Z)
  (events : list (Event RecipientAddedArgs)) (i : nat)
  (event : Event RecipientAddedArgs) (e : exn) (acc : list Project) (console : Console) :
  nth_error events i = Some event ->
  gtcrDecode w columns (_metadata (args event)) = DecodeThrows e ->
  (forall (j : nat) event', (j < i)%nat -> nth_error events j = Some event' ->
     (exists values complaints,
        gtcrDecode w columns (_metadata (args event')) = Decoded values complaints)
     /\ Z.abs (_index (args event')) <= MAX_SAFE_INTEGER) ->
  forOf (addRecipient w columns removedEvents startBlock endBlock) events acc console
  = (setConsoleError console Silenced, Err e).
Proof.
  revert events acc. induction i as [|i IH]; intros [|first rest] acc Hi Hthrow Hbefore;
    try discriminate; rewrite forOf_cons, addRecipient_step.
  - injection Hi as ->. rewrite Hthrow. reflexivity.
  - destruct (Hbefore 0%nat first) as ((values & complaints & Hd) & Hn);
      [lia|reflexivity|].
    rewrite Hd, (toNumber_safe _ Hn).
    apply IH; [exact Hi|exact Hthrow|].
    intros j event' Hj Hnth. apply (Hbefore (S j)); [lia|exact Hnth].
Qed.

(** C7 (as amended). [getProjects] only silences what the decoder reports
    through [console.error]; it catches nothing.  When the decoder returns
    for every payload (whether or not it reported problems), the call
    returns, the console is as before, and every added event has its
    project, whose presentation fields are the values the decoder returned
    -- they are not emptied.  When the decoder throws for an added event,
    the events before it having been decoded, the exception propagates: the
    whole call fails with it, and [console.error] is left disabled. *)
Theorem getProjects_decoder_outcome (w : World) (registryAddress : string)
  (startBlock endBlock : option Z) (console : Console) (columns : list TcrColumn) :
  getTcrColumns w (tcrAt w (tcr (registryAt w registryAddress))) = Ok columns ->
  ((forall event, In event (RecipientAdded (registryAt w registryAddress)) ->
      (exists values complaints,
         gtcrDecode w columns (_metadata (args event)) = Decoded values complaints)
      /\ Z.abs (_index (args event)) <= MAX_SAFE_INTEGER) ->
   (forall event,
      In event (ItemSubmitted (tcrAt w (tcr (registryAt w registryAddress)))) ->
      (exists values complaints,
         gtcrDecode w columns
           (fst (getItemInfo (tcrAt w (tcr (registryAt w registryAddress)))
                   (_itemID (args event))))
         = Decoded values complaints)
      /\ Z.abs (snd (getItemInfo (tcrAt w (tcr (registryAt w registryAddress)))
                       (_itemID (args event)))) <= MAX_SAFE_INTEGER) ->
   exists projects,
     getProjects w registryAddress startBlock endBlock console = (console, Ok projects) /\
     forall (i : nat) event,
       nth_error (RecipientAdded (registryAt w registryAddress)) i = Some event ->
       exists project values complaints,
         nth_error projects i = Some project /\
         gtcrDecode w columns (_metadata (args event)) = Decoded values complaints /\
         id project = _tcrItemId (args event) /\
         name project = at_ values 0 /\
         address project = at_ values 1 /\
         description project = at_ values 3 /\
         imageUrl project = (ipfsGatewayUrl w ++ interpolate (at_ values 2))%string)
  /\
  (forall (i : nat) event (e : exn),
     nth_error (RecipientAdded (registryAt w registryAddress)) i = Some event ->
     gtcrDecode w columns (_metadata (args event)) = DecodeThrows e ->
     (forall (j : nat) event', (j < i)%nat ->
        nth_error (RecipientAdded (registryAt w registryAddress)) j = Some event' ->
        (exists values complaints,
           gtcrDecode w columns (_metadata (args event')) = Decoded values complaints)
        /\ Z.abs (_index (args event')) <= MAX_SAFE_INTEGER) ->
     getProjects w registryAddress startBlock endBlock console
     = (setConsoleError console Silenced, Err e)).
Proof.
  intros Hc. split.
  - intros Hadded Hsubmitted.
    destruct (getProjects_returns w registryAddress startBlock endBlock console columns
                Hc Hadded Hsubmitted) as (projects & Hrun).
    exists projects. split; [exact Hrun|].
    intros i event Hi.
    destruct (getProjects_local _ _ _ _ _ _ _ _ _ Hrun Hi)
      as (columns' & values & complaints & index & Hc' & Hd & _ & Hp).
    rewrite Hc in Hc'. injection Hc' as <-.
    exists (Reference.localProject w (RecipientRemoved (registryAt w registryAddress))
              startBlock endBlock event values index), values, complaints.
    repeat split; assumption.
  - intros i event e Hi Hthrow Hbefore.
    unfold getProjects. cbv zeta. unfold bindIO at 1. unfold lift. rewrite Hc.
    unfold bindIO.
    rewrite (forOf_addRecipient_throws w columns _ startBlock endBlock _ i event e []
               console Hi Hthrow Hbefore).
    reflexivity.
Qed.

(** Two added events, the decoder reporting a problem with the name of the
    second: both are returned, the second with the decoder's placeholder as
    its name, and nothing is printed. *)
Lemma getProjects_decoder_outcome_witness :
  exists projects project,
    getProjects RegistryScenario.partlyDecoded "registry" None None
      RegistryScenario.console
    = (RegistryScenario.console, Ok projects) /\
    nth_error projects 1 = Some project /\
    name project = Some "Error decoding text"%string.
Proof.
  destruct (proj1 (getProjects_decoder_outcome RegistryScenario.partlyDecoded "registry"
                     None None RegistryScenario.console RegistryScenario.columns eq_refl))
    as (projects & Hrun & Hfields).
  - intros event [<-|[<-|[]]]; (split; [do 2 eexists; reflexivity|vm_compute; discriminate]).
  - intros event [].
  - destruct (Hfields 1%nat _ eq_refl)
      as (project & values & complaints & Hp & Hd & _ & Hname & _).
    exists projects, project. split; [exact Hrun|]. split; [exact Hp|].
    rewrite Hname. injection Hd as <- _. reflexivity.
Defined.

(** C7 as stated fails: the decoder throws on the metadata of the second of
    three added events, and the whole call fails with that exception
    although the other two events decode.  And where the decoder reports a
    problem and returns a placeholder, the field holds the placeholder: it is
    not emptied. *)
Lemma getProjects_decoder_exception :
  map (fun ev => gtcrDecode RegistryScenario.undecodable RegistryScenario.columns
                   (_metadata (args ev)))
      (RecipientAdded (registryAt RegistryScenario.undecodable "registry"))
  = [ Decoded [ "Project"; "0x00a1"; "/ipfs/logo.png"; "A project" ]%string [];
      DecodeThrows (External "invalid rlp data");
      Decoded [ "Project"; "0x00a1"; "/ipfs/logo.png"; "A project" ]%string [] ] /\
  getProjects RegistryScenario.undecodable "registry" None None RegistryScenario.console
  = (setConsoleError RegistryScenario.console Silenced,
     Err (External "invalid rlp data")) /\
  map name
      match snd (getProjects RegistryScenario.partlyDecoded "registry" None None
                   RegistryScenario.console)
      with Ok projects => projects | Err _ => [] end
  = [ Some "Project"; Some "Error decoding text" ]%string.
Proof.
  repeat split.
Qed.

(** *** getProject *)

Lemma getProject_step (w : World) (registryAddress recipientId : string)
  (console : Console) :
  getProject w registryAddress recipientId console
  = let registry := registryAt w registryAddress in
    let tcr := tcrAt w (tcr registry) in
    match getTcrColumns w tcr with
    | Err e => (console, Err e)
    | Ok columns =>
        if String.eqb (fst (getItemInfo tcr recipientId)) "0x" then (console, Ok None)
        else
          match gtcrDecode w columns (fst (getItemInfo tcr recipientId)) with
          | DecodeThrows e => (setConsoleError console Silenced, Err e)
          | Decoded values _ =>
              match toNumber (snd (getItemInfo tcr recipientId)) with
              | Err e => (console, Err e)
              | Ok status =>
                  match
                    filter (fun event => String.eqb (_tcrItemId (args event)) recipientId)
                           (RecipientAdded registry)
                  with
                  | [] =>
                      (console,
                       Ok (Some (Reference.lookedUpProject w registry recipientId
                                   values status 0)))
                  | recipientAddedEvent :: _ =>
                      match toNumber (_index (args recipientAddedEvent)) with
                      | Err e => (console, Err e)
                      | Ok index =>
                          (console,
                           Ok (Some (Reference.lookedUpProject w registry recipientId
                                       values status index)))
                      end
                  end
              end
          end
    end.
Proof.
  unfold getProject. cbv zeta. unfold bindIO at 1. unfold lift.
  destruct (getTcrColumns w _) as [columns|e]; [|reflexivity].
  destruct (getItemInfo _ recipientId) as [data status]. cbn [fst snd].
  destruct (String.eqb data "0x"); [reflexivity|].
  unfold bindIO.
  destruct (gtcrDecode w columns data) as [values complaints|e] eqn:Hd.
  2:{ rewrite (decodeTcrItemData_throws _ _ _ _ _ Hd). reflexivity. }
  rewrite (decodeTcrItemData_returns _ _ _ _ _ _ Hd).
  destruct (toNumber status) as [s|e]; [|reflexivity].
  unfold Reference.lookedUpProject.
  destruct (filter _ (RecipientAdded _)) as [|first rest].
  - unfold ret.
    destruct (filter _ (RecipientRemoved _)); reflexivity.
  - destruct (toNumber (_index (args first))) as [index|e]; [|reflexivity].
    unfold ret.
    destruct (filter _ (RecipientRemoved _)); reflexivity.
Qed.

Lemma removal_exists (registry : RegistryContract) (recipientId : string) :
  match
    filter (fun event => String.eqb (Removed._tcrItemId (args event)) recipientId)
           (RecipientRemoved registry)
  with
  | _ :: _ => true
  | [] => false
  end = true
  <-> exists event, In event (RecipientRemoved registry)
                    /\ Removed._tcrItemId (args event) = recipientId.
Proof.
  destruct (filter _ (RecipientRemoved registry)) as [|first rest] eqn:Hf.
  - split; [discriminate|]. intros (event & Hin & Hid). exfalso.
    assert (Hin' : In event []); [|exact Hin'].
    rewrite <- Hf. apply filter_In. split; [exact Hin|].
    rewrite Hid. apply String.eqb_refl.
  - split; [intros _|reflexivity].
    assert (Hin : In first (first :: rest)) by now left.
    rewrite <- Hf in Hin. apply filter_In in Hin. destruct Hin as [Hin Heq].
    apply String.eqb_eq in Heq. eauto.
Qed.

(** C9. [getProject] returns null exactly when the curated list's current
    data for the id is the empty payload ["0x"]; otherwise it returns a
    record whose isLocked flag is true iff the registry has at least one
    removed event for the id (no window is involved) and whose isHidden flag
    is false.  The call does return in these two ways as soon as the schema
    can be read, the decoder returns for the item's data and the numbers
    converted fit. *)
Theorem getProject_null_or_record (w : World) (registryAddress recipientId : string)
  (console : Console) :
  (forall console' r,
     getProject w registryAddress recipientId console = (console', Ok r) ->
     (r = None <->
      fst (getItemInfo (tcrAt w (tcr (registryAt w registryAddress))) recipientId)
      = "0x"%string)
     /\
     (forall project, r = Some project ->
        (isLocked project = true <->
         exists event, In event (RecipientRemoved (registryAt w registryAddress))
                       /\ Removed._tcrItemId (args event) = recipientId)
        /\ isHidden project = false))
  /\
  (forall columns,
     getTcrColumns w (tcrAt w (tcr (registryAt w registryAddress))) = Ok columns ->
     fst (getItemInfo (tcrAt w (tcr (registryAt w registryAddress))) recipientId)
     = "0x"%string ->
     getProject w registryAddress recipientId console = (console, Ok None))
  /\
  (forall columns,
     getTcrColumns w (tcrAt w (tcr (registryAt w registryAddress))) = Ok columns ->
     fst (getItemInfo (tcrAt w (tcr (registryAt w registryAddress))) recipientId)
     <> "0x"%string ->
     (exists values complaints,
        gtcrDecode w columns
          (fst (getItemInfo (tcrAt w (tcr (registryAt w registryAddress))) recipientId))
        = Decoded values complaints) ->
     Z.abs (snd (getItemInfo (tcrAt w (tcr (registryAt w registryAddress))) recipientId))
     <= MAX_SAFE_INTEGER ->
     (forall event, In event (RecipientAdded (registryAt w registryAddress)) ->
                    Z.abs (_index (args event)) <= MAX_SAFE_INTEGER) ->
     exists project,
       getProject w registryAddress recipientId console = (console, Ok (Some project))).
Proof.
  rewrite getProject_step. cbv zeta.
  set (registry := registryAt w registryAddress).
  set (data := fst (getItemInfo (tcrAt w (tcr registry)) recipientId)).
  split; [|split].
  - intros console' r H.
    destruct (getTcrColumns w (tcrAt w (tcr registry))) as [columns|e]; [|discriminate].
    destruct (String.eqb data "0x") eqn:He.
    + injection H as _ <-. apply String.eqb_eq in He. split; [tauto|discriminate].
    + apply String.eqb_neq in He.
      destruct (gtcrDecode w columns data) as [values complaints|e]; [|discriminate].
      destruct (toNumber _) as [status|e]; [|discriminate].
      assert (Hrec : forall index,
                r = Some (Reference.lookedUpProject w registry recipientId
                            values status index) ->
                (r = None <-> data = "0x"%string) /\
                (forall project, r = Some project ->
                   (isLocked project = true <->
                    exists event, In event (RecipientRemoved registry)
                                  /\ Removed._tcrItemId (args event) = recipientId)
                   /\ isHidden project = false)).
      { intros index ->. split.
        - split; [discriminate|]. intros Hd. contradiction.
        - intros project [= <-]. split; [|reflexivity].
          cbn [isLocked Reference.lookedUpProject]. apply removal_exists. }
      destruct (filter _ (RecipientAdded registry)) as [|first rest].
      * injection H as _ <-. eapply Hrec. reflexivity.
      * destruct (toNumber (_index (args first))) as [index|e]; [|discriminate].
        injection H as _ <-. eapply Hrec. reflexivity.
  - intros columns Hc He. apply String.eqb_eq in He. now rewrite Hc, He.
  - intros columns Hc He (values & complaints & Hd) Hs Hidx.
    apply String.eqb_neq in He. rewrite Hc, He, Hd, (toNumber_safe _ Hs).
    destruct (filter _ (RecipientAdded registry)) as [|first rest] eqn:Hf.
    + eauto.
    + assert (Hin : In first (RecipientAdded registry)).
      { assert (Hin : In first (first :: rest)) by now left.
        rewrite <- Hf in Hin. apply filter_In in Hin. tauto. }
      rewrite (toNumber_safe _ (Hidx first Hin)). eauto.
Qed.

(** Item 5 was added and removed: a locked, visible record.  Item 0x77 is
    unknown to the curated list: null. *)
Lemma getProject_null_or_record_witness :
  getProject RegistryScenario.removedEarly "registry" "0x77" RegistryScenario.console
  = (RegistryScenario.console, Ok None)
  /\
  exists project,
    getProject RegistryScenario.removedEarly "registry" "0x05" RegistryScenario.console
    = (RegistryScenario.console, Ok (Some project)) /\
    isLocked project = true /\ isHidden project = false.
Proof.
  split.
  - apply (proj1 (proj2 (getProject_null_or_record RegistryScenario.removedEarly
                           "registry" "0x77" RegistryScenario.console))
             RegistryScenario.columns eq_refl).
    reflexivity.
  - destruct (getProject_null_or_record RegistryScenario.removedEarly "registry" "0x05"
                RegistryScenario.console)
      as (Hshape & _ & Hrecord).
    destruct (Hrecord RegistryScenario.columns eq_refl) as (project & Hrun).
    + discriminate.
    + do 2 eexists. reflexivity.
    + vm_compute. discriminate.
    + intros event [<-|[]]. vm_compute. discriminate.
    + exists project. split; [exact Hrun|].
      destruct (Hshape _ _ Hrun) as (_ & Hflags).
      destruct (Hflags project eq_refl) as (Hlocked & Hhidden).
      split; [|exact Hhidden].
      apply Hlocked. eexists. split; [left; reflexivity|reflexivity].
Defined.

(** ** Further properties of the recipient-registry module *)

(** *** The schema *)

Lemma at_app_length {A : Type} (before : list A) (x : A) (after : list A) :
  at_ (before ++ x :: after) (Z.of_nat (List.length before)) = Some x.
Proof.
  unfold at_. destruct (Z.of_nat (List.length before) <? 0) eqn:E;
    [apply Z.ltb_lt in E; lia|].
  rewrite Nat2Z.id, nth_error_app2 by lia. now rewrite Nat.sub_diag.
Qed.

(** X9. [getTcrColumns] reads the schema from the second-to-last
    meta-evidence event: it fetches the document at the gateway URL followed
    by that event's evidence path, and returns what the fetch returns.  With
    fewer than two meta-evidence events it fails with a TypeError and
    fetches nothing. *)
Theorem getTcrColumns_second_to_last (w : World) (tcr : TcrContract) :
  ((List.length (MetaEvidence tcr) < 2)%nat -> getTcrColumns w tcr = Err TypeError)
  /\
  (forall before event last,
     MetaEvidence tcr = before ++ [ event; last ] ->
     getTcrColumns w tcr
     = fetchColumns w (ipfsGatewayUrl w ++ _evidence (args event))%string).
Proof.
  unfold getTcrColumns. cbv zeta. split.
  - intros Hlen. destruct (MetaEvidence tcr) as [|e1 [|e2 rest]]; cbn in *;
      [reflexivity|reflexivity|lia].
  - intros before event last ->.
    replace (Z.of_nat (List.length (before ++ [event; last])) - 2)
      with (Z.of_nat (List.length before)).
    + now rewrite at_app_length.
    + rewrite length_app. cbn. lia.
Qed.

Lemma getTcrColumns_second_to_last_witness :
  getTcrColumns RegistryScenario.singleEvidence
    (tcrAt RegistryScenario.singleEvidence "0x7C4") = Err TypeError
  /\
  getTcrColumns RegistryScenario.curated (tcrAt RegistryScenario.curated "0x7C4")
  = Ok RegistryScenario.columns.
Proof.
  split.
  - apply (proj1 (getTcrColumns_second_to_last RegistryScenario.singleEvidence
                    (tcrAt RegistryScenario.singleEvidence "0x7C4"))).
    cbn. lia.
  - rewrite (proj2 (getTcrColumns_second_to_last RegistryScenario.curated
                      (tcrAt RegistryScenario.curated "0x7C4"))
               [] (mkEvent 1 {| _evidence := "/ipfs/registration.json" |})
               (mkEvent 1 {| _evidence := "/ipfs/clearing.json" |}) eq_refl).
    reflexivity.
Defined.

(** X10. Both operations read the schema before anything else: when
    [getTcrColumns] fails, [getProjects] fails with the same exception for
    every window, and [getProject] fails with it for every id -- also for
    an id the curated list has no data for, where it would otherwise return
    null -- and the console is left as it was. *)
Theorem schema_failure_aborts (w : World) (registryAddress : string) (e : exn)
  (console : Console) :
  getTcrColumns w (tcrAt w (tcr (registryAt w registryAddress))) = Err e ->
  (forall startBlock endBlock,
     getProjects w registryAddress startBlock endBlock console = (console, Err e))
  /\
  (forall recipientId,
     getProject w registryAddress recipientId console = (console, Err e)).
Proof.
  intros H. split.
  - intros startBlock endBlock. unfold getProjects. cbv zeta.
    unfold bindIO at 1. unfold lift. now rewrite H.
  - intros recipientId. rewrite getProject_step. cbv zeta. now rewrite H.
Qed.

Lemma schema_failure_aborts_witness :
  fst (getItemInfo (tcrAt RegistryScenario.singleEvidence "0x7C4") "0x77") = "0x"%string /\
  getProject RegistryScenario.singleEvidence "registry" "0x77" RegistryScenario.console
  = (RegistryScenario.console, Err TypeError) /\
  getProjects RegistryScenario.singleEvidence "registry" None None RegistryScenario.console
  = (RegistryScenario.console, Err TypeError).
Proof.
  destruct (schema_failure_aborts RegistryScenario.singleEvidence "registry" TypeError
              RegistryScenario.console eq_refl) as (Hprojects & Hproject).
  split; [reflexivity|]. split; [apply Hproject|apply Hprojects].
Defined.

(** *** The console *)

Section ConsoleDiscipline.

Variables (w : World) (tcr : TcrContract) (columns : list TcrColumn).
Variable removedEvents : list (Event Removed.Args).
Variables startBlock endBlock : option Z.

(** A run leaves the console as it was, or fails and leaves [console.error]
    disabled. *)
Let untouched {A : Type} (console : Console) (outcome : Console * result A) : Prop :=
  fst outcome = console
  \/ (exists e, snd outcome = Err e) /\ fst outcome = setConsoleError console Silenced.

Lemma forOf_addRecipient_console (events : list (Event RecipientAddedArgs))
  (acc : list Project) (console : Console) :
  untouched console
    (forOf (addRecipient w columns removedEvents startBlock endBlock) events acc console).
Proof.
  revert acc. induction events as [|event rest IH]; intros acc.
  - left. reflexivity.
  - rewrite forOf_cons, addRecipient_step.
    destruct (gtcrDecode w columns (_metadata (args event))) as [values complaints|e].
    + destruct (toNumber (_index (args event))) as [index|e]; [apply IH|now left].
    + right. cbn. eauto.
Qed.

Lemma forOf_addSubmitted_console (events : list (Event ItemSubmittedArgs))
  (acc : list Project) (console : Console) :
  untouched console (forOf (addSubmitted w tcr columns) events acc console).
Proof.
  revert acc. induction events as [|event rest IH]; intros acc.
  - left. reflexivity.
  - rewrite forOf_cons, addSubmitted_step.
    destruct (find _ acc); [apply IH|].
    destruct (toNumber _) as [status|e]; [|now left].
    destruct (status =? statusValue Registered); [|apply IH].
    destruct (gtcrDecode w columns _) as [values complaints|e]; [apply IH|].
    right. cbn. eauto.
Qed.

End ConsoleDiscipline.

(** X11. Whatever happens, [getProjects] and [getProject] print nothing,
    and they leave the console exactly as it was unless they fail, in which
    case [console.error] may be left replaced by the empty function: the
    console after a call is the console before it, or the call failed and
    the console is the one before with [console.error] disabled. *)
Theorem console_after_call (w : World) (registryAddress : string) (console : Console) :
  (forall startBlock endBlock console' r,
     getProjects w registryAddress startBlock endBlock console = (console', r) ->
     printed console' = printed console /\
     (console' = console
      \/ (exists e, r = Err e) /\ console' = setConsoleError console Silenced))
  /\
  (forall recipientId console' r,
     getProject w registryAddress recipientId console = (console', r) ->
     printed console' = printed console /\
     (console' = console
      \/ (exists e, r = Err e) /\ console' = setConsoleError console Silenced)).
Proof.
  assert (Hprinted : forall (c' : Console) (A : Type) (r : result A),
            c' = console \/ (exists e, r = Err e) /\ c' = setConsoleError console Silenced ->
            printed c' = printed console /\
            (c' = console
             \/ (exists e, r = Err e) /\ c' = setConsoleError console Silenced)).
  { intros c' A r H. split; [|exact H]. destruct H as [->|[_ ->]]; reflexivity. }
  split.
  - intros startBlock endBlock console' r H. apply Hprinted.
    revert H. unfold getProjects. cbv zeta. unfold bindIO at 1. unfold lift.
    destruct (getTcrColumns w _) as [columns|e]; [|intros [= <- <-]; now left].
    unfold bindIO.
    pose proof (forOf_addRecipient_console w columns
                  (RecipientRemoved (registryAt w registryAddress)) startBlock endBlock
                  (RecipientAdded (registryAt w registryAddress)) [] console) as H1.
    destruct (forOf (addRecipient w columns _ startBlock endBlock) _ [] console)
      as [console1 [locals|e]].
    + destruct H1 as [H1|[[e He] _]]; [|discriminate]. cbn in H1. subst console1.
      intros H.
      pose proof (forOf_addSubmitted_console w
                    (tcrAt w (tcr (registryAt w registryAddress))) columns
                    (ItemSubmitted (tcrAt w (tcr (registryAt w registryAddress))))
                    locals console) as H2.
      rewrite H in H2. exact H2.
    + intros [= <- <-]. destruct H1 as [H1|[_ H1]]; cbn in H1; [now left|].
      right. split; [eauto|exact H1].
  - intros recipientId console' r H. apply Hprinted.
    revert H. rewrite getProject_step. cbv zeta.
    destruct (getTcrColumns w _) as [columns|e]; [|intros [= <- <-]; now left].
    destruct (String.eqb _ "0x"); [intros [= <- <-]; now left|].
    destruct (gtcrDecode w columns _) as [values complaints|e];
      [|intros [= <- <-]; right; eauto].
    destruct (toNumber _) as [status|e]; [|intros [= <- <-]; now left].
    destruct (filter _ (RecipientAdded _)) as [|first rest];
      [intros [= <- <-]; now left|].
    destruct (toNumber _) as [index|e]; intros [= <- <-]; now left.
Qed.

Lemma console_after_call_witness :
  printed (fst (getProjects RegistryScenario.undecodable "registry" None None
                  RegistryScenario.console)) = [] /\
  printed (fst (getProject RegistryScenario.partlyDecoded "registry" "0x05"
                  RegistryScenario.console)) = [].
Proof.
  destruct (console_after_call RegistryScenario.undecodable "registry"
              RegistryScenario.console) as (Hprojects & _).
  destruct (console_after_call RegistryScenario.partlyDecoded "registry"
              RegistryScenario.console) as (_ & Hproject).
  split.
  - exact (proj1 (Hprojects None None _ _ (surjective_pairing _))).
  - exact (proj1 (Hproject "0x05"%string _ _ (surjective_pairing _))).
Defined.

(** *** The shape of the list *)

Section SubmittedPass.

Variables (w : World) (tcr : TcrContract) (columns : list TcrColumn).

(** The second loop pushes at most one project per submitted event. *)
Lemma forOf_addSubmitted_length (events : list (Event ItemSubmittedArgs))
  (acc projects : list Project) (console console' : Console) :
  forOf (addSubmitted w tcr columns) events acc console = (console', Ok projects) ->
  (List.length projects <= List.length acc + List.length events)%nat.
Proof.
  revert acc console. induction events as [|event rest IH]; intros acc console H.
  - cbn in H. injection H as _ <-. cbn. lia.
  - rewrite forOf_cons, addSubmitted_step in H. cbn [List.length].
    destruct (find _ acc); [apply IH in H; lia|].
    destruct (toNumber _) as [status|e]; [|discriminate].
    destruct (status =? statusValue Registered); [|apply IH in H; lia].
    destruct (gtcrDecode w columns _) as [values complaints|e]; [|discriminate].
    apply IH in H. rewrite length_app in H. cbn in H. lia.
Qed.

(** After the second loop every submitted item that is registered on the
    curated list is in the list, and so is everything that was there. *)
Lemma forOf_addSubmitted_complete (events : list (Event ItemSubmittedArgs))
  (acc projects : list Project) (console console' : Console) :
  forOf (addSubmitted w tcr columns) events acc console = (console', Ok projects) ->
  (forall itemId, In itemId (map id acc) -> In itemId (map id projects)) /\
  (forall event, In event events ->
     snd (getItemInfo tcr (_itemID (args event))) = statusValue Registered ->
     In (_itemID (args event)) (map id projects)).
Proof.
  revert acc console. induction events as [|event rest IH]; intros acc console H.
  - cbn in H. injection H as _ <-. split; [auto|intros ev []].
  - rewrite forOf_cons, addSubmitted_step in H.
    destruct (find _ acc) as [found|] eqn:Hf.
    { destruct (IH _ _ H) as (Hkeep & Hrest). split; [exact Hkeep|].
      intros ev [<-|Hin] Hreg; [|now apply Hrest].
      apply Hkeep. eapply find_id_Some. exact Hf. }
    destruct (toNumber _) as [status|e] eqn:Hs; [|discriminate].
    apply toNumber_Ok in Hs. destruct Hs as [-> _].
    destruct (_ =? statusValue Registered) eqn:Hreg.
    2:{ destruct (IH _ _ H) as (Hkeep & Hrest). split; [exact Hkeep|].
        intros ev [<-|Hin] Hr; [|now apply Hrest].
        apply Z.eqb_neq in Hreg. contradiction. }
    destruct (gtcrDecode w columns _) as [values complaints|e]; [|discriminate].
    destruct (IH _ _ H) as (Hkeep & Hrest).
    assert (Hacc : forall itemId, In itemId (map id acc) -> In itemId (map id projects)).
    { intros itemId Hin. apply Hkeep. rewrite map_app. apply in_or_app. now left. }
    split; [exact Hacc|].
    intros ev [<-|Hin] Hr; [|now apply Hrest].
    apply Hkeep. rewrite map_app. apply in_or_app. right. now left.
Qed.

End SubmittedPass.

(** X12. The list [getProjects] returns starts with one project per
    recipient-added event, in the order of the events, each with the id and
    the index of its event and no [extra]; after them come at most one
    project per item-submitted event, each with index 0 and an [extra] that
    holds the status Registered and the item's page on the curated list. *)
Theorem getProjects_shape (w : World) (registryAddress : string)
  (startBlock endBlock : option Z) (console console' : Console)
  (projects : list Project) :
  getProjects w registryAddress startBlock endBlock console = (console', Ok projects) ->
  (List.length (RecipientAdded (registryAt w registryAddress)) <= List.length projects
   <= List.length (RecipientAdded (registryAt w registryAddress))
      + List.length (ItemSubmitted (tcrAt w (tcr (registryAt w registryAddress)))))%nat
  /\
  (forall (i : nat) event,
     nth_error (RecipientAdded (registryAt w registryAddress)) i = Some event ->
     exists project,
       nth_error projects i = Some project /\
       id project = _tcrItemId (args event) /\
       index project = _index (args event) /\
       extra project = None)
  /\
  (forall (i : nat) project,
     (List.length (RecipientAdded (registryAt w registryAddress)) <= i)%nat ->
     nth_error projects i = Some project ->
     index project = 0 /\
     extra project
     = Some {| tcrItemStatus := statusValue Registered;
               tcrItemUrl := (KLEROS_CURATE_URL ++ "/" ++ id project)%string |}).
Proof.
  intros H.
  pose proof (getProjects_Ok _ _ _ _ _ _ _ H)
    as (_ & columns & locals & curated & Hc & -> & Hl & Hcur & _).
  assert (Hlen : List.length locals
                 = List.length (RecipientAdded (registryAt w registryAddress))).
  { symmetry. eapply Forall2_length. exact Hl. }
  split; [|split].
  - rewrite length_app, Hlen. split; [lia|].
    revert H. unfold getProjects. cbv zeta. unfold bindIO at 1. unfold lift.
    rewrite Hc. unfold bindIO.
    destruct (forOf (addRecipient w columns _ startBlock endBlock) _ [] console)
      as [console1 [pushed|e]] eqn:H1; [|discriminate].
    intros H2. apply forOf_addSubmitted_length in H2.
    apply forOf_addRecipient_Ok in H1. destruct H1 as (_ & pushed' & -> & Hp).
    cbn [app] in H2. rewrite length_app in H2. apply Forall2_length in Hp. lia.
  - intros i event Hi.
    destruct (getProjects_local _ _ _ _ _ _ _ _ _ H Hi)
      as (columns' & values & complaints & idx & _ & _ & Hidx & Hp).
    eexists. split; [exact Hp|]. apply toNumber_Ok in Hidx. destruct Hidx as [-> _].
    repeat split.
  - intros i project Hi Hp.
    rewrite nth_error_app2 in Hp by lia.
    apply nth_error_In in Hp. rewrite Forall_forall in Hcur.
    destruct (Hcur project Hp) as (event & values & complaints & _ & _ & _ & ->).
    split; reflexivity.
Qed.

Lemma getProjects_shape_witness :
  exists projects,
    getProjects RegistryScenario.curated "registry" None None RegistryScenario.console
    = (RegistryScenario.console, Ok projects) /\
    (1 <= List.length projects <= 5)%nat.
Proof.
  eexists. split; [vm_compute; reflexivity|].
  exact (proj1 (getProjects_shape RegistryScenario.curated "registry" None None
                  RegistryScenario.console RegistryScenario.console _ eq_refl)).
Defined.

(** X13. When [getProjects] returns, every submitted item that is
    registered on the curated list is in the result, and nothing else is:
    the id of every project is the id of a recipient-added event or of an
    item-submitted event whose item is registered. *)
Theorem getProjects_registered_items (w : World) (registryAddress : string)
  (startBlock endBlock : option Z) (console console' : Console)
  (projects : list Project) :
  getProjects w registryAddress startBlock endBlock console = (console', Ok projects) ->
  (forall event,
     In event (ItemSubmitted (tcrAt w (tcr (registryAt w registryAddress)))) ->
     snd (getItemInfo (tcrAt w (tcr (registryAt w registryAddress))) (_itemID (args event)))
     = statusValue Registered ->
     In (_itemID (args event)) (map id projects))
  /\
  (forall project, In project projects ->
     (exists event, In event (RecipientAdded (registryAt w registryAddress))
                    /\ _tcrItemId (args event) = id project)
     \/
     (exists event,
        In event (ItemSubmitted (tcrAt w (tcr (registryAt w registryAddress))))
        /\ _itemID (args event) = id project
        /\ snd (getItemInfo (tcrAt w (tcr (registryAt w registryAddress)))
                  (_itemID (args event))) = statusValue Registered)).
Proof.
  intros H. split.
  - revert H. unfold getProjects. cbv zeta. unfold bindIO at 1. unfold lift.
    destruct (getTcrColumns w _) as [columns|e]; [|discriminate].
    unfold bindIO.
    destruct (forOf (addRecipient w columns _ startBlock endBlock) _ [] console)
      as [console1 [pushed|e]]; [|discriminate].
    intros H2. exact (proj2 (forOf_addSubmitted_complete _ _ _ _ _ _ _ _ H2)).
  - pose proof (getProjects_Ok _ _ _ _ _ _ _ H)
      as (_ & columns & locals & curated & _ & -> & Hl & Hcur & _).
    intros project Hin. apply in_app_or in Hin. destruct Hin as [Hin|Hin].
    + left. apply (in_map id) in Hin. rewrite (pushedFor_ids _ _ _ _ _ _ _ Hl) in Hin.
      apply in_map_iff in Hin. destruct Hin as (event & Hid & Hev). eauto.
    + right. rewrite Forall_forall in Hcur.
      destruct (Hcur project Hin) as (event & values & complaints & Hev & Hreg & _ & ->).
      exists event. auto.
Qed.

(** Item 9 is registered and never added locally; item 10 is pending. *)
Lemma getProjects_registered_items_witness :
  exists projects,
    getProjects RegistryScenario.curated "registry" None None RegistryScenario.console
    = (RegistryScenario.console, Ok projects) /\
    In "0x09"%string (map id projects) /\
    ~ In "0x0a"%string (map id projects).
Proof.
  eexists. split; [vm_compute; reflexivity|].
  destruct (getProjects_registered_items RegistryScenario.curated "registry" None None
              RegistryScenario.console RegistryScenario.console _ eq_refl)
    as (Hcomplete & Hsound).
  split.
  - apply (Hcomplete (RegistryScenario.submitted "0x09" 30)); [|reflexivity].
    right. left. reflexivity.
  - intros Hin. apply in_map_iff in Hin. destruct Hin as (project & Hid & Hin).
    destruct (Hsound project Hin) as [(event & Hev & He)|(event & Hev & He & Hreg)].
    + destruct Hev as [<-|[]]. rewrite Hid in He. discriminate.
    + rewrite Hid in He.
      destruct Hev as [<-|[<-|[<-|[<-|[]]]]]; try discriminate He.
      discriminate Hreg.
Defined.

(** *** getProject beside getProjects *)

Lemma removalOf_exists (removedEvents : list (Event Removed.Args)) (itemId : string)
  (removed : Event Removed.Args) :
  Reference.removalOf removedEvents itemId = Some removed ->
  In removed removedEvents /\ Removed._tcrItemId (args removed) = itemId.
Proof.
  intros H. apply find_some in H. destruct H as [Hin Heq].
  apply String.eqb_eq in Heq. auto.
Qed.

(** X14. The two operations tag a removed recipient differently.  For a
    recipient that was added and removed, [getProjects] called without a
    start block returns it hidden and not locked, while [getProject]
    returns it locked and not hidden. *)
Theorem removed_recipient_asymmetry (w : World) (registryAddress : string)
  (endBlock : option Z) (console console1 console2 : Console)
  (projects : list Project) (i : nat) (event : Event RecipientAddedArgs)
  (removed : Event Removed.Args) (found : Project) :
  getProjects w registryAddress None endBlock console = (console1, Ok projects) ->
  nth_error (RecipientAdded (registryAt w registryAddress)) i = Some event ->
  Reference.removalOf (RecipientRemoved (registryAt w registryAddress))
    (_tcrItemId (args event)) = Some removed ->
  getProject w registryAddress (_tcrItemId (args event)) console
  = (console2, Ok (Some found)) ->
  exists project,
    nth_error projects i = Some project /\
    id project = id found /\
    isHidden project = true /\ isLocked project = false /\
    isHidden found = false /\ isLocked found = true.
Proof.
  intros H Hi Hrem Hfound.
  destruct (getProjects_local _ _ _ _ _ _ _ _ _ H Hi)
    as (columns & values & complaints & index & _ & _ & _ & Hp).
  eexists. split; [exact Hp|].
  assert (Hflags : id found = _tcrItemId (args event)
                   /\ isHidden found = false /\ isLocked found = true).
  { apply removalOf_exists in Hrem.
    assert (Hlocked : forall v s idx,
              isLocked (Reference.lookedUpProject w (registryAt w registryAddress)
                          (_tcrItemId (args event)) v s idx) = true).
    { intros v s idx. cbn [isLocked Reference.lookedUpProject].
      apply removal_exists. eauto. }
    revert Hfound. rewrite getProject_step. cbv zeta.
    destruct (getTcrColumns w _) as [columns'|e]; [|discriminate].
    destruct (String.eqb _ "0x"); [discriminate|].
    destruct (gtcrDecode w columns' _) as [v l|e]; [|discriminate].
    destruct (toNumber _) as [s|e]; [|discriminate].
    destruct (filter _ (RecipientAdded _)) as [|first rest].
    - intros [= _ <-]. repeat split. apply Hlocked.
    - destruct (toNumber _) as [idx|e]; [|discriminate].
      intros [= _ <-]. repeat split. apply Hlocked. }
  destruct Hflags as (Hid & Hhidden & Hlocked).
  unfold Reference.localProject. cbv zeta. rewrite Hrem. cbn [id isHidden isLocked].
  repeat split; auto.
Qed.

Lemma removed_recipient_asymmetry_witness :
  exists project found,
    getProjects RegistryScenario.removedEarly "registry" None None RegistryScenario.console
    = (RegistryScenario.console, Ok [ project ]) /\
    getProject RegistryScenario.removedEarly "registry" "0x05" RegistryScenario.console
    = (RegistryScenario.console, Ok (Some found)) /\
    isHidden project = true /\ isLocked found = true.
Proof.
  do 2 eexists. split; [vm_compute; reflexivity|]. split; [vm_compute; reflexivity|].
  destruct (removed_recipient_asymmetry RegistryScenario.removedEarly "registry" None
              RegistryScenario.console RegistryScenario.console RegistryScenario.console
              _ 0%nat _ _ _ eq_refl eq_refl eq_refl eq_refl)
    as (project & Hp & _ & Hhidden & _ & _ & Hlocked).
  injection Hp as <-. split; [exact Hhidden|exact Hlocked].
Defined.

(** X15. On an item that only the curated list knows, the two operations
    agree: a project of [getProjects] whose id has no recipient-added event
    and no recipient-removed event is the very record [getProject] returns
    for its id, provided the item's data is not the empty payload (for which
    [getProject] returns null). *)
Theorem getProject_agrees_on_curated (w : World) (registryAddress : string)
  (startBlock endBlock : option Z) (console console' : Console)
  (projects : list Project) (project : Project) :
  getProjects w registryAddress startBlock endBlock console = (console', Ok projects) ->
  In project projects ->
  (forall event, In event (RecipientAdded (registryAt w registryAddress)) ->
                 _tcrItemId (args event) <> id project) ->
  (forall event, In event (RecipientRemoved (registryAt w registryAddress)) ->
                 Removed._tcrItemId (args event) <> id project) ->
  fst (getItemInfo (tcrAt w (tcr (registryAt w registryAddress))) (id project))
  <> "0x"%string ->
  getProject w registryAddress (id project) console = (console, Ok (Some project)).
Proof.
  intros H Hin Hadded Hremoved Hdata.
  pose proof (getProjects_Ok _ _ _ _ _ _ _ H)
    as (_ & columns & locals & curated & Hc & -> & Hl & Hcur & _).
  apply in_app_or in Hin. destruct Hin as [Hin|Hin].
  { exfalso. apply (in_map id) in Hin. rewrite (pushedFor_ids _ _ _ _ _ _ _ Hl) in Hin.
    apply in_map_iff in Hin. destruct Hin as (event & Hid & Hev).
    exact (Hadded event Hev Hid). }
  rewrite Forall_forall in Hcur.
  destruct (Hcur project Hin) as (event & values & complaints & _ & Hreg & Hd & ->).
  cbn [id Reference.curatedProject] in *.
  rewrite getProject_step. cbv zeta. rewrite Hc.
  apply String.eqb_neq in Hdata. rewrite Hdata, Hd, Hreg.
  assert (Hno_added :
            filter (fun ev => String.eqb (_tcrItemId (args ev)) (_itemID (args event)))
                   (RecipientAdded (registryAt w registryAddress)) = []).
  { destruct (filter _ (RecipientAdded _)) as [|first rest] eqn:Hf; [reflexivity|].
    exfalso.
    assert (Hfirst : In first (first :: rest)) by now left.
    rewrite <- Hf in Hfirst. apply filter_In in Hfirst. destruct Hfirst as [Hev He].
    apply String.eqb_eq in He. exact (Hadded first Hev He). }
  assert (Hno_removed :
            filter (fun ev => String.eqb (Removed._tcrItemId (args ev))
                                (_itemID (args event)))
                   (RecipientRemoved (registryAt w registryAddress)) = []).
  { destruct (filter _ (RecipientRemoved _)) as [|first rest] eqn:Hf; [reflexivity|].
    exfalso.
    assert (Hfirst : In first (first :: rest)) by now left.
    rewrite <- Hf in Hfirst. apply filter_In in Hfirst. destruct Hfirst as [Hev He].
    apply String.eqb_eq in He. exact (Hremoved first Hev He). }
  rewrite Hno_added. cbn [toNumber statusValue].
  unfold Reference.lookedUpProject, Reference.curatedProject.
  rewrite Hno_removed. reflexivity.
Qed.

Lemma getProject_agrees_on_curated_witness :
  exists project,
    snd (getProjects RegistryScenario.curated "registry" (Some 10) (Some 200)
           RegistryScenario.console)
    = Ok [ Reference.localProject RegistryScenario.curated [] (Some 10) (Some 200)
             (RegistryScenario.added "0x05" "0xc0de" 2 20)
             [ "Project"; "0x00a1"; "/ipfs/logo.png"; "A project" ]%string 2;
           project ] /\
    getProject RegistryScenario.curated "registry" "0x09" RegistryScenario.console
    = (RegistryScenario.console, Ok (Some project)).
Proof.
  exists (Reference.curatedProject RegistryScenario.curated "0x09"
            [ "Project"; "0x00a1"; "/ipfs/logo.png"; "A project" ]%string).
  split; [vm_compute; reflexivity|].
  apply (getProject_agrees_on_curated RegistryScenario.curated "registry"
           (Some 10) (Some 200) RegistryScenario.console RegistryScenario.console
           _ (Reference.curatedProject RegistryScenario.curated "0x09"
                [ "Project"; "0x00a1"; "/ipfs/logo.png"; "A project" ]%string)
           eq_refl).
  - right. left. reflexivity.
  - intros event [<-|[]]. discriminate.
  - intros event [].
  - discriminate.
Defined.

(** X16. The record [getProject] returns carries the index of the first
    recipient-added event for the id, or 0 when there is none, and in
    [extra] the item's current status on the curated list, whatever it is:
    unlike [getProjects], which only lists registered items, [getProject]
    also returns an item whose registration is pending or that is absent,
    as long as the list has data for it. *)
Theorem getProject_index_and_status (w : World) (registryAddress recipientId : string)
  (console console' : Console) (project : Project) :
  getProject w registryAddress recipientId console = (console', Ok (Some project)) ->
  id project = recipientId /\
  extra project
  = Some {| tcrItemStatus :=
              snd (getItemInfo (tcrAt w (tcr (registryAt w registryAddress))) recipientId);
            tcrItemUrl := (KLEROS_CURATE_URL ++ "/" ++ recipientId)%string |} /\
  ((forall event, In event (RecipientAdded (registryAt w registryAddress)) ->
                  _tcrItemId (args event) <> recipientId) ->
   index project = 0) /\
  (forall before event after,
     RecipientAdded (registryAt w registryAddress) = before ++ event :: after ->
     _tcrItemId (args event) = recipientId ->
     (forall earlier, In earlier before -> _tcrItemId (args earlier) <> recipientId) ->
     index project = _index (args event)).
Proof.
  rewrite getProject_step. cbv zeta.
  destruct (getTcrColumns w _) as [columns|e]; [|discriminate].
  destruct (String.eqb _ "0x"); [discriminate|].
  destruct (gtcrDecode w columns _) as [values complaints|e]; [|discriminate].
  destruct (toNumber _) as [status|e] eqn:Hs; [|discriminate].
  apply toNumber_Ok in Hs. destruct Hs as [-> _].
  set (matches := fun ev : Event RecipientAddedArgs =>
                    String.eqb (_tcrItemId (args ev)) recipientId).
  assert (Hfirst : forall before event after,
            RecipientAdded (registryAt w registryAddress) = before ++ event :: after ->
            _tcrItemId (args event) = recipientId ->
            (forall earlier, In earlier before -> _tcrItemId (args earlier) <> recipientId) ->
            exists rest,
              filter matches (RecipientAdded (registryAt w registryAddress))
              = event :: rest).
  { intros before event after -> Hid Hbefore. rewrite filter_app. cbn [filter].
    assert (Hnone : filter matches before = []).
    { induction before as [|b l IH]; [reflexivity|]. cbn [filter].
      assert (Hb : matches b = false).
      { apply String.eqb_neq. apply Hbefore. now left. }
      rewrite Hb. apply IH. intros earlier Hin. apply Hbefore. now right. }
    rewrite Hnone. cbn [app]. unfold matches at 1. rewrite Hid, String.eqb_refl. eauto. }
  destruct (filter matches (RecipientAdded (registryAt w registryAddress)))
    as [|first rest] eqn:Hf.
  - intros [= _ <-]. repeat split.
    intros before event after Hsplit Hid Hbefore.
    destruct (Hfirst before event after Hsplit Hid Hbefore) as (rest & Hrest).
    discriminate.
  - destruct (toNumber _) as [index|e] eqn:Hi; [|discriminate].
    apply toNumber_Ok in Hi. destruct Hi as [-> _].
    intros [= _ <-]. repeat split.
    + intros Hnone. exfalso.
      assert (Hin : In first (first :: rest)) by now left.
      rewrite <- Hf in Hin. apply filter_In in Hin. destruct Hin as [Hev He].
      apply String.eqb_eq in He. exact (Hnone first Hev He).
    + intros before event after Hsplit Hid Hbefore.
      destruct (Hfirst before event after Hsplit Hid Hbefore) as (rest' & Hrest).
      injection Hrest as <- _. reflexivity.
Qed.

(** Item 10 is pending on the curated list and was never added locally. *)
Lemma getProject_index_and_status_witness :
  exists project,
    getProject RegistryScenario.curated "registry" "0x0a" RegistryScenario.console
    = (RegistryScenario.console, Ok (Some project)) /\
    index project = 0 /\
    extra project
    = Some {| tcrItemStatus := statusValue RegistrationRequested;
              tcrItemUrl := (KLEROS_CURATE_URL ++ "/0x0a")%string |}.
Proof.
  eexists. split; [vm_compute; reflexivity|].
  destruct (getProject_index_and_status RegistryScenario.curated "registry" "0x0a"
              RegistryScenario.console RegistryScenario.console _ eq_refl)
    as (_ & Hextra & Hindex & _).
  split; [|exact Hextra].
  apply Hindex. intros event [<-|[]]. discriminate.
Defined.

End RecipientsFacts.

(** ** Properties of the user module *)

Module UserFacts.

Import Js JsFacts User.
Local Open Scope string_scope.

Lemma append_cancel_l (p x y : string) : p ++ x = p ++ y -> x = y.
Proof.
  induction p as [|c p IH]; cbn; [auto|]. intros [= H]. auto.
Qed.

Lemma append_cancel_dot (x y : string) : x ++ "." = y ++ "." -> x = y.
Proof.
  revert y. induction x as [|c x IH]; intros [|d y]; cbn; intros H.
  - reflexivity.
  - injection H as _ H. destruct y; discriminate.
  - injection H as _ H. destruct x; discriminate.
  - injection H as -> H. f_equal. auto.
Qed.

(** X17. The login message names the factory in lower case, so two
    deployments have the same login message exactly when their factory
    addresses are the same up to letter case. *)
Theorem LOGIN_MESSAGE_same (w w' : World) :
  LOGIN_MESSAGE w = LOGIN_MESSAGE w'
  <-> Reference.sameAddress (factoryAddress w) (factoryAddress w') = true.
Proof.
  unfold LOGIN_MESSAGE, Reference.sameAddress. rewrite String.eqb_eq. split.
  - intros H. apply append_cancel_l in H. now apply append_cancel_dot in H.
  - intros ->. reflexivity.
Qed.



End UserFacts.

(** ** Properties of the tally script *)

Module TallyFacts.

Import Js Tally.

(** Every way the script can go: one case for each outcome of each outside
    call, each with its explicit trace. *)
Ltac step :=
  match goal with
  | |- context [match ?x with _ => _ end] =>
      lazymatch x with
      | context [match _ with _ => _ end] => fail
      | _ => destruct x eqn:?
      end
  end.

Ltac run_script :=
  unfold script, main;
  set (key := match COORDINATOR_ETH_PK _ with
              | Some k => if truthyString (Some k) then k else _
              | None => _
              end);
  clearbody key;
  unfold bindScript, call, ret, throw; cbn [app];
  repeat (step; cbn [app]).

(** An effect that is in an explicit trace is one of its items. *)
Ltac pick_effect H :=
  cbn [In] in H;
  repeat match type of H with
         | _ \/ _ => destruct H as [H|H]
         | False => contradiction
         end;
  try discriminate H.

(** X19. The script tallies only after message processing has returned a
    random state leaf that is not empty: a call of the tally command comes
    right after a call of the processing command, it is given that leaf as
    [leaf_zero], and the same contract, keys and provider. *)
Theorem tally_follows_processing (env : Env) (tallyArgs : TallyArgs.t) :
  In (TallyVotes tallyArgs) (script env) ->
  exists before after processArgs,
    script env = before ++ ProcessMessages processArgs :: TallyVotes tallyArgs :: after /\
    processCmd env processArgs = Ok (Some (TallyArgs.leaf_zero tallyArgs)) /\
    TallyArgs.leaf_zero tallyArgs <> ""%string /\
    TallyArgs.contract tallyArgs = ProcessArgs.contract processArgs /\
    TallyArgs.eth_privkey tallyArgs = ProcessArgs.eth_privkey processArgs /\
    TallyArgs.eth_provider tallyArgs = ProcessArgs.eth_provider processArgs /\
    TallyArgs.privkey tallyArgs = ProcessArgs.privkey processArgs.
Proof.
  run_script; intros H; pick_effect H; injection H as <-.
  all: lazymatch goal with
       | |- context [@eq (list Effect)
                       (?a :: ?b :: ?c :: ProcessMessages ?p :: TallyVotes _ :: ?after) _] =>
           exists [a; b; c], after, p
       | |- context [@eq (list Effect)
                       (?a :: ?b :: ProcessMessages ?p :: TallyVotes _ :: ?after) _] =>
           exists [a; b], after, p
       end.
  all: split; [reflexivity|]; split; [subst; assumption|]; split; [|repeat split].
  all: cbn [TallyArgs.leaf_zero]; intros ->;
    match goal with
    | E : negb (truthyString (Some _)) = false |- _ => discriminate E
    end.
Qed.

Lemma tally_follows_processing_witness :
  exists processArgs,
    In (ProcessMessages processArgs) (script (ScriptScenario.tallying (Some "1234"%string)))
    /\ ProcessArgs.eth_privkey processArgs = DEFAULT_COORDINATOR_ETH_PK.
Proof.
  destruct (tally_follows_processing (ScriptScenario.tallying (Some "1234"%string))
              {| TallyArgs.contract := "0x3AC1";
                 TallyArgs.eth_privkey := DEFAULT_COORDINATOR_ETH_PK;
                 TallyArgs.eth_provider := "http://localhost:8545";
                 TallyArgs.privkey := "macisk.1";
                 TallyArgs.repeat := true;
                 TallyArgs.current_results_salt := "0x0";
                 TallyArgs.current_total_vc_salt := "0x0";
                 TallyArgs.current_per_vo_vc_salt := "0x0";
                 TallyArgs.leaf_zero := "1234";
                 TallyArgs.tally_file := "tally.json" |})
    as (before & after & processArgs & Htrace & _ & _ & _ & Hkey & _).
  - vm_compute. tauto.
  - exists processArgs. split.
    + rewrite Htrace. apply in_or_app. right. left. reflexivity.
    + symmetry. exact Hkey.
Defined.

(** X20. When message processing does not yield a random state leaf -- it
    throws, returns nothing or returns the empty string -- the script calls
    neither the tally command nor the hash publication, logs no tally hash
    and exits with code 1; and if the processing command was called and
    did not throw, what it prints is the error 'message processing failed'. *)
Theorem failed_processing_stops (env : Env) :
  (forall processArgs leaf,
     processCmd env processArgs = Ok (Some leaf) -> leaf = ""%string) ->
  (forall tallyArgs, ~ In (TallyVotes tallyArgs) (script env)) /\
  (forall round hash, ~ In (PublishTallyHash round hash) (script env)) /\
  (forall line, ~ In (ConsoleLog line) (script env)) /\
  ~ In (Exit 0) (script env) /\
  In (Exit 1) (script env) /\
  (forall processArgs leaf,
     In (ProcessMessages processArgs) (script env) ->
     processCmd env processArgs = Ok leaf ->
     In (ConsoleError (Error "message processing failed")) (script env)).
Proof.
  intros Hleaf. run_script.
  all: try match goal with
           | E : processCmd _ _ = Ok (Some ?leaf),
             F : negb (truthyString (Some ?leaf)) = false |- _ =>
               apply Hleaf in E; subst leaf; discriminate F
           end.
  all: repeat split;
    try (intros; intros H; pick_effect H);
    try (cbn [In]; tauto).
  all: intros processArgs leaf H Hp; pick_effect H; injection H as <-;
    try congruence; cbn [In]; tauto.
Qed.

Lemma failed_processing_stops_witness :
  In (Exit 1) (script (ScriptScenario.tallying (Some ""%string))) /\
  ~ In (Exit 0) (script (ScriptScenario.tallying (Some ""%string))).
Proof.
  destruct (failed_processing_stops (ScriptScenario.tallying (Some ""%string)))
    as (_ & _ & _ & Hzero & Hone & _).
  - intros processArgs leaf [= <-]. reflexivity.
  - split; assumption.
Defined.



End TallyFacts.
